(** * Books serverless API: a shallow embedding of [src/index.js]

    The worker is one [fetch] handler around a D1 store and an optional
    rate limiter.  The handler is embedded as a program over the calls it
    makes to its collaborators ([Prog]): the console, the limiter, the
    store and the id generator.  A run of the program against an
    environment ([run]) gives the calls made, in order, and the response
    or the error.  The helpers of the source ([safeParseInt],
    [validateBook], [executeQuery], [checkRateLimit], ...) and the
    branches of [fetch] keep their names.

    Conventions of the embedding:
    - a JavaScript string is a [string] whose characters stand for code
      units below 256; [.length] is [String.length];
    - a JavaScript number is an integer of [Z] ([JNum]) or [JNaN]; the
      arithmetic the handler does ([(page - 1) * limit],
      [Math.ceil(count / limit)]) is exact on them.  This is the
      language on the safe integers ([isSafeInteger], magnitude up to
      [2^53 - 1]); beyond them the language rounds to doubles and the
      embedding does not, and a statement that depends on the value of
      such a number says that it is taken on the safe integers;
    - an object is the list of its own properties in [Object.keys] order;
      ToString of an object is ['[object Object]'], which is the
      language when the object has no [toString] of its own
      ([toStringExact]);
    - every call to a collaborator settles, and an error of a
      collaborator is an [Error] with a text as message, as those of the
      bindings of the runtime are;
    - the text of the SQL statements is kept up to layout white space;
    - the [timestamp] and [duration] fields of the log records, and the
      [timestamp] of the health body, which read the wall clock, are left
      out.

    Layout: strings, values and the ISBN pattern; errors, calls and
    programs; the worker (module [Worker]); a scripted environment and
    the words of the specification; then the properties: those of the
    specification first, then more of the worker (what every run of
    [fetch] does, the gates, and the branches past the gates). *)

From Stdlib Require Import ZArith List String Ascii Bool Lia.
From Stdlib Require Import DecimalString DecimalPos.
Import ListNotations.
Set Warnings "-notation-for-abbreviation".
Local Open Scope string_scope.
Local Open Scope Z_scope.

(** ** Strings *)

Module Str.

Definition code (c : ascii) : N := N_of_ascii c.

(** White space of [String.prototype.trim] and of [parseInt]: TAB, LF,
    VT, FF, CR, SP and NBSP among the code units below 256. *)
Definition isWhite (c : ascii) : bool :=
  let n := code c in
  ((9 <=? n) && (n <=? 13))%N || (n =? 32)%N || (n =? 160)%N.

(** [\d] *)
Definition isDigit (c : ascii) : bool :=
  let n := code c in ((48 <=? n) && (n <=? 57))%N.

Definition isHyphen (c : ascii) : bool := (code c =? 45)%N.

Fixpoint trimStart (s : string) : string :=
  match s with
  | String c r => if isWhite c then trimStart r else s
  | EmptyString => EmptyString
  end.

Fixpoint allWhite (s : string) : bool :=
  match s with
  | String c r => isWhite c && allWhite r
  | EmptyString => true
  end.

Fixpoint trimEnd (s : string) : string :=
  match s with
  | String c r => if allWhite s then EmptyString else String c (trimEnd r)
  | EmptyString => EmptyString
  end.

(** [s.trim()] *)
Definition trim (s : string) : string := trimEnd (trimStart s).

(** [hay.includes(needle)] *)
Fixpoint includes (hay needle : string) : bool :=
  prefix needle hay ||
  match hay with
  | String _ r => includes r needle
  | EmptyString => false
  end.

(** [s.replace(pat, rep)] for a string pattern: the first occurrence
    only.  [rep] holds no [$] in this program. *)
Fixpoint replace (s pat rep : string) : string :=
  if prefix pat s
  then rep ++ substring (String.length pat) (String.length s - String.length pat) s
  else match s with
       | String c r => String c (replace r pat rep)
       | EmptyString => EmptyString
       end.

Fixpoint forallb (p : ascii -> bool) (s : string) : bool :=
  match s with
  | String c r => p c && forallb p r
  | EmptyString => true
  end.

(** [list.includes(x)] on a list of strings *)
Definition mem (x : string) (l : list string) : bool :=
  existsb (String.eqb x) l.

(** Decimal rendering of an integer, as [String(n)] gives it. *)
Definition ofZ (n : Z) : string := NilZero.string_of_int (Z.to_int n).

End Str.

Arguments Str.mem : simpl never.

(** ** JavaScript values *)

#[warnings="-register-all"]
Inductive JsValue : Type :=
| JUndefined
| JNull
| JBool (b : bool)
| JNum (n : Z)
| JNaN
| JStr (s : string)
| JArr (items : list JsValue)
| JObj (props : list (string * JsValue)).

Module Js.

(** ToBoolean *)
Definition truthy (v : JsValue) : bool :=
  match v with
  | JUndefined | JNull | JNaN => false
  | JBool b => b
  | JNum n => negb (n =? 0)
  | JStr s => negb (String.eqb s "")
  | JArr _ | JObj _ => true
  end.

(** [typeof v === 'string'] *)
Definition isString (v : JsValue) : bool :=
  match v with JStr _ => true | _ => false end.

(** [v === ''] *)
Definition isEmptyStr (v : JsValue) : bool :=
  match v with JStr s => String.eqb s "" | _ => false end.

(** ToString.  A number is rendered by its digits, as the language
    does for the safe integers; an array by joining its elements; an
    object as ['[object Object]'], as the language does for an object
    with no [toString] of its own.  [toStringExact], below, names the
    values on which this is the language. *)
Fixpoint toString (v : JsValue) : string :=
  match v with
  | JUndefined => "undefined"
  | JNull => "null"
  | JBool true => "true"
  | JBool false => "false"
  | JNum n => Str.ofZ n
  | JNaN => "NaN"
  | JStr s => s
  | JArr items =>
      let elt x := match x with
                   | JUndefined | JNull => ""
                   | _ => toString x
                   end in
      (fix join (l : list JsValue) : string :=
         match l with
         | [] => ""
         | [x] => elt x
         | x :: r => elt x ++ "," ++ join r
         end) items
  | JObj _ => "[object Object]"
  end.

(** Own property of an object given as its property list. *)
Fixpoint lookup (k : string) (props : list (string * JsValue)) : option JsValue :=
  match props with
  | [] => None
  | (k', v) :: r => if String.eqb k k' then Some v else lookup k r
  end.

(** [o[k] = v] on a property list: in place when [k] is there, appended
    otherwise. *)
Fixpoint assign (k : string) (v : JsValue) (props : list (string * JsValue))
  : list (string * JsValue) :=
  match props with
  | [] => [(k, v)]
  | (k', v') :: r =>
      if String.eqb k k' then (k', v) :: r else (k', v') :: assign k v r
  end.

(** Own enumerable properties, as object spread copies them.  Only
    objects carry any in this embedding (array indices and string
    indices are never named by the handler). *)
Definition ownProps (v : JsValue) : list (string * JsValue) :=
  match v with
  | JObj props => props
  | _ => []
  end.

(** The own properties of [src] copied over [acc], in key order. *)
Definition copyProps (src : JsValue) (acc : list (string * JsValue))
  : list (string * JsValue) :=
  fold_left (fun o k =>
               match lookup k (ownProps src) with
               | Some v => assign k v o
               | None => o
               end)
            (map fst (ownProps src)) acc.

(** [{ ...a, ...b }] *)
Definition spread (a b : JsValue) : JsValue :=
  JObj (copyProps b (copyProps a [])).

(** [o[k]] where [o] is neither [null] nor [undefined]. *)
Definition prop (o : JsValue) (k : string) : JsValue :=
  match o with
  | JObj props => match lookup k props with Some v => v | None => JUndefined end
  | _ => JUndefined
  end.

(** The property list without the property [k]. *)
Definition remove (k : string) (props : list (string * JsValue))
  : list (string * JsValue) :=
  filter (fun kv => negb (String.eqb k (fst kv))) props.

(** [v || null] *)
Definition orNull (v : JsValue) : JsValue := if truthy v then v else JNull.

(** Digits of [parseInt] in radix 10 and 16. *)
Definition digit (radix : Z) (c : ascii) : option Z :=
  let n := Z.of_N (Str.code c) in
  if (48 <=? n) && (n <=? 57) then Some (n - 48)
  else if radix =? 16 then
    if (97 <=? n) && (n <=? 102) then Some (n - 87)
    else if (65 <=? n) && (n <=? 70) then Some (n - 55)
    else None
  else None.

(** The longest prefix of digits, read in [radix]; [None] when it is
    empty. *)
Fixpoint digits (radix : Z) (acc : option Z) (s : string) : option Z :=
  match s with
  | String c r =>
      match digit radix c with
      | Some d =>
          digits radix (Some (match acc with Some a => a * radix + d | None => d end)) r
      | None => acc
      end
  | EmptyString => acc
  end.

(** [parseInt(s)] with no radix argument; [None] is [NaN].  The integer
    read is the one the digits spell; the language gives the double
    nearest to it, which is that integer up to [2^53]. *)
Definition parseIntStr (s : string) : option Z :=
  let s1 := Str.trimStart s in
  let '(sign, s2) :=
    match s1 with
    | String "-" r => (-1, r)
    | String "+" r => (1, r)
    | _ => (1, s1)
    end in
  let '(radix, s3) :=
    match s2 with
    | String "0" (String "x" r) => (16, r)
    | String "0" (String "X" r) => (16, r)
    | _ => (10, s2)
    end in
  match digits radix None s3 with
  | Some n => Some (sign * n)
  | None => None
  end.

(** [parseInt(v)] *)
Definition parseInt (v : JsValue) : option Z := parseIntStr (toString v).

End Js.

(** ** The pattern of the ISBN check

    [/^(?:\d{10}|\d{13}|[\d-]{13,17})$/]: an alternation of bounded
    repetitions of a character class, anchored at both ends.  [test]
    runs the pattern over the whole string by derivatives. *)

Module Regex.

Inductive Class : Type :=
| Digit            (* \d *)
| DigitOrHyphen.   (* [\d-] *)

Definition inClass (k : Class) (c : ascii) : bool :=
  match k with
  | Digit => Str.isDigit c
  | DigitOrHyphen => Str.isDigit c || Str.isHyphen c
  end.

Inductive Re : Type :=
| Repeat (k : Class) (lo hi : nat)   (* k{lo,hi} *)
| Alt (r1 r2 : Re)                   (* r1|r2 *)
| NoMatch.

Fixpoint nullable (r : Re) : bool :=
  match r with
  | Repeat _ lo _ => Nat.eqb lo 0
  | Alt r1 r2 => nullable r1 || nullable r2
  | NoMatch => false
  end.

Fixpoint deriv (c : ascii) (r : Re) : Re :=
  match r with
  | Repeat k lo hi =>
      match hi with
      | O => NoMatch
      | S hi' => if inClass k c then Repeat k (Nat.pred lo) hi' else NoMatch
      end
  | Alt r1 r2 => Alt (deriv c r1) (deriv c r2)
  | NoMatch => NoMatch
  end.

(** [^r$] tested on [s] *)
Fixpoint test (r : Re) (s : string) : bool :=
  match s with
  | String c t => test (deriv c r) t
  | EmptyString => nullable r
  end.

Definition isbnPattern : Re :=
  Alt (Repeat Digit 10 10) (Alt (Repeat Digit 13 13) (Repeat DigitOrHyphen 13 17)).

End Regex.

(** ** Errors *)

Inductive ErrorClass : Type :=
| ValidationError
| NotFoundError
| RateLimitError
| PlainError.   (* Error, TypeError, SyntaxError: no class of the worker *)

Record JsError : Type := mkError {
  eclass : ErrorClass;
  message : string;
  stack : string
}.

(** [this.status], set by the constructors of the three classes. *)
Definition classStatus (c : ErrorClass) : option Z :=
  match c with
  | ValidationError => Some 400
  | NotFoundError => Some 404
  | RateLimitError => Some 429
  | PlainError => None
  end.

(** A failure raised by a collaborator (the store, the limiter, the body
    reader): an [Error] that is none of the worker's classes, with its
    message and its stack.  A rejection with a value that is no [Error]
    and has no message is not in the embedding. *)
Record Fault : Type := mkFault {
  faultMessage : string;
  faultStack : string
}.

Definition ofFault (f : Fault) : JsError :=
  mkError PlainError (faultMessage f) (faultStack f).

(** ** Calls to the collaborators *)

Inductive Level : Type := LogLevel | ErrorLevel.   (* console.log, console.error *)

Inductive Action : Type :=
| RandomUUID                                      (* crypto.randomUUID() *)
| Console (l : Level) (label : string) (fields : list (string * JsValue))
| Limit (key : string)                            (* env.MY_RATE_LIMITER.limit({ key }) *)
| RaceAll (sql : string) (binds : list JsValue)   (* Promise.race([stmt.all(), timeout]) *)
| StmtAll (sql : string) (binds : list JsValue)   (* stmt.all() *)
| StmtFirst (sql : string) (binds : list JsValue) (* stmt.first() *)
| StmtRun (sql : string) (binds : list JsValue).  (* stmt.run() *)

Inductive Raced : Type :=
| Rows (results : list JsValue)
| Rejected (f : Fault)
| TimedOut.

Record RunResult : Type := mkRunResult {
  success : bool;
  last_row_id : JsValue
}.

Definition Reply (a : Action) : Type :=
  match a with
  | RandomUUID => string
  | Console _ _ _ => unit
  | Limit _ => (Fault + bool)%type      (* rejection, or the [success] flag *)
  | RaceAll _ _ => Raced
  | StmtAll _ _ => (Fault + list JsValue)%type
  | StmtFirst _ _ => (Fault + JsValue)%type
  | StmtRun _ _ => (Fault + RunResult)%type
  end.

(** A computation of the worker: it returns, throws, or calls a
    collaborator and goes on with the reply. *)
Inductive Prog (A : Type) : Type :=
| Ret (a : A)
| Throw (e : JsError)
| Call (a : Action) (k : Reply a -> Prog A).

Arguments Ret {A} a.
Arguments Throw {A} e.
Arguments Call {A} a k.

Fixpoint bind {A B : Type} (p : Prog A) (f : A -> Prog B) : Prog B :=
  match p with
  | Ret a => f a
  | Throw e => Throw e
  | Call a k => Call a (fun r => bind (k r) f)
  end.

(** [try { p } catch (error) { h error }] *)
Fixpoint tryCatch {A : Type} (p : Prog A) (h : JsError -> Prog A) : Prog A :=
  match p with
  | Ret a => Ret a
  | Throw e => h e
  | Call a k => Call a (fun r => tryCatch (k r) h)
  end.

(** [try { p } finally { f }] *)
Fixpoint tryFinally {A : Type} (p : Prog A) (f : Prog unit) : Prog A :=
  match p with
  | Ret a => bind f (fun _ => Ret a)
  | Throw e => bind f (fun _ => Throw e)
  | Call a k => Call a (fun r => tryFinally (k r) f)
  end.

Declare Scope prog_scope.
Delimit Scope prog_scope with prog.
Notation "x <- p ;; q" := (bind p (fun x => q))
  (at level 61, p at next level, right associativity) : prog_scope.
Notation "p ;; q" := (bind p (fun _ => q))
  (at level 61, right associativity) : prog_scope.
Local Open Scope prog_scope.

Definition call (a : Action) : Prog (Reply a) := Call a (fun r => Ret r).

(** ** Running a computation against an environment

    The environment answers every call from its state [W]: every call
    settles.  A run gives the calls made, in order, the outcome and the
    final state. *)

Definition Handler (W : Type) : Type := forall a : Action, W -> Reply a * W.

Inductive Outcome (A : Type) : Type :=
| Returned (a : A)
| Threw (e : JsError).

Arguments Returned {A} a.
Arguments Threw {A} e.

Fixpoint run {W A : Type} (h : Handler W) (p : Prog A) (w : W)
  : list Action * Outcome A * W :=
  match p with
  | Ret a => ([], Returned a, w)
  | Throw e => ([], Threw e, w)
  | Call a k =>
      let '(r, w1) := h a w in
      let '(t, o, w2) := run h (k r) w1 in
      (a :: t, o, w2)
  end.

(** What the environment answers to the call [a] in the state [w], and
    the state it is in afterwards. *)
Definition reply {W : Type} (h : Handler W) (a : Action) (w : W) : Reply a :=
  fst (h a w).

Definition after {W : Type} (h : Handler W) (a : Action) (w : W) : W :=
  snd (h a w).

Definition isStoreCall (a : Action) : bool :=
  match a with
  | RaceAll _ _ | StmtAll _ _ | StmtFirst _ _ | StmtRun _ _ => true
  | _ => false
  end.

Definition isLimiterCall (a : Action) : bool :=
  match a with Limit _ => true | _ => false end.

(** ** The request, the response and the bindings *)

Record Request : Type := mkRequest {
  method : string;
  url : string;                               (* request.url, as logged *)
  pathname : string;                          (* new URL(request.url).pathname *)
  searchParams : list (string * string);      (* new URL(request.url).searchParams *)
  requestHeaders : list (string * string);    (* names in lower case *)
  json : Fault + JsValue                      (* what request.json() settles to *)
}.

Record Response : Type := mkResponse {
  status : Z;
  body : option JsValue;                      (* the value given to JSON.stringify *)
  headers : list (string * string)
}.

Record Env : Type := mkEnv {
  MY_RATE_LIMITER : bool                      (* is the limiter bound? *)
}.

(** [params.get(name)], [request.headers.get(name)]: the first value or
    [null]. *)
Fixpoint getParam (name : string) (l : list (string * string)) : JsValue :=
  match l with
  | [] => JNull
  | (k, v) :: r => if String.eqb name k then JStr v else getParam name r
  end.

Definition ALLOWED_UPDATE_FIELDS : list string :=
  ["title"; "author"; "year"; "isbn"; "genre"; "description"].

(** [!isNaN(parsed) && parsed > 0 ? parsed : defaultValue]; [num] injects
    the parsed number in the type of the default ([1], [10], [0] are
    numbers, the default of [year] is [null]). *)
Definition safeParseInt {T : Type} (num : Z -> T) (value : JsValue) (defaultValue : T) : T :=
  match Js.parseInt value with
  | Some parsed => if 0 <? parsed then num parsed else defaultValue
  | None => defaultValue
  end.

Definition corsHeaders : list (string * string) :=
  [("Content-Type", "application/json");
   ("Access-Control-Allow-Origin", "*");
   ("Access-Control-Allow-Methods", "GET, POST, PUT, DELETE, OPTIONS");
   ("Access-Control-Allow-Headers", "Content-Type")].

(** [createResponse(body, status, headers)]; no call site passes a header
    that is among the fixed ones, so the spread is an append. *)
Definition createResponse (body : JsValue) (status : Z) (headers : list (string * string))
  : Response :=
  {| status := status;
     body := match body with JNull => None | _ => Some body end;
     headers := (corsHeaders ++ headers)%list |}.

Definition errorBody (msg : string) : JsValue := JObj [("error", JStr msg)].

(** [Math.ceil(count / limit)] for [limit >= 1].  ToNumber is given on
    [undefined], [null], booleans and numbers; a count is none of the
    others. *)
Definition ceilDiv (count : JsValue) (limit : Z) : JsValue :=
  match count with
  | JNum c => JNum (- ((- c) / limit))
  | JNull | JBool false => JNum 0
  | JBool true => JNum (- ((- 1) / limit))
  | _ => JNaN
  end.

(** [contentLength && parseInt(contentLength) > 1048576] *)
Definition bodyTooLarge (request : Request) : bool :=
  let contentLength := getParam "content-length" (requestHeaders request) in
  Js.truthy contentLength &&
  match Js.parseInt contentLength with
  | Some n => 1048576 <? n
  | None => false
  end.

(** [request.headers.get('cf-connecting-ip') || ''] *)
Definition clientIp (request : Request) : string :=
  match getParam "cf-connecting-ip" (requestHeaders request) with
  | JStr s => s
  | _ => ""
  end.

(** The locals [page], [limit], [genre] and [year] of [GET /api/books]. *)
Definition pageOf (params : list (string * string)) : Z :=
  safeParseInt (fun n => n) (getParam "page" params) 1.

Definition limitOf (params : list (string * string)) : Z :=
  Z.min (safeParseInt (fun n => n) (getParam "limit" params) 10) 100.

Definition genreOf (params : list (string * string)) : JsValue :=
  getParam "genre" params.

Definition yearOf (params : list (string * string)) : JsValue :=
  safeParseInt JNum (getParam "year" params) JNull.

Module Worker.
Section Runtime.

(** [new Date().getFullYear()] at the time of the request. *)
Variable currentYear : Z.

(** The stack the runtime records in an error made with [new]. *)
Variable captureStack : ErrorClass -> string -> string.

Definition newError (c : ErrorClass) (msg : string) : JsError :=
  mkError c msg (captureStack c msg).

Definition throw {A : Type} (c : ErrorClass) (msg : string) : Prog A :=
  Throw (newError c msg).

(** [o[k]]: a TypeError on [null] and [undefined]; only own properties
    of objects are there under the names the worker reads. *)
Definition getProp (o : JsValue) (k : string) : Prog JsValue :=
  match o with
  | JUndefined =>
      throw PlainError ("Cannot read properties of undefined (reading '" ++ k ++ "')")
  | JNull =>
      throw PlainError ("Cannot read properties of null (reading '" ++ k ++ "')")
  | _ => Ret (Js.prop o k)
  end.

(** [v.trim()] *)
Definition callTrim (v : JsValue) : Prog JsValue :=
  match v with
  | JStr s => Ret (JStr (Str.trim s))
  | JUndefined | JNull =>
      throw PlainError ("Cannot read properties of " ++ Js.toString v ++ " (reading 'trim')")
  | _ => throw PlainError "trim is not a function"
  end.

(** [Object.keys(o)] *)
Definition Object_keys (o : JsValue) : Prog (list string) :=
  match o with
  | JUndefined | JNull => throw PlainError "Cannot convert undefined or null to object"
  | JObj props => Ret (map fst props)
  | JArr items => Ret (map (fun i => Str.ofZ (Z.of_nat i)) (seq 0 (List.length items)))
  | JStr s => Ret (map (fun i => Str.ofZ (Z.of_nat i)) (seq 0 (String.length s)))
  | _ => Ret []
  end.

Definition notAbsent (v : JsValue) : bool :=
  match v with
  | JNull | JUndefined => false
  | _ => negb (Js.isEmptyStr v)
  end.

Definition lengthOf (v : JsValue) : nat :=
  match v with JStr s => String.length s | _ => O end.

(** [required.filter((field) => !book[field])] *)
Fixpoint missingFields (book : JsValue) (required : list string) : Prog (list string) :=
  match required with
  | [] => Ret []
  | field :: rest =>
      v <- getProp book field ;;
      more <- missingFields book rest ;;
      Ret (if Js.truthy v then more else field :: more)
  end.

(** Lines 40-46. *)
Definition checkRequired (book : JsValue) (isUpdate : bool) : Prog unit :=
  if negb isUpdate then
    missing <- missingFields book ["title"; "author"] ;;
    if negb (Nat.eqb (List.length missing) 0)
    then throw ValidationError ("Missing required fields: " ++ String.concat ", " missing)
    else Ret tt
  else Ret tt.

(** The title and author checks (lines 49-66): non-empty text of at
    most [maxLen]. *)
Definition checkText (book : JsValue) (field what : string) (maxLen : nat) : Prog unit :=
  v <- getProp book field ;;
  match v with
  | JUndefined => Ret tt
  | JStr s =>
      if Nat.eqb (String.length (Str.trim s)) 0
      then throw ValidationError (what ++ " must be a non-empty string")
      else if Nat.ltb maxLen (String.length s)
      then throw ValidationError
             (what ++ " must be " ++ Str.ofZ (Z.of_nat maxLen) ++ " characters or less")
      else Ret tt
  | _ => throw ValidationError (what ++ " must be a non-empty string")
  end.

(** Lines 69-75. *)
Definition checkYear (book : JsValue) : Prog unit :=
  year <- getProp book "year" ;;
  if notAbsent year then
    match Js.parseInt year with
    | Some yearNum =>
        if (yearNum <? 0) || (currentYear + 10 <? yearNum)
        then throw ValidationError
               ("Year must be a valid number between 0 and " ++ Str.ofZ (currentYear + 10))
        else Ret tt
    | None =>
        throw ValidationError
          ("Year must be a valid number between 0 and " ++ Str.ofZ (currentYear + 10))
    end
  else Ret tt.

(** Lines 78-85. *)
Definition checkIsbn (book : JsValue) : Prog unit :=
  isbn <- getProp book "isbn" ;;
  if Js.truthy isbn && negb (Js.isEmptyStr isbn) then
    match isbn with
    | JStr s =>
        if negb (Regex.test Regex.isbnPattern s)
        then throw ValidationError "Invalid ISBN format"
        else Ret tt
    | _ => throw ValidationError "ISBN must be a string"
    end
  else Ret tt.

(** The description and genre checks (lines 88-105): text of at most
    [maxLen] when given. *)
Definition checkOptionalText (book : JsValue) (field what : string) (maxLen : nat)
  : Prog unit :=
  v <- getProp book field ;;
  if notAbsent v then
    if negb (Js.isString v)
    then throw ValidationError (what ++ " must be a string")
    else if Nat.ltb maxLen (lengthOf v)
    then throw ValidationError
           (what ++ " must be " ++ Str.ofZ (Z.of_nat maxLen) ++ " characters or less")
    else Ret tt
  else Ret tt.

(** [validateBook(book, isUpdate)] (lines 38-106): the checks in the
    order of the source, the first violation thrown. *)
Definition validateBook (book : JsValue) (isUpdate : bool) : Prog unit :=
  checkRequired book isUpdate ;;
  checkText book "title" "Title" 500 ;;
  checkText book "author" "Author" 200 ;;
  checkYear book ;;
  checkIsbn book ;;
  checkOptionalText book "description" "Description" 5000 ;;
  checkOptionalText book "genre" "Genre" 100.

(** A check passes or throws a ValidationError; it calls no
    collaborator. *)
Definition passesOrRejects (p : Prog unit) : Prop :=
  p = Ret tt \/ exists msg, p = throw ValidationError msg.

(** Lines 129-136. *)
Definition validateContentType (request : Request) : Prog unit :=
  if Str.mem (method request) ["POST"; "PUT"] then
    match getParam "content-type" (requestHeaders request) with
    | JStr contentType =>
        if String.eqb contentType "" || negb (Str.includes contentType "application/json")
        then throw ValidationError "Content-Type must be application/json"
        else Ret tt
    | _ => throw ValidationError "Content-Type must be application/json"
    end
  else Ret tt.

(** [executeQuery(stmt)]: the statement raced against the 5 s timer. *)
Definition executeQuery (sql : string) (binds : list JsValue) : Prog (list JsValue) :=
  r <- call (RaceAll sql binds) ;;
  match r with
  | Rows results => Ret results
  | Rejected f => Throw (ofFault f)
  | TimedOut => throw PlainError "Database query timeout"
  end.

(** A call that rejects throws in the worker. *)
Definition await {A : Type} (r : Fault + A) : Prog A :=
  match r with
  | inl f => Throw (ofFault f)
  | inr a => Ret a
  end.

Definition log (l : Level) (label : string) (fields : list (string * JsValue)) : Prog unit :=
  call (Console l label fields).

(** Lines 146-169. *)
Definition checkRateLimit (env : Env) (request : Request) : Prog unit :=
  if negb (MY_RATE_LIMITER env) then Ret tt
  else
    tryCatch
      (let ip := clientIp request in
       r <- call (Limit ip) ;;
       success <- await r ;;
       if negb success
       then throw RateLimitError "Rate limit exceeded. Please try again later."
       else Ret tt)
      (fun error =>
         match eclass error with
         | RateLimitError => Throw error
         | _ => log ErrorLevel "Rate limiter error:" [("message", JStr (message error))]
         end).

(** *** The endpoints *)

Definition shortCache : list (string * string) :=
  [("Cache-Control", "public, max-age=60, stale-while-revalidate=120")].

Definition longCache : list (string * string) :=
  [("Cache-Control", "public, max-age=300, stale-while-revalidate=600")].

Definition searchSql : string :=
  "SELECT * FROM books WHERE title LIKE ? OR author LIKE ? OR genre LIKE ? OR isbn LIKE ? OR year LIKE ? OR description LIKE ? ORDER BY id ASC".

Definition selectByIdSql : string := "SELECT * FROM books WHERE id = ?".

Definition insertSql : string :=
  "INSERT INTO books (title, author, year, isbn, genre, description) VALUES (?, ?, ?, ?, ?, ?)".

(** The search endpoint (index.js, lines 207-244). *)
Definition searchBooks (request : Request) : Prog Response :=
  match getParam "q" (searchParams request) with
  | JStr query =>
      if String.eqb query "" then throw ValidationError "Search query `?q=` is required"
      else if Nat.ltb 200 (String.length query)
      then throw ValidationError "Search query too long (max 200 characters)"
      else
        let searchTerm := JStr ("%" ++ query ++ "%") in
        results <- executeQuery searchSql
                     [searchTerm; searchTerm; searchTerm; searchTerm; searchTerm; searchTerm] ;;
        Ret (createResponse
               (JObj [("query", JStr query);
                      ("results", JArr results);
                      ("count", JNum (Z.of_nat (List.length results)))])
               200 shortCache)
  | _ => throw ValidationError "Search query `?q=` is required"
  end.

(** The statements of [GET /api/books] (lines 261-280): the count
    statement with its bindings, the data statement with its bindings. *)
Record ListQueries : Type := mkListQueries {
  countQuery : string;
  countBindings : list JsValue;
  dataQuery : string;
  dataBindings : list JsValue
}.

Definition listQueries (genre year : JsValue) (limit offset : Z) : ListQueries :=
  let query := "SELECT * FROM books WHERE 1=1" in
  let bindings : list JsValue := [] in
  let '(query, bindings) :=
    if Js.truthy genre then (query ++ " AND genre = ?", (bindings ++ [genre])%list)
    else (query, bindings) in
  let '(query, bindings) :=
    if Js.truthy year then (query ++ " AND year = ?", (bindings ++ [year])%list)
    else (query, bindings) in
  {| countQuery := Str.replace query "*" "COUNT(*) as count";
     countBindings := bindings;
     dataQuery := query ++ " ORDER BY id ASC LIMIT ? OFFSET ?";
     dataBindings := (bindings ++ [JNum limit; JNum offset])%list |}.

(** [case 'GET'] of the collection (lines 249-299). *)
Definition listBooks (request : Request) : Prog Response :=
  let params := searchParams request in
  let page := pageOf params in
  let limit := limitOf params in
  let offset := (page - 1) * limit in
  let genre := genreOf params in
  let year := yearOf params in
  if Js.truthy genre && Nat.ltb 100 (lengthOf genre)
  then throw ValidationError "Genre parameter too long"
  else
    let q := listQueries genre year limit offset in
    counted <- executeQuery (countQuery q) (countBindings q) ;;
    count <- match counted with
             | row :: _ =>
                 match row with
                 | JUndefined | JNull =>
                     throw PlainError
                       ("Cannot destructure property 'count' of '"
                          ++ Js.toString row ++ "' as it is " ++ Js.toString row ++ ".")
                 | _ => Ret (Js.prop row "count")
                 end
             | [] =>
                 throw PlainError
                   "Cannot destructure property 'count' of 'undefined' as it is undefined."
             end ;;
    results <- executeQuery (dataQuery q) (dataBindings q) ;;
    Ret (createResponse
           (JObj [("data", JArr results);
                  ("pagination",
                    JObj [("total", count);
                          ("page", JNum page);
                          ("limit", JNum limit);
                          ("pages", ceilDiv count limit)])])
           200 shortCache).

(** [v ? v.trim() : null] *)
Definition trimOrNull (v : JsValue) : Prog JsValue :=
  if Js.truthy v then callTrim v else Ret JNull.

(** The values bound to the INSERT, in the order of its columns
    (lines 310-317). *)
Definition insertBindings (book : JsValue) : Prog (list JsValue) :=
  title0 <- getProp book "title" ;;
  title <- callTrim title0 ;;
  author0 <- getProp book "author" ;;
  author <- callTrim author0 ;;
  year <- getProp book "year" ;;
  isbn <- getProp book "isbn" ;;
  genre0 <- getProp book "genre" ;;
  genre <- trimOrNull genre0 ;;
  description0 <- getProp book "description" ;;
  description <- trimOrNull description0 ;;
  Ret [title; author; Js.orNull year; Js.orNull isbn; genre; description].

(** [case 'POST'] of the collection (lines 301-336). *)
Definition createBook (request : Request) (requestId : string) : Prog Response :=
  book <- await (json request) ;;
  validateBook book false ;;
  binds <- insertBindings book ;;
  r <- call (StmtRun insertSql binds) ;;
  result <- await r ;;
  if negb (success result) then throw PlainError "Failed to insert book"
  else
    rows <- executeQuery selectByIdSql [last_row_id result] ;;
    let inserted := hd JUndefined rows in
    log LogLevel "Book created:"
      [("requestId", JStr requestId); ("bookId", last_row_id result)] ;;
    Ret (createResponse inserted 201 []).

(** The value bound for one updated column (lines 381-392). *)
Definition updateValue (value : JsValue) : JsValue :=
  match value with
  | JStr s =>
      if Nat.ltb 0 (String.length (Str.trim s)) then JStr (Str.trim s)
      else if String.eqb s "" then JNull
      else value
  | _ => value
  end.

(** [keys.filter((key) => ALLOWED_UPDATE_FIELDS.includes(key))] *)
Definition updateFieldsOf (keys : list string) : list string :=
  filter (fun key => Str.mem key ALLOWED_UPDATE_FIELDS) keys.

(** [updateFields.map((key) => `${key} = ?`).join(', ')] *)
Definition setClauseOf (updateFields : list string) : string :=
  String.concat ", " (map (fun key => key ++ " = ?") updateFields).

(** [[...updateFields.map(...), id]] *)
Definition updateValues (updates : JsValue) (updateFields : list string) (id : Z)
  : list JsValue :=
  (map (fun key => updateValue (Js.prop updates key)) updateFields ++ [JNum id])%list.

(** [case 'PUT'] of the single-record route (lines 366-416). *)
Definition updateBook (request : Request) (requestId : string) (book : JsValue) (id : Z)
  : Prog Response :=
  updates <- await (json request) ;;
  keys <- Object_keys updates ;;
  let updateFields := updateFieldsOf keys in
  if Nat.eqb (List.length updateFields) 0
  then throw ValidationError "No valid fields to update"
  else
    validateBook (Js.spread book updates) true ;;
    let setClause := setClauseOf updateFields in
    let values := updateValues updates updateFields id in
    r <- call (StmtRun ("UPDATE books SET " ++ setClause ++ " WHERE id = ?") values) ;;
    result <- await r ;;
    if negb (success result) then throw PlainError "Failed to update book"
    else
      rows <- executeQuery selectByIdSql [JNum id] ;;
      let updated := hd JUndefined rows in
      log LogLevel "Book updated:"
        [("requestId", JStr requestId); ("bookId", JNum id);
         ("updatedFields", JArr (map JStr updateFields))] ;;
      Ret (createResponse updated 200 []).

(** [case 'DELETE'] of the single-record route (lines 418-432). *)
Definition deleteBook (requestId : string) (id : Z) : Prog Response :=
  r <- call (StmtRun "DELETE FROM books WHERE id = ?" [JNum id]) ;;
  result <- await r ;;
  if negb (success result) then throw PlainError "Failed to delete book"
  else
    log LogLevel "Book deleted:" [("requestId", JStr requestId); ("bookId", JNum id)] ;;
    Ret (createResponse JNull 204 []).

Definition methodNotAllowed : Response :=
  createResponse (errorBody "Method not allowed") 405 [].

(** The branch of [ROUTES.BOOKS_COLLECTION] (lines 247-341). *)
Definition booksCollection (request : Request) (requestId : string) : Prog Response :=
  if String.eqb (method request) "GET" then listBooks request
  else if String.eqb (method request) "POST" then createBook request requestId
  else Ret methodNotAllowed.

(** The branch of [ROUTES.SINGLE_BOOK] (lines 344-437); [segment] is the
    [id] group of the match. *)
Definition singleBook (request : Request) (requestId : string) (segment : string)
  : Prog Response :=
  let id := safeParseInt (fun n => n) (JStr segment) 0 in
  if id =? 0 then throw ValidationError "Invalid book ID"
  else
    rows <- executeQuery selectByIdSql [JNum id] ;;
    let book := hd JUndefined rows in
    if negb (Js.truthy book) then throw NotFoundError "Book not found"
    else if String.eqb (method request) "GET" then Ret (createResponse book 200 longCache)
    else if String.eqb (method request) "PUT" then updateBook request requestId book id
    else if String.eqb (method request) "DELETE" then deleteBook requestId id
    else Ret methodNotAllowed.

(** The statistics endpoint (lines 440-463).  [Promise.all] of three
    statements: all three are started, then the first rejection, in the
    order of the array, is thrown. *)
Definition stats : Prog Response :=
  r0 <- call (StmtFirst "SELECT COUNT(*) as total FROM books" []) ;;
  r1 <- call (StmtAll "SELECT genre, COUNT(*) as count FROM books WHERE genre IS NOT NULL GROUP BY genre ORDER BY count DESC" []) ;;
  r2 <- call (StmtFirst "SELECT MIN(year) as earliest, MAX(year) as latest FROM books WHERE year IS NOT NULL" []) ;;
  s0 <- await r0 ;;
  s1 <- await r1 ;;
  s2 <- await r2 ;;
  total <- getProp s0 "total" ;;
  earliest <- getProp s2 "earliest" ;;
  latest <- getProp s2 "latest" ;;
  Ret (createResponse
         (JObj [("totalBooks", total);
                ("genreBreakdown", JArr s1);
                ("yearRange", JObj [("earliest", earliest); ("latest", latest)])])
         200 longCache).

(** The health endpoint (lines 466-472). *)
Definition health : Prog Response :=
  r <- call (StmtFirst "SELECT 1" []) ;;
  await r ;;
  Ret (createResponse (JObj [("status", JStr "healthy")]) 200 []).

(** [ROUTES.SINGLE_BOOK.exec(url)]: the [id] group of
    [/api/books/:id([0-9]+)]. *)
Definition matchSingleBook (path : string) : option string :=
  if prefix "/api/books/" path then
    let segment := substring 11 (String.length path - 11) path in
    if negb (String.eqb segment "") && Str.forallb Str.isDigit segment
    then Some segment else None
  else None.

(** The body of the [try] block (lines 199-474). *)
Definition dispatch (env : Env) (request : Request) (requestId : string) : Prog Response :=
  checkRateLimit env request ;;
  validateContentType request ;;
  if String.eqb (pathname request) "/api/books/search" then searchBooks request
  else if String.eqb (pathname request) "/api/books" then booksCollection request requestId
  else match matchSingleBook (pathname request) with
       | Some segment => singleBook request requestId segment
       | None =>
           if String.eqb (pathname request) "/api/stats" then stats
           else if String.eqb (pathname request) "/api/health" then health
           else Ret (createResponse (errorBody "Not Found") 404 [])
       end.

(** The status and the message the [catch] block settles on
    (lines 486-504). *)
Definition errorStatusMessage (error : JsError) : Z * string :=
  match classStatus (eclass error) with
  | Some status => (status, message error)
  | None =>
      if Str.includes (message error) "timeout" then (504, "Request timeout")
      else if Str.includes (message error) "JSON" then (400, "Invalid JSON in request body")
      else (500, "An unexpected error occurred")
  end.

Definition errorResponse (error : JsError) : Response :=
  let '(status, message) := errorStatusMessage error in
  createResponse (errorBody message) status [].

(** The three records every request may log. *)
Definition started (request : Request) (requestId : string) : Action :=
  Console LogLevel "Request started:"
    [("requestId", JStr requestId);
     ("method", JStr (method request));
     ("url", JStr (url request));
     ("ip", getParam "cf-connecting-ip" (requestHeaders request))].

Definition failed (request : Request) (requestId : string) (error : JsError) : Action :=
  Console ErrorLevel "Request error:"
    [("requestId", JStr requestId);
     ("message", JStr (message error));
     ("stack", JStr (stack error));
     ("method", JStr (method request));
     ("url", JStr (url request))].

Definition completed (requestId : string) : Action :=
  Console LogLevel "Request completed:" [("requestId", JStr requestId)].

(** The [catch] block (lines 475-506). *)
Definition onError (request : Request) (requestId : string) (error : JsError)
  : Prog Response :=
  call (failed request requestId error) ;;
  Ret (errorResponse error).

(** [fetch(request, env, ctx)] (lines 172-516). *)
Definition fetch (request : Request) (env : Env) : Prog Response :=
  requestId <- call RandomUUID ;;
  call (started request requestId) ;;
  if String.eqb (method request) "OPTIONS" then Ret (createResponse JNull 204 [])
  else
    if bodyTooLarge request
    then Ret (createResponse (errorBody "Request body too large (max 1MB)") 413 [])
    else
      tryFinally
        (tryCatch (dispatch env request requestId) (onError request requestId))
        (call (completed requestId)).

End Runtime.
End Worker.

Import Worker.

(** ** A scripted environment, to run the handler on examples

    The store and the limiter answer from a script, one entry per call of
    its kind; when the next entry is of another kind or the script is
    over, the limiter allows, reads find no row and writes succeed. *)

Inductive Canned : Type :=
| LimiterSays (r : Fault + bool)
| RaceSays (r : Raced)
| AllSays (r : Fault + list JsValue)
| FirstSays (r : Fault + JsValue)
| RunSays (r : Fault + RunResult).

Definition scripted : Handler (list Canned) :=
  fun a w =>
    match a return Reply a * list Canned with
    | RandomUUID => ("4b3c1f0e-6f0a-4c58-9d0b-2a7c1d9e8f11", w)
    | Console _ _ _ => (tt, w)
    | Limit _ =>
        match w with LimiterSays r :: w' => (r, w') | _ => (inr true, w) end
    | RaceAll _ _ =>
        match w with RaceSays r :: w' => (r, w') | _ => (Rows [], w) end
    | StmtAll _ _ =>
        match w with AllSays r :: w' => (r, w') | _ => (inr [], w) end
    | StmtFirst _ _ =>
        match w with FirstSays r :: w' => (r, w') | _ => (inr JNull, w) end
    | StmtRun _ _ =>
        match w with
        | RunSays r :: w' => (r, w')
        | _ => (inr (mkRunResult true (JNum 1)), w)
        end
    end.

Definition theYear : Z := 2026.

Definition stackOf (c : ErrorClass) (msg : string) : string :=
  "Error: " ++ msg ++ " at fetch (index.js)".

Definition jsonHeaders : list (string * string) :=
  [("content-type", "application/json")].

Definition getRequest (path : string) (params : list (string * string)) : Request :=
  mkRequest "GET" ("https://books.example" ++ path) path params []
            (inl (mkFault "Unexpected end of JSON input" "SyntaxError")).

Definition bodyRequest (verb path : string) (payload : JsValue) : Request :=
  mkRequest verb ("https://books.example" ++ path) path [] jsonHeaders (inr payload).

Definition noLimiter : Env := mkEnv false.
Definition withLimiter : Env := mkEnv true.

Definition orwell : JsValue :=
  JObj [("id", JNum 1); ("title", JStr "1984"); ("author", JStr "George Orwell");
        ("year", JNum 1949); ("isbn", JStr "9780451524935"); ("genre", JStr "Fiction");
        ("description", JStr "A dystopian social science fiction novel")].

(** More requests and rows for the examples. *)
Definition preflight : Request :=
  mkRequest "OPTIONS" "https://books.example/api/books" "/api/books" []
            [("content-length", "2000000")]
            (inl (mkFault "Unexpected end of JSON input" "SyntaxError")).

Definition dune : JsValue :=
  JObj [("title", JStr "  Dune "); ("author", JStr "Frank Herbert"); ("year", JNum 1965)].

Definition duneStored : JsValue :=
  JObj [("id", JNum 8); ("title", JStr "Dune"); ("author", JStr "Frank Herbert");
        ("year", JNum 1965); ("isbn", JNull); ("genre", JNull); ("description", JNull)].

Definition orwellSatire : JsValue :=
  JObj [("id", JNum 1); ("title", JStr "1984"); ("author", JStr "George Orwell");
        ("year", JNum 1949); ("isbn", JStr "9780451524935"); ("genre", JStr "Satire");
        ("description", JStr "A dystopian social science fiction novel")].

(** ** The ISBN format in the words of the specification

    Ten digits, or thirteen digits, or 13 to 17 characters that are all
    digits or hyphens. *)
Definition isbnShape (s : string) : bool :=
  let n := String.length s in
  (Str.forallb Str.isDigit s && Nat.eqb n 10)
  || (Str.forallb Str.isDigit s && Nat.eqb n 13)
  || (Str.forallb (fun c => Str.isDigit c || Str.isHyphen c) s
      && Nat.leb 13 n && Nat.leb n 17).

(** The request with another body. *)
Definition withJson (request : Request) (payload : JsValue) : Request :=
  mkRequest (method request) (url request) (pathname request)
            (searchParams request) (requestHeaders request) (inr payload).

(** A property of the payload whose name is in the allow-list. *)
Definition allowedProp (kv : string * JsValue) : bool :=
  Str.mem (fst kv) ALLOWED_UPDATE_FIELDS.

(** Leading and trailing white space. *)
Definition startsWhite (s : string) : bool :=
  match s with
  | String c _ => Str.isWhite c
  | EmptyString => false
  end.

Fixpoint endsWhite (s : string) : bool :=
  match s with
  | EmptyString => false
  | String c EmptyString => Str.isWhite c
  | String _ r => endsWhite r
  end.

(** A query parameter that is no positive integer to [parseInt]: it
    reads as [NaN], or as a number that is zero or negative. *)
Definition notPositive (v : JsValue) : Prop :=
  Js.parseInt v = None \/ exists n, Js.parseInt v = Some n /\ n <= 0.

(** What [v ? v.trim() : null] gives on a value that is a text or
    absent. *)
Definition textOrNull (v : JsValue) : JsValue :=
  match v with
  | JStr s => if String.eqb s "" then JNull else JStr (Str.trim s)
  | _ => JNull
  end.

(** A value has the ISBN format when it is a text of that shape. *)
Definition isbnAccepted (v : JsValue) : bool :=
  match v with
  | JStr s => isbnShape s
  | _ => false
  end.

(** [p] is the ceiling of [total / limit]. *)
Definition isCeiling (p total limit : Z) : Prop :=
  (p - 1) * limit < total <= p * limit.

(** A text is a positive integer when it is a numeral, all digits, that
    is not zero. *)
Definition isPositiveInteger (s : string) : bool :=
  negb (String.eqb s "")
  && Str.forallb Str.isDigit s
  && negb (Str.forallb (fun c => Ascii.eqb c "0") s).

(** ** Where the numbers of the embedding are the numbers of the language

    A number of the language is a double.  The integers of magnitude up
    to [2^53 - 1] ([Number.isSafeInteger]) are doubles; [parseInt] reads
    each from its digits and ToString renders each as its digits; a
    difference or a product of two of them that is one of them is exact.
    There [JNum], [Js.parseInt], [Js.toString] and the arithmetic of [Z]
    are those of the language.  Beyond, [parseInt] and the arithmetic
    round to the nearest double, and from 1e21 on ToString gives the
    exponent form. *)
Definition MAX_SAFE_INTEGER : Z := 9007199254740991.

Definition isSafeInteger (n : Z) : bool := Z.abs n <=? MAX_SAFE_INTEGER.

(** The values on which [Js.toString] is the ToString of the language:
    the numbers are safe integers, and no object has a property
    [toString] of its own (a value read from JSON is not callable, and
    ToString of such an object throws a TypeError). *)
Fixpoint toStringExact (v : JsValue) : bool :=
  match v with
  | JNum n => isSafeInteger n
  | JArr items => forallb toStringExact items
  | JObj props => negb (existsb (String.eqb "toString") (map fst props))
  | _ => true
  end.

(** ** What a program can do, whatever its collaborators answer *)

(** Every value [p] can return satisfies [Q]. *)
Fixpoint Rets {A : Type} (Q : A -> Prop) (p : Prog A) : Prop :=
  match p with
  | Ret a => Q a
  | Throw _ => True
  | Call a k => forall r, Rets Q (k r)
  end.

(** Every error [p] can throw satisfies [Q]. *)
Fixpoint Throws {A : Type} (Q : JsError -> Prop) (p : Prog A) : Prop :=
  match p with
  | Ret _ => True
  | Throw e => Q e
  | Call a k => forall r, Throws Q (k r)
  end.

(** Every call [p] can make satisfies [P]. *)
Fixpoint Calls {A : Type} (P : Action -> Prop) (p : Prog A) : Prop :=
  match p with
  | Ret _ | Throw _ => True
  | Call a k => P a /\ forall r, Calls P (k r)
  end.

(** [p] calls no collaborator. *)
Definition Quiet {A : Type} (p : Prog A) : Prop := Calls (fun _ => False) p.

(** The number of [?] in a statement. *)
Fixpoint placeholders (sql : string) : nat :=
  match sql with
  | String c r => (if Ascii.eqb c "?" then 1 else 0) + placeholders r
  | EmptyString => 0
  end.

(** A call to the store has as many bindings as its statement has
    placeholders. *)
Definition bindingsMatch (a : Action) : Prop :=
  match a with
  | RaceAll sql binds | StmtAll sql binds | StmtFirst sql binds | StmtRun sql binds =>
      placeholders sql = List.length binds
  | _ => True
  end.

(** The statuses of the worker. *)
Definition workerStatuses : list Z := [200; 201; 204; 400; 404; 405; 413; 429; 500; 504].

(** A response as the worker shapes them: the four CORS headers first, a
    status of the worker, and [{ error: message }] as the body of an
    error. *)
Definition wellFormed (r : Response) : Prop :=
  (exists extra, headers r = (corsHeaders ++ extra)%list)
  /\ In (status r) workerStatuses
  /\ (400 <= status r -> exists msg, body r = Some (errorBody msg)).

(** The labels of the records the [try] block logs. *)
Definition dispatchLabels : list string :=
  ["Rate limiter error:"; "Book created:"; "Book updated:"; "Book deleted:"].

(** The calls of the [try] block: the limiter, four log records, and
    the statements of the store, each with the shape of its bindings. *)
Inductive Asked : Action -> Prop :=
| Asked_log (l : Level) (label : string) (fields : list (string * JsValue)) :
    In label dispatchLabels -> Asked (Console l label fields)
| Asked_limit (key : string) : Asked (Limit key)
| Asked_search (term : JsValue) :
    Asked (RaceAll searchSql [term; term; term; term; term; term])
| Asked_count (genre year : JsValue) (limit offset : Z) :
    Asked (RaceAll (countQuery (listQueries genre year limit offset))
                   (countBindings (listQueries genre year limit offset)))
| Asked_data (genre year : JsValue) (limit offset : Z) :
    Asked (RaceAll (dataQuery (listQueries genre year limit offset))
                   (dataBindings (listQueries genre year limit offset)))
| Asked_byId (id : JsValue) : Asked (RaceAll selectByIdSql [id])
| Asked_insert (binds : list JsValue) :
    List.length binds = 6%nat -> Asked (StmtRun insertSql binds)
| Asked_update (fields : list string) (values : list JsValue) (id : Z) :
    (forall key, In key fields -> In key ALLOWED_UPDATE_FIELDS) ->
    List.length values = List.length fields ->
    Asked (StmtRun ("UPDATE books SET " ++ setClauseOf fields ++ " WHERE id = ?")
                   (values ++ [JNum id])%list)
| Asked_delete (id : Z) : Asked (StmtRun "DELETE FROM books WHERE id = ?" [JNum id])
| Asked_total : Asked (StmtFirst "SELECT COUNT(*) as total FROM books" [])
| Asked_genres :
    Asked (StmtAll "SELECT genre, COUNT(*) as count FROM books WHERE genre IS NOT NULL GROUP BY genre ORDER BY count DESC" [])
| Asked_years :
    Asked (StmtFirst "SELECT MIN(year) as earliest, MAX(year) as latest FROM books WHERE year IS NOT NULL" [])
| Asked_health : Asked (StmtFirst "SELECT 1" []).

(** The calls of [fetch] for the request: the request id, the start, error
    and completion records, and the calls of the [try] block. *)
Definition askedByFetch (request : Request) (a : Action) : Prop :=
  a = RandomUUID
  \/ (exists requestId, a = started request requestId)
  \/ (exists requestId error, a = failed request requestId error)
  \/ (exists requestId, a = completed requestId)
  \/ Asked a.

(** The completion record of a request. *)
Definition isCompletion (a : Action) : bool :=
  match a with
  | Console _ label _ => String.eqb label "Request completed:"
  | _ => false
  end.

(** * Properties *)

(** ** Running programs *)

Lemma run_bind {W A B : Type} (h : Handler W) (p : Prog A) (f : A -> Prog B) (w : W) :
  run h (bind p f) w =
  match run h p w with
  | (t1, Returned a, w1) =>
      let '(t2, o, w2) := run h (f a) w1 in ((t1 ++ t2)%list, o, w2)
  | (t1, Threw e, w1) => (t1, Threw e, w1)
  end.
Proof.
  revert w. induction p as [a | e | a k IH]; intros w; simpl.
  - destruct (run h (f a) w) as [[t2 o] w2]. reflexivity.
  - reflexivity.
  - destruct (h a w) as [r w1]. rewrite IH.
    destruct (run h (k r) w1) as [[t1 [x | e]] w2]; [|reflexivity].
    destruct (run h (f x) w2) as [[t2 o] w3]. reflexivity.
Qed.

Lemma run_tryCatch {W A : Type} (h : Handler W) (p : Prog A) (c : JsError -> Prog A) (w : W) :
  run h (tryCatch p c) w =
  match run h p w with
  | (t1, Returned a, w1) => (t1, Returned a, w1)
  | (t1, Threw e, w1) =>
      let '(t2, o, w2) := run h (c e) w1 in ((t1 ++ t2)%list, o, w2)
  end.
Proof.
  revert w. induction p as [a | e | a k IH]; intros w; simpl.
  - reflexivity.
  - destruct (run h (c e) w) as [[t2 o] w2]. reflexivity.
  - destruct (h a w) as [r w1]. rewrite IH.
    destruct (run h (k r) w1) as [[t1 [x | e]] w2]; [reflexivity|].
    destruct (run h (c e) w2) as [[t2 o] w3]. reflexivity.
Qed.

Lemma run_tryFinally {W A : Type} (h : Handler W) (p : Prog A) (f : Prog unit) (w : W) :
  run h (tryFinally p f) w =
  match run h p w with
  | (t1, o1, w1) =>
      match run h f w1 with
      | (t2, Returned _, w2) => ((t1 ++ t2)%list, o1, w2)
      | (t2, Threw e, w2) => ((t1 ++ t2)%list, Threw e, w2)
      end
  end.
Proof.
  revert w. induction p as [a | e | a k IH]; intros w; simpl.
  - rewrite run_bind. destruct (run h f w) as [[t2 [[] | e]] w2]; simpl;
      rewrite ?app_nil_r; reflexivity.
  - rewrite run_bind. destruct (run h f w) as [[t2 [[] | e']] w2]; simpl;
      rewrite ?app_nil_r; reflexivity.
  - destruct (h a w) as [r w1]. rewrite IH.
    destruct (run h (k r) w1) as [[t1 o1] w2].
    destruct (run h f w2) as [[t2 [[] | e]] w3]; reflexivity.
Qed.

Lemma run_call {W : Type} (h : Handler W) (a : Action) (w : W) :
  run h (call a) w = ([a], Returned (reply h a w), after h a w).
Proof. unfold call, reply, after; simpl. destruct (h a w); reflexivity. Qed.

Lemma run_console {W : Type} (h : Handler W) (l : Level) (label : string)
  (fields : list (string * JsValue)) (w : W) :
  run h (call (Console l label fields) : Prog unit) w
  = ([Console l label fields], Returned tt, after h (Console l label fields) w).
Proof.
  unfold call, after. simpl.
  destruct (h (Console l label fields) w) as [[] w1]. reflexivity.
Qed.

Lemma run_log {W : Type} (h : Handler W) (l : Level) (label : string)
  (fields : list (string * JsValue)) (w : W) :
  run h (log l label fields) w
  = ([Console l label fields], Returned tt, after h (Console l label fields) w).
Proof. apply run_console. Qed.

Lemma run_failed {W : Type} (h : Handler W) (request : Request) (requestId : string)
  (error : JsError) (w : W) :
  run h (call (failed request requestId error) : Prog unit) w
  = ([failed request requestId error], Returned tt,
     after h (failed request requestId error) w).
Proof. apply run_console. Qed.

Lemma run_completed {W : Type} (h : Handler W) (requestId : string) (w : W) :
  run h (call (completed requestId) : Prog unit) w
  = ([completed requestId], Returned tt, after h (completed requestId) w).
Proof. apply run_console. Qed.

(** ** The pattern of the ISBN check *)

Lemma test_NoMatch (s : string) : Regex.test Regex.NoMatch s = false.
Proof. induction s; simpl; auto. Qed.

Lemma test_Alt (r1 r2 : Regex.Re) (s : string) :
  Regex.test (Regex.Alt r1 r2) s = Regex.test r1 s || Regex.test r2 s.
Proof. revert r1 r2. induction s as [|c s IH]; intros; simpl; auto. Qed.

Lemma test_Repeat (k : Regex.Class) (s : string) (lo hi : nat) :
  Regex.test (Regex.Repeat k lo hi) s =
  Str.forallb (Regex.inClass k) s
  && Nat.leb lo (String.length s) && Nat.leb (String.length s) hi.
Proof.
  revert lo hi. induction s as [|c s IH]; intros lo hi; simpl.
  - destruct lo; reflexivity.
  - destruct hi as [|hi'].
    + rewrite test_NoMatch. rewrite andb_false_r. reflexivity.
    + destruct (Regex.inClass k c); simpl.
      * rewrite IH. destruct lo; reflexivity.
      * apply test_NoMatch.
Qed.

Lemma isbnPattern_shape (s : string) :
  Regex.test Regex.isbnPattern s = isbnShape s.
Proof.
  unfold Regex.isbnPattern, isbnShape.
  rewrite !test_Alt, !test_Repeat.
  change (Regex.inClass Regex.Digit) with Str.isDigit.
  change (Regex.inClass Regex.DigitOrHyphen)
    with (fun c => Str.isDigit c || Str.isHyphen c).
  generalize (Str.forallb Str.isDigit s)
             (Str.forallb (fun c => Str.isDigit c || Str.isHyphen c) s)
             (String.length s).
  intros d dh n.
  destruct (Nat.eqb_spec n 10), (Nat.eqb_spec n 13),
           (Nat.leb_spec 10 n), (Nat.leb_spec n 10),
           (Nat.leb_spec 13 n), (Nat.leb_spec n 13), (Nat.leb_spec n 17);
    try lia; destruct d, dh; reflexivity.
Qed.

(** ** Property lists *)

Lemma lookup_remove_other (k k' : string) (props : list (string * JsValue)) :
  k <> k' -> Js.lookup k (Js.remove k' props) = Js.lookup k props.
Proof.
  intros Hk. induction props as [|[k0 v] r IH]; simpl; [reflexivity|].
  destruct (String.eqb_spec k' k0) as [E|N]; simpl.
  - subst k0. destruct (String.eqb_spec k k'); [contradiction|apply IH].
  - destruct (String.eqb k k0); [reflexivity|apply IH].
Qed.

Lemma lookup_remove_same (k : string) (props : list (string * JsValue)) :
  Js.lookup k (Js.remove k props) = None.
Proof.
  induction props as [|[k0 v] r IH]; simpl; [reflexivity|].
  destruct (String.eqb_spec k k0) as [E|N]; simpl; [apply IH|].
  destruct (String.eqb_spec k k0); [contradiction|apply IH].
Qed.

Lemma lookup_assign (k k' : string) (v : JsValue) (props : list (string * JsValue)) :
  Js.lookup k (Js.assign k' v props)
  = if String.eqb k k' then Some v else Js.lookup k props.
Proof.
  induction props as [|[k0 v0] r IH]; simpl.
  - destruct (String.eqb k k'); reflexivity.
  - destruct (String.eqb_spec k' k0) as [E|N]; simpl.
    + subst k0. destruct (String.eqb k k'); reflexivity.
    + destruct (String.eqb_spec k k0) as [E0|N0].
      * subst k0. destruct (String.eqb_spec k k'); [congruence|reflexivity].
      * exact IH.
Qed.

Lemma lookup_none_absent (k : string) (props : list (string * JsValue)) :
  existsb (String.eqb k) (map fst props) = false -> Js.lookup k props = None.
Proof.
  induction props as [|[k0 v0] r IH]; simpl; [reflexivity|].
  destruct (String.eqb k k0); simpl; [discriminate|exact IH].
Qed.

Lemma lookup_copy_keys (k : string) (src : list (string * JsValue)) (keys : list string) :
  forall acc,
    Js.lookup k
      (fold_left (fun o k' =>
                    match Js.lookup k' src with
                    | Some v => Js.assign k' v o
                    | None => o
                    end) keys acc)
    = if existsb (String.eqb k) keys
      then match Js.lookup k src with Some v => Some v | None => Js.lookup k acc end
      else Js.lookup k acc.
Proof.
  induction keys as [|k' keys IH]; intros acc; simpl; [reflexivity|].
  rewrite IH.
  assert (Hstep :
    Js.lookup k (match Js.lookup k' src with
                 | Some v => Js.assign k' v acc
                 | None => acc
                 end)
    = if String.eqb k k'
      then match Js.lookup k src with Some v => Some v | None => Js.lookup k acc end
      else Js.lookup k acc).
  { destruct (String.eqb_spec k k') as [E|N].
    - subst k'. destruct (Js.lookup k src); [|reflexivity].
      rewrite lookup_assign, String.eqb_refl. reflexivity.
    - destruct (Js.lookup k' src); [|reflexivity].
      rewrite lookup_assign. destruct (String.eqb_spec k k'); [contradiction|reflexivity]. }
  rewrite Hstep.
  destruct (String.eqb k k'), (existsb (String.eqb k) keys), (Js.lookup k src);
    reflexivity.
Qed.

(** A property of [{ ...a, ...b }] is the one of [b] when [b] has it, and
    the one of [a] otherwise. *)
Lemma lookup_spread (k : string) (a b : JsValue) :
  Js.lookup k (Js.ownProps (Js.spread a b))
  = match Js.lookup k (Js.ownProps b) with
    | Some v => Some v
    | None => Js.lookup k (Js.ownProps a)
    end.
Proof.
  unfold Js.spread, Js.copyProps. simpl Js.ownProps at 1.
  rewrite !lookup_copy_keys. simpl Js.lookup.
  destruct (existsb (String.eqb k) (map fst (Js.ownProps b))) eqn:Eb.
  - destruct (Js.lookup k (Js.ownProps b)); [reflexivity|].
    destruct (existsb (String.eqb k) (map fst (Js.ownProps a))) eqn:Ea.
    + destruct (Js.lookup k (Js.ownProps a)); reflexivity.
    + rewrite (lookup_none_absent _ _ Ea). reflexivity.
  - rewrite (lookup_none_absent _ _ Eb).
    destruct (existsb (String.eqb k) (map fst (Js.ownProps a))) eqn:Ea.
    + destruct (Js.lookup k (Js.ownProps a)); reflexivity.
    + rewrite (lookup_none_absent _ _ Ea). reflexivity.
Qed.

Lemma lookup_filter_allowed (k : string) (props : list (string * JsValue)) :
  Str.mem k ALLOWED_UPDATE_FIELDS = true ->
  Js.lookup k (filter allowedProp props) = Js.lookup k props.
Proof.
  intros Hk. induction props as [|[k0 v0] r IH]; simpl; [reflexivity|].
  unfold allowedProp at 1. simpl fst.
  destruct (String.eqb_spec k k0) as [E|N].
  - subst k0. rewrite Hk. simpl. rewrite String.eqb_refl. reflexivity.
  - destruct (Str.mem k0 ALLOWED_UPDATE_FIELDS); simpl; [|exact IH].
    destruct (String.eqb_spec k k0); [contradiction|exact IH].
Qed.

Lemma keys_filter_allowed (props : list (string * JsValue)) :
  map fst (filter allowedProp props)
  = filter (fun key => Str.mem key ALLOWED_UPDATE_FIELDS) (map fst props).
Proof.
  induction props as [|[k0 v0] r IH]; simpl; [reflexivity|].
  unfold allowedProp at 1. simpl fst.
  destruct (Str.mem k0 ALLOWED_UPDATE_FIELDS); simpl; rewrite IH; reflexivity.
Qed.

Lemma filter_idem {A : Type} (p : A -> bool) (l : list A) :
  filter p (filter p l) = filter p l.
Proof.
  induction l as [|x l IH]; simpl; [reflexivity|].
  destruct (p x) eqn:Hp; simpl; rewrite ?Hp, IH; reflexivity.
Qed.

(** ** Trimming *)

Lemma trimStart_spec (s : string) :
  exists l, s = (l ++ Str.trimStart s)%string
            /\ Str.allWhite l = true
            /\ startsWhite (Str.trimStart s) = false.
Proof.
  induction s as [|c s IH]; simpl.
  - exists EmptyString. repeat split.
  - destruct (Str.isWhite c) eqn:Hc.
    + destruct IH as (l & Hs & Hl & Hst). exists (String c l). simpl.
      rewrite Hc, Hl. repeat split; [|exact Hst]. f_equal. exact Hs.
    + exists EmptyString. simpl. repeat split. exact Hc.
Qed.

Lemma trimEnd_empty (s : string) :
  Str.trimEnd s = EmptyString -> Str.allWhite s = true.
Proof.
  destruct s as [|c s]; [reflexivity|]. simpl.
  destruct (Str.isWhite c && Str.allWhite s)%bool; [reflexivity|discriminate].
Qed.

Lemma trimEnd_spec (s : string) :
  exists r, s = (Str.trimEnd s ++ r)%string
            /\ Str.allWhite r = true
            /\ endsWhite (Str.trimEnd s) = false
            /\ (startsWhite s = false -> startsWhite (Str.trimEnd s) = false).
Proof.
  induction s as [|c s IH].
  - exists EmptyString. repeat split.
  - destruct IH as (r & Hs & Hr & He & _).
    cbn [Str.trimEnd]. destruct (Str.allWhite (String c s)) eqn:Hall.
    + exists (String c s). simpl. repeat split. exact Hall.
    + exists r. repeat split.
      * simpl. f_equal. exact Hs.
      * exact Hr.
      * simpl. destruct (Str.trimEnd s) eqn:Ht; [|exact He].
        simpl in Hall. rewrite (trimEnd_empty s Ht), andb_true_r in Hall. exact Hall.
      * intros Hc. exact Hc.
Qed.

(** [s.trim()] is [s] without a run of white space at each end, and has
    none left at either end. *)
Lemma trim_spec (s : string) :
  exists l r, s = (l ++ Str.trim s ++ r)%string
              /\ Str.allWhite l = true /\ Str.allWhite r = true
              /\ startsWhite (Str.trim s) = false
              /\ endsWhite (Str.trim s) = false.
Proof.
  destruct (trimStart_spec s) as (l & Hs & Hl & Hst).
  destruct (trimEnd_spec (Str.trimStart s)) as (r & Hs' & Hr & He & Hkeep).
  exists l, r. unfold Str.trim. repeat split; auto.
  rewrite <- Hs'. exact Hs.
Qed.

Section Validation.

Variable currentYear : Z.
Variable captureStack : ErrorClass -> string -> string.

Local Notation newError := (Worker.newError captureStack).
Local Notation throw := (Worker.throw captureStack).
Local Notation checkRequired := (Worker.checkRequired captureStack).
Local Notation checkText := (Worker.checkText captureStack).
Local Notation checkYear := (Worker.checkYear currentYear captureStack).
Local Notation checkIsbn := (Worker.checkIsbn captureStack).
Local Notation checkOptionalText := (Worker.checkOptionalText captureStack).
Local Notation validateBook := (Worker.validateBook currentYear captureStack).
Local Notation passesOrRejects := (Worker.passesOrRejects captureStack).

Lemma checkRequired_cases props isUpdate :
  passesOrRejects (checkRequired (JObj props) isUpdate).
Proof.
  unfold passesOrRejects, Worker.checkRequired. destruct isUpdate; simpl; [now left|].
  destruct (Js.truthy _), (Js.truthy _); simpl; eauto.
Qed.

Lemma checkText_cases props field what maxLen :
  passesOrRejects (checkText (JObj props) field what maxLen).
Proof.
  unfold passesOrRejects, Worker.checkText. simpl.
  destruct (Js.lookup field props) as [[]|]; simpl; eauto.
  destruct (Nat.eqb _ 0); eauto. destruct (Nat.ltb _ _); eauto.
Qed.

Lemma checkYear_cases props : passesOrRejects (checkYear (JObj props)).
Proof.
  unfold passesOrRejects, Worker.checkYear. simpl.
  destruct (notAbsent _); simpl; eauto.
  destruct (Js.parseInt _); eauto. destruct (_ || _)%bool; eauto.
Qed.

Lemma checkIsbn_cases props : passesOrRejects (checkIsbn (JObj props)).
Proof.
  unfold passesOrRejects, Worker.checkIsbn. simpl.
  destruct (_ && _)%bool; eauto.
  destruct (match Js.lookup "isbn" props with Some v => v | None => JUndefined end);
    eauto.
  destruct (negb _); eauto.
Qed.

Lemma checkOptionalText_cases props field what maxLen :
  passesOrRejects (checkOptionalText (JObj props) field what maxLen).
Proof.
  unfold passesOrRejects, Worker.checkOptionalText. simpl.
  destruct (notAbsent _); eauto. destruct (negb _); eauto.
  destruct (Nat.ltb _ _); eauto.
Qed.

(** The checks of the other fields do not read [isbn]. *)
Lemma checkRequired_remove_isbn props isUpdate :
  checkRequired (JObj (Js.remove "isbn" props)) isUpdate = checkRequired (JObj props) isUpdate.
Proof.
  unfold Worker.checkRequired. destruct isUpdate; simpl; [reflexivity|].
  rewrite !lookup_remove_other by discriminate. reflexivity.
Qed.

Lemma checkText_remove_isbn props field what maxLen :
  field <> "isbn" ->
  checkText (JObj (Js.remove "isbn" props)) field what maxLen
  = checkText (JObj props) field what maxLen.
Proof.
  intros Hf. unfold Worker.checkText. simpl.
  rewrite lookup_remove_other by assumption. reflexivity.
Qed.

Lemma checkYear_remove_isbn props :
  checkYear (JObj (Js.remove "isbn" props)) = checkYear (JObj props).
Proof.
  unfold Worker.checkYear. simpl.
  rewrite lookup_remove_other by discriminate. reflexivity.
Qed.

Lemma checkOptionalText_remove_isbn props field what maxLen :
  field <> "isbn" ->
  checkOptionalText (JObj (Js.remove "isbn" props)) field what maxLen
  = checkOptionalText (JObj props) field what maxLen.
Proof.
  intros Hf. unfold Worker.checkOptionalText. simpl.
  rewrite lookup_remove_other by assumption. reflexivity.
Qed.

Lemma checkIsbn_absent props :
  checkIsbn (JObj (Js.remove "isbn" props)) = Ret tt.
Proof.
  unfold Worker.checkIsbn. simpl. rewrite lookup_remove_same. reflexivity.
Qed.

Lemma checkIsbn_given props v :
  Js.lookup "isbn" props = Some v -> Js.truthy v = true ->
  checkIsbn (JObj props)
  = if isbnAccepted v then Ret tt
    else throw ValidationError
           (match v with JStr _ => "Invalid ISBN format" | _ => "ISBN must be a string" end).
Proof.
  intros Hl Ht. unfold Worker.checkIsbn. simpl. rewrite Hl, Ht.
  destruct v; try discriminate Ht; try reflexivity.
  simpl in Ht. simpl. rewrite Ht. simpl.
  rewrite isbnPattern_shape. destruct (isbnShape s); reflexivity.
Qed.

(** The record without its [isbn] goes through the same checks, the
    ISBN check apart. *)
Lemma validateBook_remove_isbn props isUpdate :
  validateBook (JObj (Js.remove "isbn" props)) isUpdate =
  (checkRequired (JObj props) isUpdate ;;
   checkText (JObj props) "title" "Title" 500 ;;
   checkText (JObj props) "author" "Author" 200 ;;
   checkYear (JObj props) ;;
   checkOptionalText (JObj props) "description" "Description" 5000 ;;
   checkOptionalText (JObj props) "genre" "Genre" 100)%prog.
Proof.
  unfold Worker.validateBook.
  rewrite checkRequired_remove_isbn, !checkText_remove_isbn by discriminate.
  rewrite checkYear_remove_isbn, checkIsbn_absent.
  rewrite !checkOptionalText_remove_isbn by discriminate.
  reflexivity.
Qed.

Ltac check_cases :=
  repeat match goal with
    | |- context [Worker.checkRequired _ (JObj ?p) ?u] =>
        destruct (checkRequired_cases p u) as [-> | [? ->]]; simpl
    | |- context [Worker.checkText _ (JObj ?p) ?f ?w ?m] =>
        destruct (checkText_cases p f w m) as [-> | [? ->]]; simpl
    | |- context [Worker.checkYear _ _ (JObj ?p)] =>
        destruct (checkYear_cases p) as [-> | [? ->]]; simpl
    | |- context [Worker.checkOptionalText _ (JObj ?p) ?f ?w ?m] =>
        destruct (checkOptionalText_cases p f w m) as [-> | [? ->]]; simpl
    end.


(** Validation reads the six fields of the allow-list and no other
    property. *)
Lemma validateBook_ext (p1 p2 : list (string * JsValue)) (isUpdate : bool) :
  (forall k, Str.mem k ALLOWED_UPDATE_FIELDS = true -> Js.lookup k p1 = Js.lookup k p2) ->
  validateBook (JObj p1) isUpdate = validateBook (JObj p2) isUpdate.
Proof.
  intros H.
  unfold Worker.validateBook, Worker.checkRequired, Worker.checkText, Worker.checkYear,
    Worker.checkIsbn, Worker.checkOptionalText, Worker.missingFields, Worker.getProp, Js.prop.
  rewrite (H "title" eq_refl), (H "author" eq_refl), (H "year" eq_refl),
    (H "isbn" eq_refl), (H "description" eq_refl), (H "genre" eq_refl).
  reflexivity.
Qed.

Lemma bind_passes (p : Prog unit) (q : Prog unit) :
  passesOrRejects p -> (p ;; q)%prog = Ret tt -> p = Ret tt /\ q = Ret tt.
Proof.
  intros [-> | [msg ->]]; simpl; [auto|discriminate].
Qed.

(** A record passes validation when it passes the seven checks. *)
Lemma validateBook_passes (props : list (string * JsValue)) (isUpdate : bool) :
  validateBook (JObj props) isUpdate = Ret tt ->
  checkRequired (JObj props) isUpdate = Ret tt
  /\ checkText (JObj props) "title" "Title" 500 = Ret tt
  /\ checkText (JObj props) "author" "Author" 200 = Ret tt
  /\ checkYear (JObj props) = Ret tt
  /\ checkIsbn (JObj props) = Ret tt
  /\ checkOptionalText (JObj props) "description" "Description" 5000 = Ret tt
  /\ checkOptionalText (JObj props) "genre" "Genre" 100 = Ret tt.
Proof.
  unfold Worker.validateBook. intros H.
  apply bind_passes in H; [|apply checkRequired_cases]. destruct H as [H1 H].
  apply bind_passes in H; [|apply checkText_cases]. destruct H as [H2 H].
  apply bind_passes in H; [|apply checkText_cases]. destruct H as [H3 H].
  apply bind_passes in H; [|apply checkYear_cases]. destruct H as [H4 H].
  apply bind_passes in H; [|apply checkIsbn_cases]. destruct H as [H5 H].
  apply bind_passes in H; [|apply checkOptionalText_cases]. destruct H as [H6 H7].
  repeat split; assumption.
Qed.

Lemma required_text (props : list (string * JsValue)) (field what : string) (maxLen : nat) :
  Js.truthy (Js.prop (JObj props) field) = true ->
  checkText (JObj props) field what maxLen = Ret tt ->
  exists s, Js.prop (JObj props) field = JStr s.
Proof.
  unfold Worker.checkText, Worker.getProp. cbn [bind].
  destruct (Js.prop (JObj props) field); simpl; intros Ht Hc;
    try discriminate Ht; try discriminate Hc.
  eexists. reflexivity.
Qed.

Lemma checkRequired_passes (props : list (string * JsValue)) :
  checkRequired (JObj props) false = Ret tt ->
  Js.truthy (Js.prop (JObj props) "title") = true
  /\ Js.truthy (Js.prop (JObj props) "author") = true.
Proof.
  unfold Worker.checkRequired, Worker.missingFields, Worker.getProp. cbn [bind negb].
  destruct (Js.truthy (Js.prop (JObj props) "title")),
           (Js.truthy (Js.prop (JObj props) "author"));
    simpl; intros H; try discriminate H. split; reflexivity.
Qed.

Lemma trimOrNull_optional (props : list (string * JsValue)) (field what : string)
  (maxLen : nat) :
  checkOptionalText (JObj props) field what maxLen = Ret tt ->
  Worker.trimOrNull captureStack (Js.prop (JObj props) field)
  = Ret (textOrNull (Js.prop (JObj props) field)).
Proof.
  unfold Worker.checkOptionalText, Worker.getProp, Worker.trimOrNull. cbn [bind].
  destruct (Js.prop (JObj props) field) as [| |[|]|n| |s|?|?]; simpl;
    intros H; try discriminate H; try reflexivity.
  destruct (String.eqb s ""); reflexivity.
Qed.

(** The bindings of the INSERT for a record that passed validation:
    the six columns in order, title and author trimmed, [null] for a
    year or an ISBN that is falsy, genre and description trimmed when
    they are a non-empty text and [null] when absent. *)
Lemma insertBindings_of_valid (props : list (string * JsValue)) :
  validateBook (JObj props) false = Ret tt ->
  exists title author,
    Js.prop (JObj props) "title" = JStr title
    /\ Js.prop (JObj props) "author" = JStr author
    /\ Worker.insertBindings captureStack (JObj props)
       = Ret [JStr (Str.trim title); JStr (Str.trim author);
              Js.orNull (Js.prop (JObj props) "year");
              Js.orNull (Js.prop (JObj props) "isbn");
              textOrNull (Js.prop (JObj props) "genre");
              textOrNull (Js.prop (JObj props) "description")].
Proof.
  intros Hvalid.
  destruct (validateBook_passes props false Hvalid) as (H1 & H2 & H3 & _ & _ & H6 & H7).
  destruct (checkRequired_passes props H1) as [Ht Ha].
  destruct (required_text props "title" "Title" 500 Ht H2) as [title Etitle].
  destruct (required_text props "author" "Author" 200 Ha H3) as [author Eauthor].
  exists title, author. split; [exact Etitle|]. split; [exact Eauthor|].
  unfold Worker.insertBindings, Worker.getProp. cbn [bind].
  rewrite Etitle, Eauthor. cbn [Worker.callTrim bind].
  rewrite (trimOrNull_optional props "genre" "Genre" 100 H7). cbn [bind].
  rewrite (trimOrNull_optional props "description" "Description" 5000 H6).
  reflexivity.
Qed.

End Validation.

(** ** Parsing numbers *)

Lemma safeParseInt_default {T : Type} (num : Z -> T) (v : JsValue) (d : T) :
  notPositive v -> safeParseInt num v d = d.
Proof.
  unfold safeParseInt. intros [-> | [n [-> Hn]]]; [reflexivity|].
  destruct (Z.ltb_spec 0 n); [lia|reflexivity].
Qed.

Lemma safeParseInt_positive {T : Type} (num : Z -> T) (v : JsValue) (d : T) (n : Z) :
  Js.parseInt v = Some n -> 0 < n -> safeParseInt num v d = num n.
Proof.
  unfold safeParseInt. intros -> Hn.
  destruct (Z.ltb_spec 0 n); [reflexivity|lia].
Qed.

Lemma safeParseInt_range (v : JsValue) (d : Z) :
  0 < d -> 0 < safeParseInt (fun n => n) v d.
Proof.
  unfold safeParseInt. intros Hd. destruct (Js.parseInt v) as [n|]; [|exact Hd].
  destruct (Z.ltb_spec 0 n); assumption.
Qed.

Lemma getParam_absent (name : string) (params : list (string * string)) :
  ~ In name (map fst params) -> getParam name params = JNull.
Proof.
  induction params as [|[k v] r IH]; simpl; intros Hn; [reflexivity|].
  destruct (String.eqb_spec name k) as [E|N]; [|apply IH; tauto].
  exfalso. apply Hn. left. symmetry. exact E.
Qed.

Lemma notPositive_null : notPositive JNull.
Proof. left. reflexivity. Qed.

Lemma ceilDiv_isCeiling (total limit : Z) :
  0 < limit ->
  exists pages, ceilDiv (JNum total) limit = JNum pages /\ isCeiling pages total limit.
Proof.
  intros Hl. exists (- ((- total) / limit)). split; [reflexivity|].
  unfold isCeiling.
  pose proof (Z.div_mod (- total) limit ltac:(lia)) as Hdm.
  pose proof (Z.mod_pos_bound (- total) limit Hl) as Hb.
  nia.
Qed.

(** ** Decimal numerals *)

Lemma isDigit_digit (c : ascii) :
  Str.isDigit c = true -> exists d, Js.digit 10 c = Some d /\ 0 <= d <= 9.
Proof.
  unfold Str.isDigit, Js.digit. intros H.
  apply andb_true_iff in H. destruct H as [H1 H2].
  apply N.leb_le in H1. apply N.leb_le in H2.
  destruct (Z.leb_spec 48 (Z.of_N (Str.code c))); [|lia].
  destruct (Z.leb_spec (Z.of_N (Str.code c)) 57); [|lia].
  simpl. eexists. split; [reflexivity|lia].
Qed.

Lemma isDigit_cases (c : ascii) :
  Str.isDigit c = true ->
  In c ["0"; "1"; "2"; "3"; "4"; "5"; "6"; "7"; "8"; "9"]%char.
Proof.
  destruct c as [[|] [|] [|] [|] [|] [|] [|] [|]];
    intros H; try discriminate H; simpl; tauto.
Qed.

Lemma digits_numeral (s : string) :
  Str.forallb Str.isDigit s = true ->
  forall a, 0 <= a -> exists n, Js.digits 10 (Some a) s = Some n /\ 0 <= n.
Proof.
  induction s as [|c s IH]; simpl; intros Hs a Ha.
  - exists a. split; [reflexivity|exact Ha].
  - apply andb_true_iff in Hs. destruct Hs as [Hc Hs].
    destruct (isDigit_digit c Hc) as (d & -> & Hd).
    apply IH; [exact Hs|nia].
Qed.

(** A non-empty string of digits reads as the number it writes, which
    is not negative. *)
Lemma parseIntStr_numeral (s : string) :
  s <> "" -> Str.forallb Str.isDigit s = true ->
  exists n, Js.parseIntStr s = Some n /\ 0 <= n.
Proof.
  intros Hne Hs. destruct s as [|c r]; [contradiction|].
  assert (Hplain : Js.parseIntStr (String c r)
                   = match Js.digits 10 None (String c r) with
                     | Some n => Some (1 * n)
                     | None => None
                     end).
  { simpl in Hs. apply andb_true_iff in Hs. destruct Hs as [Hc Hr].
    destruct (isDigit_cases c Hc) as [<-|[<-|[<-|[<-|[<-|[<-|[<-|[<-|[<-|[<-|[]]]]]]]]]]];
      try reflexivity.
    destruct r as [|c2 r2]; [reflexivity|].
    simpl in Hr. apply andb_true_iff in Hr. destruct Hr as [Hc2 _].
    destruct (isDigit_cases c2 Hc2)
      as [<-|[<-|[<-|[<-|[<-|[<-|[<-|[<-|[<-|[<-|[]]]]]]]]]]]; reflexivity. }
  rewrite Hplain. simpl. simpl in Hs. apply andb_true_iff in Hs. destruct Hs as [Hc Hr].
  destruct (isDigit_digit c Hc) as (d & -> & Hd).
  assert (H0 : 0 <= d) by lia.
  destruct (digits_numeral r Hr d H0) as (n & -> & Hn).
  exists (1 * n). split; [reflexivity|lia].
Qed.

Ltac digit_value :=
  match goal with
  | |- context [Z.of_N (Str.code ?c) - 48] =>
      let v := eval vm_compute in (Z.of_N (Str.code c) - 48) in
      change (Z.of_N (Str.code c) - 48) with v
  end.

Lemma digits_step (a d : Z) (c : ascii) (r : string) :
  Js.digit 10 c = Some d ->
  Js.digits 10 (Some a) (String c r) = Js.digits 10 (Some (a * 10 + d)) r.
Proof. intros H. simpl. rewrite H. reflexivity. Qed.

Lemma digits_of_uint_acc (d : Decimal.uint) (a : positive) :
  Js.digits 10 (Some (Zpos a)) (NilEmpty.string_of_uint d)
  = Some (Zpos (Pos.of_uint_acc d a)).
Proof.
  revert a.
  induction d; intros a; cbn [NilEmpty.string_of_uint Pos.of_uint_acc];
    [reflexivity|..];
    (erewrite digits_step by reflexivity); digit_value;
    rewrite <- IHd; do 2 f_equal; lia.
Qed.

Lemma digits_of_uint_zero (d : Decimal.uint) :
  Js.digits 10 (Some 0) (NilEmpty.string_of_uint d) = Some (Z.of_N (Pos.of_uint d)).
Proof.
  induction d; cbn [NilEmpty.string_of_uint Pos.of_uint]; [reflexivity|..];
    (erewrite digits_step by reflexivity); digit_value; cbn [Z.mul Z.add Z.of_N];
    [exact IHd|..]; apply digits_of_uint_acc.
Qed.

Lemma digits_of_uint (d : Decimal.uint) :
  d <> Decimal.Nil ->
  Js.digits 10 None (NilEmpty.string_of_uint d) = Some (Z.of_N (Pos.of_uint d)).
Proof.
  destruct d; intros Hd; [contradiction|..];
    cbn [NilEmpty.string_of_uint Pos.of_uint Z.of_N];
    [apply digits_of_uint_zero|..]; apply digits_of_uint_acc.
Qed.

Lemma parseIntStr_of_uint (d : Decimal.uint) :
  d <> Decimal.Nil ->
  Js.parseIntStr (NilEmpty.string_of_uint d)
  = match Js.digits 10 None (NilEmpty.string_of_uint d) with
    | Some n => Some (1 * n)
    | None => None
    end.
Proof.
  destruct d; intros Hd; [contradiction|..]; destruct d; reflexivity.
Qed.

(** [parseInt] reads the decimal rendering of a number that is not
    negative as that number. *)
Lemma parseIntStr_ofZ (n : Z) : 0 <= n -> Js.parseIntStr (Str.ofZ n) = Some n.
Proof.
  intros Hn. destruct n as [|p|p]; [reflexivity| |lia].
  unfold Str.ofZ. simpl Z.to_int. unfold NilZero.string_of_int, NilZero.string_of_uint.
  pose proof (DecimalPos.Unsigned.to_uint_nonnil p) as Hnil.
  assert (Hread : Js.parseIntStr (NilEmpty.string_of_uint (Pos.to_uint p)) = Some (Zpos p)).
  { rewrite (parseIntStr_of_uint _ Hnil), (digits_of_uint _ Hnil),
      DecimalPos.Unsigned.of_to. reflexivity. }
  destruct (Pos.to_uint p) eqn:Hd; [contradiction|..]; exact Hread.
Qed.

(** ** The statements of the list *)

Lemma listQueries_shape (genre year : JsValue) (limit offset : Z) :
  let q := listQueries genre year limit offset in
  let predicate :=
    ((if Js.truthy genre then " AND genre = ?" else "")
       ++ (if Js.truthy year then " AND year = ?" else ""))%string in
  let filters :=
    ((if Js.truthy genre then [genre] else [])
       ++ (if Js.truthy year then [year] else []))%list in
  countQuery q = ("SELECT COUNT(*) as count FROM books WHERE 1=1" ++ predicate)%string
  /\ countBindings q = filters
  /\ dataQuery q
     = ("SELECT * FROM books WHERE 1=1" ++ predicate
          ++ " ORDER BY id ASC LIMIT ? OFFSET ?")%string
  /\ dataBindings q = (filters ++ [JNum limit; JNum offset])%list.
Proof.
  unfold listQueries.
  destruct (Js.truthy genre), (Js.truthy year); simpl; repeat split; reflexivity.
Qed.

Section Dispatcher.

Variable currentYear : Z.
Variable captureStack : ErrorClass -> string -> string.

Local Notation newError := (Worker.newError captureStack).
Local Notation throw := (Worker.throw captureStack).
Local Notation validateBook := (Worker.validateBook currentYear captureStack).
Local Notation validateContentType := (Worker.validateContentType captureStack).
Local Notation executeQuery := (Worker.executeQuery captureStack).
Local Notation checkRateLimit := (Worker.checkRateLimit captureStack).
Local Notation listBooks := (Worker.listBooks captureStack).
Local Notation insertBindings := (Worker.insertBindings captureStack).
Local Notation createBook := (Worker.createBook currentYear captureStack).
Local Notation updateBook := (Worker.updateBook currentYear captureStack).
Local Notation singleBook := (Worker.singleBook currentYear captureStack).
Local Notation dispatch := (Worker.dispatch currentYear captureStack).
Local Notation fetch := (Worker.fetch currentYear captureStack).

Lemma run_executeQuery {W : Type} (h : Handler W) (sql : string) (binds : list JsValue) (w : W) :
  run h (executeQuery sql binds) w =
  ([RaceAll sql binds],
   match reply h (RaceAll sql binds) w with
   | Rows results => Returned results
   | Rejected f => Threw (ofFault f)
   | TimedOut => Threw (newError PlainError "Database query timeout")
   end,
   after h (RaceAll sql binds) w).
Proof.
  unfold Worker.executeQuery. rewrite run_bind, run_call.
  destruct (reply h (RaceAll sql binds) w); reflexivity.
Qed.

(** C1, as the worker has it.  [GET /api/books], for every assignment of
    the query parameters in which the offset and the year read stay safe
    integers, and a count of the store that is one.  [page] is 1 and
    [limit] is 10 when the parameter is absent or [parseInt] reads no
    positive integer from it, and the positive integer [parseInt] reads
    otherwise, [limit] capped at 100; a parameter that is a positive
    integer is read as itself; so [1 <= page <= 2^53] and
    [1 <= limit <= 100].
    The count statement and the data statement carry the same genre and
    year predicate and bindings; the data statement adds the order by
    [id] ascending and [LIMIT ? OFFSET ?], bound to [limit] and
    [(page - 1) * limit]; the count statement has neither.  When the
    genre is not too long and the store answers the count [total] and
    then the rows, the worker makes exactly these two calls and returns
    200 with [pages] the ceiling of [total / limit]; 42 rows by 10 are 5
    pages. *)
Theorem list_books_pagination
  (W : Type) (h : Handler W) (w : W) (request : Request)
  (total : Z) (rows : list JsValue) :
  let params := searchParams request in
  let page := pageOf params in
  let limit := limitOf params in
  let genre := genreOf params in
  let year := yearOf params in
  let q := listQueries genre year limit ((page - 1) * limit) in
  let predicate :=
    ((if Js.truthy genre then " AND genre = ?" else "")
       ++ (if Js.truthy year then " AND year = ?" else ""))%string in
  let filters :=
    ((if Js.truthy genre then [genre] else [])
       ++ (if Js.truthy year then [year] else []))%list in
  let counting := RaceAll (countQuery q) (countBindings q) in
  let reading := RaceAll (dataQuery q) (dataBindings q) in
  isSafeInteger ((page - 1) * limit) = true ->
  toStringExact year = true ->
  isSafeInteger total = true ->
  Js.truthy genre && Nat.ltb 100 (lengthOf genre) = false ->
  reply h counting w = Rows [JObj [("count", JNum total)]] ->
  reply h reading (after h counting w) = Rows rows ->
  (forall name, ~ In name (map fst params) -> notPositive (getParam name params))
  /\ (notPositive (getParam "page" params) -> page = 1)
  /\ (forall n, Js.parseInt (getParam "page" params) = Some n -> 0 < n -> page = n)
  /\ (forall n, 0 < n -> getParam "page" params = JStr (Str.ofZ n) -> page = n)
  /\ (notPositive (getParam "limit" params) -> limit = 10)
  /\ (forall n, Js.parseInt (getParam "limit" params) = Some n -> 0 < n ->
      limit = Z.min n 100)
  /\ (forall n, 0 < n -> getParam "limit" params = JStr (Str.ofZ n) ->
      limit = Z.min n 100)
  /\ 1 <= page <= MAX_SAFE_INTEGER + 1 /\ 1 <= limit <= 100
  /\ countQuery q = ("SELECT COUNT(*) as count FROM books WHERE 1=1" ++ predicate)%string
  /\ countBindings q = filters
  /\ dataQuery q
     = ("SELECT * FROM books WHERE 1=1" ++ predicate
          ++ " ORDER BY id ASC LIMIT ? OFFSET ?")%string
  /\ dataBindings q = (filters ++ [JNum limit; JNum ((page - 1) * limit)])%list
  /\ (exists pages,
        isCeiling pages total limit
        /\ run h (listBooks request) w
           = ([counting; reading],
              Returned
                (createResponse
                   (JObj [("data", JArr rows);
                          ("pagination",
                            JObj [("total", JNum total);
                                  ("page", JNum page);
                                  ("limit", JNum limit);
                                  ("pages", JNum pages)])])
                   200 shortCache),
              after h reading (after h counting w)))
  /\ ceilDiv (JNum 42) 10 = JNum 5.
Proof.
  intros params page limit genre year q predicate filters counting reading
         Hoffset Hyear Htotal Hgenre Hcount Hrows.
  assert (Hpage : 1 <= page).
  { pose proof (safeParseInt_range (getParam "page" params) 1 ltac:(lia)).
    unfold page, pageOf. lia. }
  assert (Hlimit : 1 <= limit <= 100).
  { pose proof (safeParseInt_range (getParam "limit" params) 10 ltac:(lia)).
    unfold limit, limitOf. lia. }
  destruct (listQueries_shape genre year limit ((page - 1) * limit))
    as (Hq1 & Hq2 & Hq3 & Hq4).
  split. { intros name Hn. rewrite getParam_absent by assumption. apply notPositive_null. }
  split. { intros Hn. apply safeParseInt_default. exact Hn. }
  split. { intros n Hn Hpos. apply (safeParseInt_positive (fun n => n)); assumption. }
  split. { intros n Hpos Hn. apply (safeParseInt_positive (fun n => n)); [|exact Hpos].
           rewrite Hn. apply parseIntStr_ofZ. lia. }
  split. { intros Hn. unfold limit, limitOf. rewrite safeParseInt_default by exact Hn.
           reflexivity. }
  split. { intros n Hn Hpos. unfold limit, limitOf.
           rewrite (safeParseInt_positive (fun n => n) _ _ n) by assumption.
           reflexivity. }
  split. { intros n Hpos Hn. unfold limit, limitOf.
           rewrite (safeParseInt_positive (fun n => n) _ _ n); [reflexivity| |exact Hpos].
           rewrite Hn. apply parseIntStr_ofZ. lia. }
  split. { split; [exact Hpage|].
           unfold isSafeInteger in Hoffset. apply Z.leb_le in Hoffset.
           assert (Hnn : 0 <= (page - 1) * limit) by (apply Z.mul_nonneg_nonneg; lia).
           rewrite (Z.abs_eq _ Hnn) in Hoffset.
           assert (Hle : (page - 1) * 1 <= (page - 1) * limit)
             by (apply Z.mul_le_mono_nonneg_l; lia).
           lia. }
  split; [exact Hlimit|].
  split; [exact Hq1|]. split; [exact Hq2|]. split; [exact Hq3|]. split; [exact Hq4|].
  split; [|reflexivity].
  destruct (ceilDiv_isCeiling total limit ltac:(lia)) as (pages & Hceil & Hpages).
  exists pages. split; [exact Hpages|].
  unfold Worker.listBooks.
  fold params. fold page. fold limit. fold genre. fold year.
  rewrite Hgenre. fold q.
  rewrite run_bind, run_executeQuery. fold counting. rewrite Hcount.
  rewrite run_bind. simpl run at 1. cbv iota beta.
  rewrite run_bind, run_executeQuery. fold reading. rewrite Hrows.
  cbn -[ceilDiv createResponse]. rewrite Hceil. reflexivity.
Qed.

(** ** The rate limit gate *)

(** C8.  The gate passes without a call when no limiter is bound.  With
    a limiter bound it asks once, with the client address as key: a
    denial ([success] false) throws the RateLimitError, which the
    dispatcher answers with 429; a failure of the limiter itself is
    logged and the gate passes; an allowance passes. *)
Theorem rate_limit_gate
  (W : Type) (h : Handler W) (w : W) (env : Env) (request : Request) :
  let asking := Limit (clientIp request) in
  let denied := newError RateLimitError "Rate limit exceeded. Please try again later." in
  (MY_RATE_LIMITER env = false ->
   run h (checkRateLimit env request) w = ([], Returned tt, w))
  /\ (MY_RATE_LIMITER env = true -> reply h asking w = inr false ->
      run h (checkRateLimit env request) w = ([asking], Threw denied, after h asking w)
      /\ errorResponse denied
         = createResponse (errorBody "Rate limit exceeded. Please try again later.") 429 [])
  /\ (forall f, MY_RATE_LIMITER env = true -> reply h asking w = inl f ->
      let logging :=
        Console ErrorLevel "Rate limiter error:" [("message", JStr (faultMessage f))] in
      run h (checkRateLimit env request) w
      = ([asking; logging], Returned tt, after h logging (after h asking w)))
  /\ (MY_RATE_LIMITER env = true -> reply h asking w = inr true ->
      run h (checkRateLimit env request) w = ([asking], Returned tt, after h asking w)).
Proof.
  intros asking denied. unfold Worker.checkRateLimit.
  split; [intros ->; reflexivity|].
  split; [|split].
  - intros -> Hr. split; [|reflexivity].
    simpl negb. cbv iota. rewrite run_tryCatch, run_bind, run_call.
    fold asking. rewrite Hr. reflexivity.
  - intros f -> Hr.
    simpl negb. cbv iota. rewrite run_tryCatch, run_bind, run_call.
    fold asking. rewrite Hr. cbn [Worker.await bind ofFault eclass run].
    rewrite run_log. reflexivity.
  - intros -> Hr.
    simpl negb. cbv iota. rewrite run_tryCatch, run_bind, run_call.
    fold asking. rewrite Hr. reflexivity.
Qed.

(** The gate calls the limiter and the console only. *)
Lemma checkRateLimit_no_store
  (W : Type) (h : Handler W) (w : W) (env : Env) (request : Request) :
  filter isStoreCall (fst (fst (run h (checkRateLimit env request) w))) = [].
Proof.
  unfold Worker.checkRateLimit. destruct (MY_RATE_LIMITER env); [|reflexivity].
  simpl negb. cbv iota. rewrite run_tryCatch, run_bind, run_call.
  destruct (reply h (Limit (clientIp request)) w) as [f | [|]];
    cbn [Worker.await bind ofFault eclass run]; try reflexivity.
  rewrite run_log. reflexivity.
Qed.

(** ** The dispatcher around the routes *)

(** What [fetch] does once the size gate is passed, from what the [try]
    block does. *)
Lemma run_fetch
  (W : Type) (h : Handler W) (w : W) (request : Request) (env : Env) :
  let requestId := reply h RandomUUID w in
  let w1 := after h (started request requestId) (after h RandomUUID w) in
  method request <> "OPTIONS" ->
  bodyTooLarge request = false ->
  run h (fetch request env) w =
  match run h (dispatch env request requestId) w1 with
  | (t, Returned response, w2) =>
      (([RandomUUID; started request requestId] ++ t ++ [completed requestId])%list,
       Returned response,
       after h (completed requestId) w2)
  | (t, Threw error, w2) =>
      (([RandomUUID; started request requestId] ++ t
          ++ [failed request requestId error; completed requestId])%list,
       Returned (errorResponse error),
       after h (completed requestId) (after h (failed request requestId error) w2))
  end.
Proof.
  intros requestId w1 Hm Hsize. unfold Worker.fetch.
  rewrite run_bind, run_call. fold requestId.
  rewrite run_bind, run_call. fold w1.
  destruct (String.eqb_spec (method request) "OPTIONS") as [E|_]; [contradiction|].
  rewrite Hsize. rewrite run_tryFinally, run_tryCatch.
  destruct (run h (dispatch env request requestId) w1) as [[t [response | error]] w2].
  - rewrite run_completed. reflexivity.
  - unfold onError. rewrite run_bind, run_failed.
    cbn [run]. rewrite run_completed.
    cbn [app]. rewrite <- ?app_assoc. reflexivity.
Qed.

(** C7.  A request that is not OPTIONS and declares a content length
    that reads as more than 1048576 is answered 413 after the two calls
    every request starts with (the request id and the start record): no
    call to the limiter, none to the store, whatever the method, the
    content type, the body and the bindings are.  A length declared in
    decimal reads as itself; a declared 2000000 is such a length. *)
Theorem oversized_request_rejected
  (W : Type) (h : Handler W) (w : W) (request : Request) (env : Env)
  (declared : string) (n : Z) :
  method request <> "OPTIONS" ->
  getParam "content-length" (requestHeaders request) = JStr declared ->
  Js.parseIntStr declared = Some n ->
  1048576 < n ->
  let requestId := reply h RandomUUID w in
  let trace := [RandomUUID; started request requestId] in
  run h (fetch request env) w
  = (trace,
     Returned (createResponse (errorBody "Request body too large (max 1MB)") 413 []),
     after h (started request requestId) (after h RandomUUID w))
  /\ filter (fun a => isLimiterCall a || isStoreCall a) trace = []
  /\ (forall m, 0 <= m -> Js.parseIntStr (Str.ofZ m) = Some m)
  /\ Js.parseIntStr "2000000" = Some 2000000.
Proof.
  intros Hm Hh Hp Hn requestId trace.
  split; [|split; [reflexivity|split; [exact parseIntStr_ofZ|reflexivity]]].
  unfold Worker.fetch.
  rewrite run_bind, run_call. fold requestId.
  rewrite run_bind, run_call.
  destruct (String.eqb_spec (method request) "OPTIONS") as [E|_]; [contradiction|].
  assert (Hbig : bodyTooLarge request = true).
  { unfold bodyTooLarge. rewrite Hh. unfold Js.parseInt. simpl Js.toString. rewrite Hp.
    destruct declared; [discriminate Hp|].
    simpl. apply Z.ltb_lt. exact Hn. }
  rewrite Hbig. reflexivity.
Qed.


(** ** The single-record route *)

Lemma matchSingleBook_not_collection (path segment : string) :
  matchSingleBook path = Some segment ->
  String.eqb path "/api/books/search" = false /\ String.eqb path "/api/books" = false.
Proof.
  intros Hm. split.
  - destruct (String.eqb_spec path "/api/books/search") as [E|_]; [|reflexivity].
    rewrite E in Hm. vm_compute in Hm. discriminate.
  - destruct (String.eqb_spec path "/api/books") as [E|_]; [|reflexivity].
    rewrite E in Hm. vm_compute in Hm. discriminate.
Qed.

(** The [try] block on a path of the single-record route, once the two
    gates are passed. *)
Lemma run_dispatch_single
  (W : Type) (h : Handler W) (w : W) (env : Env) (request : Request)
  (requestId segment : string) (tg : list Action) (w2 : W) :
  run h (checkRateLimit env request) w = (tg, Returned tt, w2) ->
  validateContentType request = Ret tt ->
  matchSingleBook (pathname request) = Some segment ->
  run h (dispatch env request requestId) w =
  let '(t, o, w3) := run h (singleBook request requestId segment) w2 in
  ((tg ++ t)%list, o, w3).
Proof.
  intros Hgate Hct Hm. unfold Worker.dispatch.
  rewrite run_bind, Hgate. rewrite Hct. cbn [bind].
  destruct (matchSingleBook_not_collection _ _ Hm) as [-> ->].
  rewrite Hm. reflexivity.
Qed.

Lemma gate_trace_no_store
  (W : Type) (h : Handler W) (w : W) (env : Env) (request : Request)
  (tg : list Action) (o : Outcome unit) (w2 : W) :
  run h (checkRateLimit env request) w = (tg, o, w2) ->
  filter isStoreCall tg = [].
Proof.
  intros Hgate. pose proof (checkRateLimit_no_store W h w env request) as Hn.
  rewrite Hgate in Hn. exact Hn.
Qed.

Lemma matchSingleBook_numeral (path segment : string) :
  matchSingleBook path = Some segment ->
  segment <> "" /\ Str.forallb Str.isDigit segment = true.
Proof.
  unfold matchSingleBook. destruct (prefix "/api/books/" path); [|discriminate].
  destruct (String.eqb_spec (substring 11 (String.length path - 11) path) "") as [E|N];
    simpl; [discriminate|].
  destruct (Str.forallb Str.isDigit (substring 11 (String.length path - 11) path)) eqn:Hd;
    [|discriminate].
  intros [= <-]. split; assumption.
Qed.

(** The id segment of the route reads as a number that is not negative:
    it reads as no positive number exactly when it reads as zero. *)
Lemma segment_reads (path segment : string) :
  matchSingleBook path = Some segment ->
  exists n, Js.parseIntStr segment = Some n /\ 0 <= n.
Proof.
  intros Hm. destruct (matchSingleBook_numeral path segment Hm) as [Hne Hd].
  exact (parseIntStr_numeral segment Hne Hd).
Qed.

(** C10.  On the single-record route, an id segment that reads as no
    positive number, as "0" does (on this route it then reads as zero),
    makes the branch throw the ValidationError 'Invalid book ID' at once,
    with no call at all.  For a request that passes the size, rate limit
    and content type gates [fetch] then answers 400 with that message,
    and not 404; the store is not called. *)
Theorem invalid_book_id_rejected
  (W : Type) (h : Handler W) (w : W) (request : Request) (env : Env)
  (segment : string) (tg : list Action) (w2 : W) :
  let requestId := reply h RandomUUID w in
  let w1 := after h (started request requestId) (after h RandomUUID w) in
  let invalid := newError ValidationError "Invalid book ID" in
  let trace :=
    ([RandomUUID; started request requestId] ++ tg
       ++ [failed request requestId invalid; completed requestId])%list in
  method request <> "OPTIONS" ->
  bodyTooLarge request = false ->
  run h (checkRateLimit env request) w1 = (tg, Returned tt, w2) ->
  validateContentType request = Ret tt ->
  matchSingleBook (pathname request) = Some segment ->
  notPositive (JStr segment) ->
  Js.parseIntStr segment = Some 0
  /\ singleBook request requestId segment = Throw invalid
  /\ run h (fetch request env) w
     = (trace,
        Returned (createResponse (errorBody "Invalid book ID") 400 []),
        after h (completed requestId) (after h (failed request requestId invalid) w2))
  /\ filter isStoreCall trace = []
  /\ notPositive (JStr "0")
  /\ matchSingleBook "/api/books/0" = Some "0".
Proof.
  intros requestId w1 invalid trace Hm Hsize Hgate Hct Hroute Hseg.
  split.
  { destruct (segment_reads _ _ Hroute) as (n & Hn & Hpos).
    destruct Hseg as [Hnan | (n' & Hn' & Hneg)]; unfold Js.parseInt in *; simpl in *.
    - congruence.
    - rewrite Hn in Hn'. injection Hn' as <-. rewrite Hn. f_equal. lia. }
  assert (Hbranch : singleBook request requestId segment = Throw invalid).
  { unfold Worker.singleBook. rewrite (safeParseInt_default _ _ _ Hseg). reflexivity. }
  split; [exact Hbranch|].
  split.
  { rewrite (run_fetch W h w request env Hm Hsize). fold requestId. fold w1.
    rewrite (run_dispatch_single W h w1 env request requestId segment tg w2 Hgate Hct Hroute).
    rewrite Hbranch. cbn [run]. rewrite app_nil_r. reflexivity. }
  split.
  { unfold trace. rewrite !filter_app.
    rewrite (gate_trace_no_store W h w1 env request tg _ w2 Hgate). reflexivity. }
  split; [|reflexivity].
  right. exists 0. split; [reflexivity|lia].
Qed.

(** C6, as the worker has it.  On the single-record route, for a request
    that passes the size, rate limit and content type gates and whose id
    segment reads as a positive number [id]: when the lookup of [id]
    finds no row, the branch throws the NotFoundError 'Book not found'
    after that one call, whatever the method is, and [fetch] answers 404
    with that message; the lookup is the only call to the store. *)
Theorem missing_book_not_found
  (W : Type) (h : Handler W) (w : W) (request : Request) (env : Env)
  (segment : string) (id : Z) (rows : list JsValue) (tg : list Action) (w2 : W) :
  let requestId := reply h RandomUUID w in
  let w1 := after h (started request requestId) (after h RandomUUID w) in
  let lookup := RaceAll selectByIdSql [JNum id] in
  let missing := newError NotFoundError "Book not found" in
  let trace :=
    ([RandomUUID; started request requestId] ++ tg
       ++ [lookup; failed request requestId missing; completed requestId])%list in
  method request <> "OPTIONS" ->
  bodyTooLarge request = false ->
  run h (checkRateLimit env request) w1 = (tg, Returned tt, w2) ->
  validateContentType request = Ret tt ->
  matchSingleBook (pathname request) = Some segment ->
  Js.parseIntStr segment = Some id ->
  0 < id ->
  reply h lookup w2 = Rows rows ->
  Js.truthy (hd JUndefined rows) = false ->
  run h (singleBook request requestId segment) w2
  = ([lookup], Threw missing, after h lookup w2)
  /\ run h (fetch request env) w
     = (trace,
        Returned (createResponse (errorBody "Book not found") 404 []),
        after h (completed requestId)
          (after h (failed request requestId missing) (after h lookup w2)))
  /\ filter isStoreCall trace = [lookup].
Proof.
  intros requestId w1 lookup missing trace Hm Hsize Hgate Hct Hroute Hseg Hpos
         Hrows Hnone.
  assert (Hbranch : run h (singleBook request requestId segment) w2
                    = ([lookup], Threw missing, after h lookup w2)).
  { unfold Worker.singleBook.
    rewrite (safeParseInt_positive (fun n => n) (JStr segment) 0 id Hseg Hpos).
    destruct (Z.eqb_spec id 0) as [E|_]; [lia|].
    rewrite run_bind, run_executeQuery. fold lookup. rewrite Hrows.
    rewrite Hnone. reflexivity. }
  split; [exact Hbranch|].
  split.
  { rewrite (run_fetch W h w request env Hm Hsize). fold requestId. fold w1.
    rewrite (run_dispatch_single W h w1 env request requestId segment tg w2 Hgate Hct Hroute).
    rewrite Hbranch. unfold trace. rewrite <- (app_assoc tg). reflexivity. }
  unfold trace. rewrite !filter_app.
  rewrite (gate_trace_no_store W h w1 env request tg _ w2 Hgate). reflexivity.
Qed.

(** ** The partial update *)

Lemma updateValues_filter (props : list (string * JsValue)) (fields : list string) (id : Z) :
  (forall key, In key fields -> Str.mem key ALLOWED_UPDATE_FIELDS = true) ->
  updateValues (JObj (filter allowedProp props)) fields id
  = updateValues (JObj props) fields id.
Proof.
  intros Hall. unfold updateValues. f_equal. apply map_ext_in.
  intros key Hin. unfold Js.prop. rewrite lookup_filter_allowed by auto. reflexivity.
Qed.

(** What the PUT branch does on an object payload, up to the UPDATE. *)
Lemma updateBook_object
  (request : Request) (requestId : string) (book : JsValue) (id : Z)
  (props : list (string * JsValue)) :
  json request = inr (JObj props) ->
  let updateFields := updateFieldsOf (map fst props) in
  updateBook request requestId book id
  = if Nat.eqb (List.length updateFields) 0
    then throw ValidationError "No valid fields to update"
    else
      (validateBook (Js.spread book (JObj props)) true ;;
       r <- call (StmtRun ("UPDATE books SET " ++ setClauseOf updateFields ++ " WHERE id = ?")
                          (updateValues (JObj props) updateFields id)) ;;
       result <- await r ;;
       if negb (success result) then throw PlainError "Failed to update book"
       else
         rows <- executeQuery selectByIdSql [JNum id] ;;
         log LogLevel "Book updated:"
           [("requestId", JStr requestId); ("bookId", JNum id);
            ("updatedFields", JArr (map JStr updateFields))] ;;
         Ret (createResponse (hd JUndefined rows) 200 []))%prog.
Proof.
  intros Hjson updateFields. unfold Worker.updateBook. rewrite Hjson. reflexivity.
Qed.

(** With an allowed key and a valid merged record, the first call of the
    PUT branch is the UPDATE. *)
Lemma put_reaches_update
  (W : Type) (h : Handler W) (w : W) (request : Request) (requestId : string)
  (book : JsValue) (id : Z) (props : list (string * JsValue)) :
  json request = inr (JObj props) ->
  let updateFields := updateFieldsOf (map fst props) in
  updateFields <> [] ->
  validateBook (Js.spread book (JObj props)) true = Ret tt ->
  exists t o w',
    run h (updateBook request requestId book id) w
    = (StmtRun ("UPDATE books SET " ++ setClauseOf updateFields ++ " WHERE id = ?")
               (updateValues (JObj props) updateFields id) :: t, o, w').
Proof.
  intros Hjson updateFields Hsome Hvalid.
  rewrite (updateBook_object request requestId book id props Hjson).
  fold updateFields. rewrite Hvalid. cbn [bind].
  destruct updateFields as [|k0 ks] eqn:Hf; [contradiction|].
  cbn [List.length Nat.eqb]. rewrite run_bind, run_call.
  match goal with
  | |- context [run h ?p ?w0] =>
      match p with
      | bind _ _ => destruct (run h p w0) as [[t o] w']
      end
  end.
  exists t, o, w'. reflexivity.
Qed.

(** C5.  On [PUT /api/books/{id}] with an object as payload: the
    updated columns are the keys of the payload that are in the
    allow-list, in the order of the payload.  The keys outside the
    allow-list are dropped and not rejected: the branch runs as it does
    on the payload without them.  With no key left it throws the
    ValidationError 'No valid fields to update', answered 400, and calls
    nothing.  Otherwise, when the merged record is valid, the first call
    is the UPDATE whose SET clause is the [col = ?] pairs of these
    columns, joined by ', '. *)
Theorem update_allow_list
  (W : Type) (h : Handler W) (w : W) (request : Request) (requestId : string)
  (book : JsValue) (id : Z) (props : list (string * JsValue)) :
  json request = inr (JObj props) ->
  let updateFields :=
    filter (fun key => Str.mem key ALLOWED_UPDATE_FIELDS) (map fst props) in
  let kept := JObj (filter allowedProp props) in
  let statement :=
    ("UPDATE books SET "
       ++ String.concat ", " (map (fun key => key ++ " = ?") updateFields)
       ++ " WHERE id = ?")%string in
  let rejected := newError ValidationError "No valid fields to update" in
  run h (updateBook request requestId book id) w
  = run h (updateBook (withJson request kept) requestId book id) w
  /\ (updateFields = [] ->
      run h (updateBook request requestId book id) w = ([], Threw rejected, w)
      /\ errorResponse rejected
         = createResponse (errorBody "No valid fields to update") 400 [])
  /\ (updateFields <> [] ->
      validateBook (Js.spread book (JObj props)) true = Ret tt ->
      exists t o w',
        run h (updateBook request requestId book id) w
        = (StmtRun statement (updateValues (JObj props) updateFields id) :: t, o, w')).
Proof.
  intros Hjson updateFields kept statement rejected.
  split; [|split].
  - rewrite (updateBook_object request requestId book id props Hjson).
    rewrite (updateBook_object (withJson request kept) requestId book id
               (filter allowedProp props) eq_refl).
    assert (Hkeys : updateFieldsOf (map fst (filter allowedProp props))
                    = updateFieldsOf (map fst props)).
    { rewrite keys_filter_allowed. apply filter_idem. }
    rewrite Hkeys.
    assert (Hvalid : validateBook (Js.spread book kept) true
                     = validateBook (Js.spread book (JObj props)) true).
    { apply validateBook_ext. intros k Hk.
      change (Js.lookup k (Js.ownProps (Js.spread book kept))
              = Js.lookup k (Js.ownProps (Js.spread book (JObj props)))).
      rewrite (lookup_spread k book kept), (lookup_spread k book (JObj props)).
      simpl Js.ownProps. rewrite (lookup_filter_allowed k props Hk). reflexivity. }
    fold kept. rewrite Hvalid. unfold kept.
    rewrite (updateValues_filter props (updateFieldsOf (map fst props)) id);
      [reflexivity|].
    intros key Hin. apply filter_In in Hin. tauto.
  - intros Hnone.
    rewrite (updateBook_object request requestId book id props Hjson).
    change (updateFieldsOf (map fst props)) with updateFields.
    rewrite Hnone. split; reflexivity.
  - intros Hsome Hvalid.
    exact (put_reaches_update W h w request requestId book id props Hjson Hsome Hvalid).
Qed.

(** The rendering of an index is no field of the allow-list: the keys
    of an array or of a text are all dropped. *)
Lemma index_not_allowed (i : nat) :
  Str.mem (Str.ofZ (Z.of_nat i)) ALLOWED_UPDATE_FIELDS = false.
Proof.
  destruct (Z.of_nat i) as [|p|p] eqn:Hi; [reflexivity| |lia].
  unfold Str.ofZ. simpl Z.to_int. unfold NilZero.string_of_int, NilZero.string_of_uint.
  pose proof (DecimalPos.Unsigned.to_uint_nonnil p) as Hnil.
  destruct (Pos.to_uint p); [contradiction|..]; reflexivity.
Qed.

Lemma updateFieldsOf_indices (n : nat) :
  updateFieldsOf (map (fun i => Str.ofZ (Z.of_nat i)) (seq 0 n)) = [].
Proof.
  unfold updateFieldsOf. generalize 0%nat.
  induction n as [|n IH]; intros start; simpl; [reflexivity|].
  rewrite index_not_allowed. apply IH.
Qed.

(** A payload that is an array, a text, a number or a boolean has no
    allowed key: the PUT branch throws the same ValidationError.  (On
    [null] it is [Object.keys] that throws, a TypeError.) *)
Lemma update_rejects_keyless_payload
  (request : Request) (requestId : string) (book : JsValue) (id : Z) (payload : JsValue) :
  json request = inr payload ->
  match payload with
  | JUndefined | JNull | JObj _ => True
  | _ => updateBook request requestId book id
         = throw ValidationError "No valid fields to update"
  end.
Proof.
  intros Hjson. unfold Worker.updateBook. rewrite Hjson.
  destruct payload; try exact I; cbn [Worker.await bind Worker.Object_keys];
    try reflexivity; rewrite updateFieldsOf_indices; reflexivity.
Qed.

(** C2, as the worker has it.  On [PUT /api/books/{id}], when the
    payload has an allowed key and the merged record is valid, the first
    call is the UPDATE, whose statement ends with [WHERE id = ?]; its
    values are one per updated column, in order, and then the row id,
    which is the last one.  The value of a column is the text of the
    payload trimmed, with no white space left at either end, when that
    text is not empty once trimmed; it is [null] when the payload has the
    empty string; a value that is no text is bound as it is. *)
Theorem update_values_bound
  (W : Type) (h : Handler W) (w : W) (request : Request) (requestId : string)
  (book : JsValue) (id : Z) (props : list (string * JsValue)) :
  json request = inr (JObj props) ->
  let updates := JObj props in
  let updateFields := updateFieldsOf (map fst props) in
  updateFields <> [] ->
  validateBook (Js.spread book updates) true = Ret tt ->
  exists values t o w',
    run h (updateBook request requestId book id) w
    = (StmtRun ("UPDATE books SET " ++ setClauseOf updateFields ++ " WHERE id = ?") values
         :: t, o, w')
    /\ List.length values = S (List.length updateFields)
    /\ last values JUndefined = JNum id
    /\ (forall i key,
          nth_error updateFields i = Some key ->
          exists bound,
            nth_error values i = Some bound
            /\ (forall s, Js.prop updates key = JStr s -> Str.trim s <> "" ->
                bound = JStr (Str.trim s)
                /\ startsWhite (Str.trim s) = false
                /\ endsWhite (Str.trim s) = false)
            /\ (Js.prop updates key = JStr "" -> bound = JNull)
            /\ (Js.isString (Js.prop updates key) = false ->
                bound = Js.prop updates key)).
Proof.
  intros Hjson updates updateFields Hsome Hvalid.
  destruct (put_reaches_update W h w request requestId book id props Hjson Hsome Hvalid)
    as (t & o & w' & Hrun).
  exists (updateValues updates updateFields id), t, o, w'.
  split; [exact Hrun|].
  unfold updateValues.
  split; [rewrite length_app, length_map; simpl; lia|].
  split; [apply last_last|].
  intros i key Hkey.
  exists (updateValue (Js.prop updates key)).
  split.
  { rewrite nth_error_app1 by (rewrite length_map; apply nth_error_Some; congruence).
    exact (map_nth_error (fun key => updateValue (Js.prop updates key)) i updateFields Hkey). }
  split; [|split].
  - intros s -> Hs. cbn [updateValue].
    destruct (trim_spec s) as (l & r & _ & _ & _ & Hst & He).
    destruct (Str.trim s) as [|c rest] eqn:Ht; [contradiction|].
    cbn [String.length Nat.ltb Nat.leb]. auto.
  - intros ->. reflexivity.
  - intros Hns. destruct (Js.prop updates key); try reflexivity. discriminate.
Qed.

End Dispatcher.

(** * The handler on concrete requests *)

(** The third page of the 42 books of 1949 filed as fiction, by 10: the
    offset is 20 and there are 5 pages. *)
Lemma list_books_pagination_witness :
  let request :=
    getRequest "/api/books"
      [("page", "3"); ("limit", "10"); ("genre", "Fiction"); ("year", "1949")] in
  let script :=
    [RaceSays (Rows [JObj [("count", JNum 42)]]); RaceSays (Rows [orwell])] in
  exists pages,
    isCeiling pages 42 10
    /\ run scripted (listBooks stackOf request) script
       = ([RaceAll "SELECT COUNT(*) as count FROM books WHERE 1=1 AND genre = ? AND year = ?"
                   [JStr "Fiction"; JNum 1949];
           RaceAll "SELECT * FROM books WHERE 1=1 AND genre = ? AND year = ? ORDER BY id ASC LIMIT ? OFFSET ?"
                   [JStr "Fiction"; JNum 1949; JNum 10; JNum 20]],
          Returned
            (createResponse
               (JObj [("data", JArr [orwell]);
                      ("pagination",
                        JObj [("total", JNum 42); ("page", JNum 3);
                              ("limit", JNum 10); ("pages", JNum pages)])])
               200 shortCache),
          []).
Proof.
  intros request script.
  destruct (list_books_pagination stackOf (list Canned) scripted script request
              42 [orwell] eq_refl eq_refl eq_refl eq_refl eq_refl eq_refl)
    as (_ & _ & _ & _ & _ & _ & _ & _ & _ & _ & _ & _ & _ & H & _).
  exact H.
Defined.

(** C1, as stated, fails on a page that is not a positive integer but
    starts as one: "12abc" is read as 12, not as the default 1, and the
    offset bound for a limit of 5 is 55, not 0. *)
Lemma page_with_trailing_text_is_read :
  let request := getRequest "/api/books" [("page", "12abc"); ("limit", "5")] in
  let script := [RaceSays (Rows [JObj [("count", JNum 100)]]); RaceSays (Rows [])] in
  isPositiveInteger "12abc" = false
  /\ pageOf (searchParams request) = 12
  /\ pageOf (searchParams request) <> 1
  /\ filter isStoreCall
       (fst (fst (run scripted (fetch theYear stackOf request noLimiter) script)))
     = [RaceAll "SELECT COUNT(*) as count FROM books WHERE 1=1" [];
        RaceAll "SELECT * FROM books WHERE 1=1 ORDER BY id ASC LIMIT ? OFFSET ?"
                [JNum 5; JNum 55]].
Proof.
  intros request script. repeat split; try (vm_compute; reflexivity).
  vm_compute. discriminate.
Qed.


(** An update with an unknown key goes through without it. *)
Lemma update_allow_list_witness :
  let payload := [("bogus", JNum 3); ("genre", JStr "Classic Literature");
                  ("title", JStr " Nineteen Eighty-Four ")] in
  let request := bodyRequest "PUT" "/api/books/1" (JObj payload) in
  exists t o w',
    run scripted (updateBook theYear stackOf request "r-1" orwell 1) []
    = (StmtRun "UPDATE books SET genre = ?, title = ? WHERE id = ?"
               [JStr "Classic Literature"; JStr "Nineteen Eighty-Four"; JNum 1] :: t, o, w').
Proof.
  intros payload request.
  destruct (update_allow_list theYear stackOf (list Canned) scripted [] request "r-1"
              orwell 1 payload eq_refl)
    as (_ & _ & H).
  exact (H ltac:(discriminate) eq_refl).
Defined.

(** An update of three columns binds three values and then the id. *)
Lemma update_values_bound_witness :
  let payload := [("title", JStr "  Animal Farm "); ("description", JStr "");
                  ("year", JNum 1945)] in
  let request := bodyRequest "PUT" "/api/books/1" (JObj payload) in
  exists values t o w',
    run scripted (updateBook theYear stackOf request "r-1" orwell 1) []
    = (StmtRun "UPDATE books SET title = ?, description = ?, year = ? WHERE id = ?" values
         :: t, o, w')
    /\ last values JUndefined = JNum 1.
Proof.
  intros payload request.
  destruct (update_values_bound theYear stackOf (list Canned) scripted [] request "r-1"
              orwell 1 payload eq_refl ltac:(discriminate) eq_refl)
    as (values & t & o & w' & Hrun & _ & Hlast & _).
  exists values, t, o, w'. split; [exact Hrun|exact Hlast].
Defined.

(** DELETE of a book that is not there: 404 after the one lookup. *)
Lemma missing_book_not_found_witness :
  let request := bodyRequest "DELETE" "/api/books/7" JNull in
  exists trace w',
    run scripted (fetch theYear stackOf request noLimiter) []
    = (trace, Returned (createResponse (errorBody "Book not found") 404 []), w')
    /\ filter isStoreCall trace = [RaceAll selectByIdSql [JNum 7]].
Proof.
  intros request.
  destruct (missing_book_not_found theYear stackOf (list Canned) scripted [] request
              noLimiter "7" 7 [] [] []
              ltac:(discriminate) eq_refl eq_refl eq_refl eq_refl eq_refl eq_refl
              eq_refl eq_refl)
    as (_ & Hrun & Hstore).
  eexists. eexists. split; [exact Hrun|exact Hstore].
Defined.

(** GET of the book 0: 400 with no lookup. *)
Lemma invalid_book_id_rejected_witness :
  let request := getRequest "/api/books/0" [] in
  exists trace w',
    run scripted (fetch theYear stackOf request withLimiter) [LimiterSays (inr true)]
    = (trace, Returned (createResponse (errorBody "Invalid book ID") 400 []), w')
    /\ filter isStoreCall trace = [].
Proof.
  intros request.
  destruct (invalid_book_id_rejected theYear stackOf (list Canned) scripted
              [LimiterSays (inr true)] request withLimiter "0" [Limit ""] []
              ltac:(discriminate) eq_refl eq_refl eq_refl eq_refl
              (or_intror (ex_intro _ 0 (conj eq_refl (Z.le_refl 0)))))
    as (_ & _ & Hrun & Hstore & _).
  eexists. eexists. split; [exact Hrun|exact Hstore].
Defined.

(** A POST that declares 2000000 bytes: 413, the limiter not asked. *)
Lemma oversized_request_rejected_witness :
  let request :=
    mkRequest "POST" "https://books.example/api/books" "/api/books" []
              [("content-length", "2000000")] (inr JNull) in
  exists trace w',
    run scripted (fetch theYear stackOf request withLimiter) []
    = (trace,
       Returned (createResponse (errorBody "Request body too large (max 1MB)") 413 []),
       w')
    /\ filter (fun a => isLimiterCall a || isStoreCall a) trace = [].
Proof.
  intros request.
  destruct (oversized_request_rejected theYear stackOf (list Canned) scripted [] request
              withLimiter "2000000" 2000000 ltac:(discriminate) eq_refl eq_refl
              eq_refl)
    as (Hrun & Hquiet & _).
  eexists. eexists. split; [exact Hrun|exact Hquiet].
Defined.



(** A denial of the limiter throws the RateLimitError. *)
Lemma rate_limit_gate_witness :
  let request := getRequest "/api/books" [] in
  run scripted (checkRateLimit stackOf withLimiter request) [LimiterSays (inr false)]
  = ([Limit ""],
     Threw (newError stackOf RateLimitError "Rate limit exceeded. Please try again later."),
     []).
Proof.
  intros request.
  destruct (rate_limit_gate stackOf (list Canned) scripted [LimiterSays (inr false)]
              withLimiter request)
    as (_ & Hdenied & _).
  exact (proj1 (Hdenied eq_refl eq_refl)).
Defined.

(** C2, as stated, fails on a text of white space only: it is not empty,
    validation lets it through as a genre, and the UPDATE binds it as it
    is, not trimmed. *)
Lemma update_binds_blank_text_as_is :
  let request := bodyRequest "PUT" "/api/books/1" (JObj [("genre", JStr "   ")]) in
  filter isStoreCall
    (fst (fst (run scripted (fetch theYear stackOf request noLimiter)
                 [RaceSays (Rows [orwell])])))
  = [RaceAll selectByIdSql [JNum 1];
     StmtRun "UPDATE books SET genre = ? WHERE id = ?" [JStr "   "; JNum 1];
     RaceAll selectByIdSql [JNum 1]]
  /\ "   " <> ""
  /\ JStr "   " <> JStr (Str.trim "   ").
Proof.
  intros request. split; [vm_compute; reflexivity|].
  split; [discriminate|]. vm_compute. discriminate.
Qed.

(** C6, as stated, fails on the id 0: the path is on the single-record
    route and no record has that id, yet the answer is 400 and the
    record is never looked up. *)
Lemma book_zero_is_invalid_not_missing :
  let request := getRequest "/api/books/0" [] in
  let '(trace, outcome, _) := run scripted (fetch theYear stackOf request noLimiter) [] in
  matchSingleBook (pathname request) = Some "0"
  /\ outcome = Returned (createResponse (errorBody "Invalid book ID") 400 [])
  /\ outcome <> Returned (createResponse (errorBody "Book not found") 404 [])
  /\ filter isStoreCall trace = [].
Proof.
  vm_compute. repeat split; discriminate.
Qed.

(** C3 at the failing inputs.  The year 0 is valid and given, and the
    INSERT binds [null] for it; a genre of white space only is valid and
    empty once trimmed, and the INSERT binds the empty string for it. *)
Theorem insert_binds_zero_year_as_null :
  let book := JObj [("title", JStr "T"); ("author", JStr "A"); ("year", JNum 0)] in
  let blank := JObj [("title", JStr "T"); ("author", JStr "A"); ("genre", JStr "   ")] in
  validateBook theYear stackOf book false = Ret tt
  /\ Js.prop book "year" = JNum 0
  /\ filter isStoreCall
       (fst (fst (run scripted
                    (fetch theYear stackOf (bodyRequest "POST" "/api/books" book) noLimiter)
                    [])))
     = [StmtRun insertSql [JStr "T"; JStr "A"; JNull; JNull; JNull; JNull];
        RaceAll selectByIdSql [JNum 1]]
  /\ validateBook theYear stackOf blank false = Ret tt
  /\ Str.trim "   " = ""
  /\ insertBindings stackOf blank
     = Ret [JStr "T"; JStr "A"; JNull; JNull; JStr ""; JNull].
Proof.
  intros book blank. repeat split; vm_compute; reflexivity.
Qed.

(** * More of the worker *)

(** ** Programs, whatever the environment answers *)

Lemma Rets_bind {A B : Type} (Q : B -> Prop) (p : Prog A) (f : A -> Prog B) :
  (forall a, Rets Q (f a)) -> Rets Q (bind p f).
Proof. intros Hf. induction p as [a | e | a k IH]; simpl; auto. Qed.

Lemma Rets_tryCatch {A : Type} (Q : A -> Prop) (p : Prog A) (c : JsError -> Prog A) :
  Rets Q p -> (forall e, Rets Q (c e)) -> Rets Q (tryCatch p c).
Proof. intros Hp Hc. induction p as [a | e | a k IH]; simpl in *; auto. Qed.

Lemma Rets_tryFinally {A : Type} (Q : A -> Prop) (p : Prog A) (f : Prog unit) :
  Rets Q p -> Rets Q (tryFinally p f).
Proof.
  intros Hp. induction p as [a | e | a k IH]; simpl in *; auto.
  - apply Rets_bind. intros _. exact Hp.
  - apply Rets_bind. intros _. exact I.
Qed.

Lemma Throws_bind {A B : Type} (Q : JsError -> Prop) (p : Prog A) (f : A -> Prog B) :
  Throws Q p -> (forall a, Throws Q (f a)) -> Throws Q (bind p f).
Proof. intros Hp Hf. induction p as [a | e | a k IH]; simpl in *; auto. Qed.

Lemma Throws_tryCatch {A : Type} (Q : JsError -> Prop) (p : Prog A) (c : JsError -> Prog A) :
  (forall e, Throws Q (c e)) -> Throws Q (tryCatch p c).
Proof. intros Hc. induction p as [a | e | a k IH]; simpl; auto. Qed.

Lemma Throws_tryFinally {A : Type} (Q : JsError -> Prop) (p : Prog A) (f : Prog unit) :
  Throws Q p -> Throws Q f -> Throws Q (tryFinally p f).
Proof.
  intros Hp Hf. induction p as [a | e | a k IH]; simpl in *; auto.
  - apply Throws_bind; [exact Hf|]. intros _. exact I.
  - apply Throws_bind; [exact Hf|]. intros _. exact Hp.
Qed.

Lemma Calls_bind {A B : Type} (P : Action -> Prop) (p : Prog A) (f : A -> Prog B) :
  Calls P p -> (forall a, Calls P (f a)) -> Calls P (bind p f).
Proof.
  intros Hp Hf. induction p as [a | e | a k IH]; simpl in *; auto.
  destruct Hp as [Ha Hk]. split; auto.
Qed.

Lemma Calls_tryCatch {A : Type} (P : Action -> Prop) (p : Prog A) (c : JsError -> Prog A) :
  Calls P p -> (forall e, Calls P (c e)) -> Calls P (tryCatch p c).
Proof.
  intros Hp Hc. induction p as [a | e | a k IH]; simpl in *; auto.
  destruct Hp as [Ha Hk]. split; auto.
Qed.

Lemma Calls_tryFinally {A : Type} (P : Action -> Prop) (p : Prog A) (f : Prog unit) :
  Calls P p -> Calls P f -> Calls P (tryFinally p f).
Proof.
  intros Hp Hf. induction p as [a | e | a k IH]; simpl in *.
  - apply Calls_bind; [exact Hf|]. intros _. exact I.
  - apply Calls_bind; [exact Hf|]. intros _. exact I.
  - destruct Hp as [Ha Hk]. split; auto.
Qed.

Lemma Calls_weaken {A : Type} (P P' : Action -> Prop) (p : Prog A) :
  (forall a, P a -> P' a) -> Calls P p -> Calls P' p.
Proof.
  intros Hw. induction p as [a | e | a k IH]; simpl; auto.
  intros [Ha Hk]. split; auto.
Qed.

Lemma Calls_quiet {A : Type} (P : Action -> Prop) (p : Prog A) :
  Quiet p -> Calls P p.
Proof. apply Calls_weaken. intros a []. Qed.

Lemma run_Rets {W A : Type} (Q : A -> Prop) (h : Handler W) (p : Prog A) (w : W) :
  Rets Q p ->
  match snd (fst (run h p w)) with
  | Returned a => Q a
  | Threw _ => True
  end.
Proof.
  revert w. induction p as [a | e | a k IH]; intros w Hp; simpl in *; auto.
  destruct (h a w) as [r w1]. specialize (IH r w1 (Hp r)).
  destruct (run h (k r) w1) as [[t o] w2]. exact IH.
Qed.

Lemma run_Throws {W A : Type} (Q : JsError -> Prop) (h : Handler W) (p : Prog A) (w : W) :
  Throws Q p ->
  match snd (fst (run h p w)) with
  | Returned _ => True
  | Threw e => Q e
  end.
Proof.
  revert w. induction p as [a | e | a k IH]; intros w Hp; simpl in *; auto.
  destruct (h a w) as [r w1]. specialize (IH r w1 (Hp r)).
  destruct (run h (k r) w1) as [[t o] w2]. exact IH.
Qed.

Lemma run_Calls {W A : Type} (P : Action -> Prop) (h : Handler W) (p : Prog A) (w : W) :
  Calls P p -> Forall P (fst (fst (run h p w))).
Proof.
  revert w. induction p as [a | e | a k IH]; intros w Hp; simpl in *; auto.
  destruct Hp as [Ha Hk]. destruct (h a w) as [r w1]. specialize (IH r w1 (Hk r)).
  destruct (run h (k r) w1) as [[t o] w2]. simpl in *. constructor; assumption.
Qed.

Ltac destruct_await :=
  match goal with
  | |- Quiet (Worker.await ?r) => destruct r; exact I
  end.

(** One step through a program: binds, handlers, branches, leaves. *)
Ltac walk_step :=
  match goal with
  | |- True => exact I
  | |- Calls _ (bind _ _) => apply Calls_bind; [|intros]
  | |- Calls _ (tryCatch _ _) => apply Calls_tryCatch; [|intros]
  | |- Calls _ (tryFinally _ _) => apply Calls_tryFinally
  | |- Rets _ (bind _ _) => apply Rets_bind; intros
  | |- Rets _ (tryCatch _ _) => apply Rets_tryCatch; [|intros]
  | |- Rets _ (tryFinally _ _) => apply Rets_tryFinally
  | |- Throws _ (bind _ _) => apply Throws_bind; [|intros]
  | |- Throws _ (tryFinally _ _) => apply Throws_tryFinally
  | |- ?G (if ?b then _ else _) => destruct b
  | |- ?G (match ?x with _ => _ end) => destruct x
  | |- Calls _ (Worker.throw _ _ _) => exact I
  | |- Rets _ (Worker.throw _ _ _) => exact I
  | |- Calls _ (Worker.await _) => apply Calls_quiet; destruct_await
  | |- Rets _ (Worker.executeQuery _ _ _) => unfold Worker.executeQuery
  | |- Calls _ (Worker.executeQuery _ _ _) => unfold Worker.executeQuery
  | |- Calls _ (Worker.log _ _ _) => unfold Worker.log
  | |- Rets _ (Worker.log _ _ _) => unfold Worker.log
  | |- Calls _ (call _) => unfold call
  | |- Rets _ (call _) => unfold call
  | |- Calls _ (Ret _) => exact I
  | |- Calls _ (Throw _) => exact I
  | |- Rets _ (Throw _) => exact I
  | |- Throws _ (Ret _) => exact I
  | |- Calls _ (Call _ _) => simpl; split; [|intros]
  | |- Rets _ (Call _ _) => simpl; intros
  | |- Throws _ (Call _ _) => simpl; intros
  end.

Section Coverage.

Variable currentYear : Z.
Variable captureStack : ErrorClass -> string -> string.

Local Notation newError := (Worker.newError captureStack).
Local Notation throw := (Worker.throw captureStack).
Local Notation getProp := (Worker.getProp captureStack).
Local Notation callTrim := (Worker.callTrim captureStack).
Local Notation Object_keys := (Worker.Object_keys captureStack).
Local Notation checkYear := (Worker.checkYear currentYear captureStack).
Local Notation checkText := (Worker.checkText captureStack).
Local Notation validateBook := (Worker.validateBook currentYear captureStack).
Local Notation validateContentType := (Worker.validateContentType captureStack).
Local Notation executeQuery := (Worker.executeQuery captureStack).
Local Notation checkRateLimit := (Worker.checkRateLimit captureStack).
Local Notation searchBooks := (Worker.searchBooks captureStack).
Local Notation listBooks := (Worker.listBooks captureStack).
Local Notation insertBindings := (Worker.insertBindings captureStack).
Local Notation createBook := (Worker.createBook currentYear captureStack).
Local Notation updateBook := (Worker.updateBook currentYear captureStack).
Local Notation deleteBook := (Worker.deleteBook captureStack).
Local Notation booksCollection := (Worker.booksCollection currentYear captureStack).
Local Notation singleBook := (Worker.singleBook currentYear captureStack).
Local Notation stats := (Worker.stats captureStack).
Local Notation health := (Worker.health).
Local Notation dispatch := (Worker.dispatch currentYear captureStack).
Local Notation fetch := (Worker.fetch currentYear captureStack).

(** *** The helpers that call nothing *)

Lemma getProp_quiet (o : JsValue) (k : string) : Quiet (getProp o k).
Proof. destruct o; exact I. Qed.

Lemma callTrim_quiet (v : JsValue) : Quiet (callTrim v).
Proof. destruct v; exact I. Qed.

Lemma await_quiet {A : Type} (r : Fault + A) : Quiet (await r).
Proof. destruct r; exact I. Qed.

Lemma Object_keys_quiet (o : JsValue) : Quiet (Object_keys o).
Proof. destruct o; exact I. Qed.

Lemma validateBook_quiet (book : JsValue) (isUpdate : bool) :
  Quiet (validateBook book isUpdate).
Proof.
  unfold Quiet, Worker.validateBook, Worker.checkRequired, Worker.checkText,
    Worker.checkYear, Worker.checkIsbn, Worker.checkOptionalText, Worker.missingFields.
  repeat first [apply getProp_quiet | walk_step].
Qed.

Lemma insertBindings_quiet (book : JsValue) : Quiet (insertBindings book).
Proof.
  unfold Quiet, Worker.insertBindings, Worker.trimOrNull.
  repeat first [apply getProp_quiet | apply callTrim_quiet | walk_step].
Qed.

Lemma validateContentType_quiet (request : Request) : Quiet (validateContentType request).
Proof.
  unfold Quiet, Worker.validateContentType. repeat walk_step.
Qed.

(** *** The calls of each branch *)

Lemma Calls_bind_rets {A B : Type} (P : Action -> Prop) (Q : A -> Prop)
  (p : Prog A) (f : A -> Prog B) :
  Calls P p -> Rets Q p -> (forall a, Q a -> Calls P (f a)) -> Calls P (bind p f).
Proof.
  intros Hp Hq Hf. induction p as [a | e | a k IH]; simpl in *; auto.
  destruct Hp as [Ha Hk]. split; auto.
Qed.

Lemma insertBindings_six (book : JsValue) :
  Rets (fun binds => List.length binds = 6%nat) (insertBindings book).
Proof.
  unfold Worker.insertBindings. repeat walk_step. reflexivity.
Qed.

Lemma updateFieldsOf_allowed (keys : list string) (key : string) :
  In key (updateFieldsOf keys) -> In key ALLOWED_UPDATE_FIELDS.
Proof.
  unfold updateFieldsOf. intros H. apply filter_In in H. destruct H as [_ H].
  unfold Str.mem in H. apply existsb_exists in H. destruct H as (x & Hx & He).
  apply String.eqb_eq in He. subst x. exact Hx.
Qed.

Lemma checkRateLimit_asks (env : Env) (request : Request) :
  Calls Asked (checkRateLimit env request).
Proof.
  unfold Worker.checkRateLimit.
  repeat first [apply Asked_limit | apply Asked_log; simpl; tauto | walk_step].
Qed.

Lemma searchBooks_asks (request : Request) : Calls Asked (searchBooks request).
Proof.
  unfold Worker.searchBooks. repeat first [apply Asked_search | walk_step].
Qed.

Lemma listBooks_asks (request : Request) : Calls Asked (listBooks request).
Proof.
  unfold Worker.listBooks.
  repeat first [apply Asked_count | apply Asked_data | walk_step].
Qed.

Lemma createBook_asks (request : Request) (requestId : string) :
  Calls Asked (createBook request requestId).
Proof.
  unfold Worker.createBook.
  apply Calls_bind; [apply Calls_quiet, await_quiet|]. intros book.
  apply Calls_bind; [apply Calls_quiet, validateBook_quiet|]. intros _.
  apply (Calls_bind_rets Asked (fun binds => List.length binds = 6%nat));
    [apply Calls_quiet, insertBindings_quiet | apply insertBindings_six |].
  intros binds Hsix.
  repeat first [apply Asked_insert; exact Hsix | apply Asked_byId
               | apply Asked_log; simpl; tauto | walk_step].
Qed.

Lemma updateBook_asks (request : Request) (requestId : string) (book : JsValue) (id : Z) :
  Calls Asked (updateBook request requestId book id).
Proof.
  unfold Worker.updateBook.
  apply Calls_bind; [apply Calls_quiet, await_quiet|]. intros updates.
  apply Calls_bind; [apply Calls_quiet, Object_keys_quiet|]. intros keys.
  destruct (Nat.eqb (List.length (updateFieldsOf keys)) 0); [exact I|].
  apply Calls_bind; [apply Calls_quiet, validateBook_quiet|]. intros _.
  unfold updateValues.
  repeat first [ apply Asked_update;
                 [intros key; apply updateFieldsOf_allowed | apply length_map]
               | apply Asked_byId | apply Asked_log; simpl; tauto | walk_step].
Qed.

Lemma deleteBook_asks (requestId : string) (id : Z) : Calls Asked (deleteBook requestId id).
Proof.
  unfold Worker.deleteBook.
  repeat first [apply Asked_delete | apply Asked_log; simpl; tauto | walk_step].
Qed.

Lemma singleBook_asks (request : Request) (requestId segment : string) :
  Calls Asked (singleBook request requestId segment).
Proof.
  unfold Worker.singleBook.
  repeat first [ apply updateBook_asks | apply deleteBook_asks | apply Asked_byId
               | walk_step].
Qed.

Lemma stats_asks : Calls Asked stats.
Proof.
  unfold Worker.stats.
  repeat first [ apply Asked_total | apply Asked_genres | apply Asked_years
               | apply Calls_quiet, getProp_quiet | walk_step].
Qed.

Lemma health_asks : Calls Asked health.
Proof.
  unfold Worker.health. repeat first [apply Asked_health | walk_step].
Qed.

Lemma dispatch_asks (env : Env) (request : Request) (requestId : string) :
  Calls Asked (dispatch env request requestId).
Proof.
  unfold Worker.dispatch, Worker.booksCollection.
  apply Calls_bind; [apply checkRateLimit_asks|]. intros _.
  apply Calls_bind; [apply Calls_quiet, validateContentType_quiet|]. intros _.
  repeat first [ apply searchBooks_asks | apply listBooks_asks | apply createBook_asks
               | apply singleBook_asks | apply stats_asks | apply health_asks
               | walk_step].
Qed.

Lemma fetch_asks (request : Request) (env : Env) :
  Calls (askedByFetch request) (fetch request env).
Proof.
  unfold Worker.fetch, Worker.onError, askedByFetch.
  apply Calls_bind; [simpl; split; [tauto|intros; exact I]|]. intros requestId.
  apply Calls_bind; [simpl; split; [eauto|intros; exact I]|]. intros _.
  destruct (String.eqb (method request) "OPTIONS"); [exact I|].
  destruct (bodyTooLarge request); [exact I|].
  apply Calls_tryFinally; [|simpl; split; [eauto 6|intros; exact I]].
  apply Calls_tryCatch.
  - apply (Calls_weaken Asked); [tauto|apply dispatch_asks].
  - intros error. apply Calls_bind; [simpl; split; [eauto 6|intros; exact I]|].
    intros _. exact I.
Qed.

(** *** The responses of each branch *)

Lemma wellFormed_success (payload : JsValue) (code : Z) (extra : list (string * string)) :
  In code [200; 201; 204] -> wellFormed (createResponse payload code extra).
Proof.
  intros Hc. unfold wellFormed, createResponse. cbn [headers status body].
  split; [eexists; reflexivity|]. split.
  - simpl in *. intuition.
  - intros Hbig. simpl in Hc. intuition; subst; lia.
Qed.

Lemma wellFormed_error (msg : string) (code : Z) :
  In code [400; 404; 405; 413; 429; 500; 504] ->
  wellFormed (createResponse (errorBody msg) code []).
Proof.
  intros Hc. unfold wellFormed, createResponse. cbn [headers status body].
  split; [eexists; reflexivity|]. split.
  - simpl in *. intuition.
  - intros _. exists msg. reflexivity.
Qed.

Lemma wellFormed_errorResponse (error : JsError) : wellFormed (errorResponse error).
Proof.
  unfold errorResponse, errorStatusMessage.
  destruct (eclass error); simpl;
    try (apply wellFormed_error; simpl; tauto).
  destruct (Str.includes (message error) "timeout");
    [apply wellFormed_error; simpl; tauto|].
  destruct (Str.includes (message error) "JSON"); apply wellFormed_error; simpl; tauto.
Qed.

Ltac shaped :=
  first [ apply wellFormed_success; simpl; tauto
        | apply wellFormed_error; simpl; tauto
        | apply wellFormed_errorResponse ].

Lemma searchBooks_answers (request : Request) : Rets wellFormed (searchBooks request).
Proof. unfold Worker.searchBooks. repeat first [shaped | walk_step]. Qed.

Lemma listBooks_answers (request : Request) : Rets wellFormed (listBooks request).
Proof. unfold Worker.listBooks. repeat first [shaped | walk_step]. Qed.

Lemma createBook_answers (request : Request) (requestId : string) :
  Rets wellFormed (createBook request requestId).
Proof. unfold Worker.createBook. repeat first [shaped | walk_step]. Qed.

Lemma updateBook_answers (request : Request) (requestId : string) (book : JsValue) (id : Z) :
  Rets wellFormed (updateBook request requestId book id).
Proof. unfold Worker.updateBook. repeat first [shaped | walk_step]. Qed.

Lemma deleteBook_answers (requestId : string) (id : Z) :
  Rets wellFormed (deleteBook requestId id).
Proof. unfold Worker.deleteBook. repeat first [shaped | walk_step]. Qed.

Lemma singleBook_answers (request : Request) (requestId segment : string) :
  Rets wellFormed (singleBook request requestId segment).
Proof.
  unfold Worker.singleBook, methodNotAllowed.
  repeat first [apply updateBook_answers | apply deleteBook_answers | shaped | walk_step].
Qed.

Lemma dispatch_answers (env : Env) (request : Request) (requestId : string) :
  Rets wellFormed (dispatch env request requestId).
Proof.
  unfold Worker.dispatch, Worker.booksCollection, Worker.stats, Worker.health,
    methodNotAllowed.
  repeat first [ apply searchBooks_answers | apply listBooks_answers
               | apply createBook_answers | apply singleBook_answers
               | shaped | walk_step].
Qed.

Lemma fetch_answers (request : Request) (env : Env) :
  Rets wellFormed (fetch request env).
Proof.
  unfold Worker.fetch, Worker.onError.
  repeat first [apply dispatch_answers | shaped | walk_step].
Qed.

Lemma fetch_never_throws (request : Request) (env : Env) :
  Throws (fun _ => False) (fetch request env).
Proof.
  unfold Worker.fetch, Worker.onError.
  apply Throws_bind; [simpl; intros; exact I|]. intros requestId.
  apply Throws_bind; [simpl; intros; exact I|]. intros _.
  destruct (String.eqb (method request) "OPTIONS"); [exact I|].
  destruct (bodyTooLarge request); [exact I|].
  apply Throws_tryFinally; [|simpl; intros; exact I].
  apply Throws_tryCatch. intros error.
  apply Throws_bind; [simpl; intros; exact I|]. intros _. exact I.
Qed.

(** X1.  In a run in which every call to a collaborator settles, and
    every failure of a collaborator is an [Error] with a text as message
    (the two assumptions of [Handler] and [Fault]), [fetch] returns a
    response and throws nothing, whatever the request, the bindings and
    the answers are; the response starts with the four CORS headers, its
    status is one of 200, 201, 204, 400, 404, 405, 413, 429, 500 and
    504, and from 400 on its body is [{ error: message }].  (A rejection
    with a value that has no message is outside the statement: reading
    [error.message.includes] in the [catch] block then throws.) *)
Theorem fetch_always_answers
  (W : Type) (h : Handler W) (w : W) (request : Request) (env : Env) :
  exists trace response w',
    run h (fetch request env) w = (trace, Returned response, w')
    /\ wellFormed response.
Proof.
  pose proof (run_Throws (fun _ => False) h (fetch request env) w
                (fetch_never_throws request env)) as Hsafe.
  pose proof (run_Rets wellFormed h (fetch request env) w
                (fetch_answers request env)) as Hshape.
  destruct (run h (fetch request env) w) as [[trace [response | error]] w'];
    simpl in *; [|contradiction].
  exists trace, response, w'. split; [reflexivity|exact Hshape].
Qed.

(** X2.  Every call [fetch] makes, in any run, is one of a fixed
    catalogue: the request id, the start, error and completion records,
    the limiter, four other log records, and eleven statements of the
    store whose text is a constant, one of the list statements, or the
    UPDATE over columns of the allow-list.  No value of the request
    reaches the text of a statement but through that choice of
    columns. *)
Theorem fetch_calls_catalogue
  (W : Type) (h : Handler W) (w : W) (request : Request) (env : Env) :
  Forall (askedByFetch request) (fst (fst (run h (fetch request env) w))).
Proof. apply run_Calls, fetch_asks. Qed.

Lemma placeholders_app (a b : string) :
  placeholders (a ++ b) = (placeholders a + placeholders b)%nat.
Proof.
  induction a as [|c a IH]; simpl; [reflexivity|]. rewrite IH. lia.
Qed.

Lemma placeholders_allowed (key : string) :
  In key ALLOWED_UPDATE_FIELDS -> placeholders key = 0%nat.
Proof.
  simpl. intros [<-|[<-|[<-|[<-|[<-|[<-|[]]]]]]]; reflexivity.
Qed.

Lemma placeholders_setClause (fields : list string) :
  (forall key, In key fields -> In key ALLOWED_UPDATE_FIELDS) ->
  placeholders (setClauseOf fields) = List.length fields.
Proof.
  unfold setClauseOf. induction fields as [|key rest IH]; intros Hall; [reflexivity|].
  assert (Hkey : placeholders (key ++ " = ?") = 1%nat).
  { rewrite placeholders_app, (placeholders_allowed key) by (apply Hall; left; reflexivity).
    reflexivity. }
  destruct rest as [|key' rest'].
  - simpl. exact Hkey.
  - change (placeholders ((key ++ " = ?") ++ ", "
              ++ String.concat ", " (map (fun k => k ++ " = ?") (key' :: rest')))
            = S (List.length (key' :: rest'))).
    rewrite (placeholders_app (key ++ " = ?")), Hkey, (placeholders_app ", ").
    rewrite IH by (intros k Hk; apply Hall; right; exact Hk).
    reflexivity.
Qed.

Lemma Asked_bindingsMatch (a : Action) : Asked a -> bindingsMatch a.
Proof.
  intros Ha. destruct Ha; simpl; try reflexivity.
  - unfold listQueries. destruct (Js.truthy genre), (Js.truthy year); reflexivity.
  - unfold listQueries. destruct (Js.truthy genre), (Js.truthy year); reflexivity.
  - symmetry. assumption.
  - rewrite !placeholders_app, placeholders_setClause by assumption.
    rewrite length_app. simpl. lia.
Qed.

(** X3.  In any run of [fetch], every statement sent to the store has
    exactly as many [?] as it has bound values. *)
Theorem fetch_bindings_match
  (W : Type) (h : Handler W) (w : W) (request : Request) (env : Env) :
  Forall bindingsMatch (fst (fst (run h (fetch request env) w))).
Proof.
  eapply Forall_impl; [|apply run_Calls, fetch_asks].
  intros a [-> | [[rid ->] | [[rid [e ->]] | [[rid ->] | Ha]]]]; try exact I.
  apply Asked_bindingsMatch. exact Ha.
Qed.

Lemma Asked_not_completion (a : Action) : Asked a -> isCompletion a = false.
Proof.
  intros Ha. destruct Ha; try reflexivity.
  simpl in H. simpl. destruct H as [<-|[<-|[<-|[<-|[]]]]]; reflexivity.
Qed.

Lemma no_completion_in (t : list Action) :
  Forall Asked t -> filter isCompletion t = [].
Proof.
  induction 1 as [|a t Ha _ IH]; [reflexivity|].
  simpl. rewrite (Asked_not_completion a Ha). exact IH.
Qed.

(** X4.  A request that is not OPTIONS and passes the size gate logs the
    completion record exactly once, as its last call, whether the [try]
    block returns or throws; an OPTIONS request and a request that is
    too large return before the [try] and log none. *)
Theorem completion_logged_once
  (W : Type) (h : Handler W) (w : W) (request : Request) (env : Env) :
  let requestId := reply h RandomUUID w in
  let trace := fst (fst (run h (fetch request env) w)) in
  (method request <> "OPTIONS" -> bodyTooLarge request = false ->
   (exists before, trace = (before ++ [completed requestId])%list)
   /\ filter isCompletion trace = [completed requestId])
  /\ (method request = "OPTIONS" \/ bodyTooLarge request = true ->
      filter isCompletion trace = []).
Proof.
  intros requestId trace. split.
  - intros Hm Hsize. unfold trace.
    rewrite (run_fetch currentYear captureStack W h w request env Hm Hsize).
    fold requestId.
    pose proof (run_Calls Asked h (dispatch env request requestId)
                  (after h (started request requestId) (after h RandomUUID w))
                  (dispatch_asks env request requestId)) as Hasked.
    destruct (run h (dispatch env request requestId)
                (after h (started request requestId) (after h RandomUUID w)))
      as [[t [response | error]] w2]; cbn [fst snd] in *.
    + split.
      * exists ([RandomUUID; started request requestId] ++ t)%list.
        rewrite <- app_assoc. reflexivity.
      * rewrite !filter_app, (no_completion_in t Hasked). reflexivity.
    + split.
      * exists ([RandomUUID; started request requestId] ++ t
                 ++ [failed request requestId error])%list.
        rewrite <- !app_assoc. reflexivity.
      * rewrite !filter_app, (no_completion_in t Hasked). reflexivity.
  - intros Hearly. unfold trace, Worker.fetch.
    rewrite run_bind, run_call. rewrite run_bind, run_call.
    destruct (String.eqb_spec (method request) "OPTIONS") as [E|N]; [reflexivity|].
    destruct Hearly as [E|Hbig]; [contradiction|]. rewrite Hbig. reflexivity.
Qed.

(** *** The gates *)

(** X5.  An OPTIONS request is answered 204 with no body after the
    request id and the start record, before any gate: also when it
    declares a body that is too large, and with no call to the limiter
    or the store. *)
Theorem options_preflight
  (W : Type) (h : Handler W) (w : W) (request : Request) (env : Env) :
  method request = "OPTIONS" ->
  let requestId := reply h RandomUUID w in
  run h (fetch request env) w
  = ([RandomUUID; started request requestId],
     Returned (createResponse JNull 204 []),
     after h (started request requestId) (after h RandomUUID w))
  /\ body (createResponse JNull 204 []) = None.
Proof.
  intros Hm requestId. split; [|reflexivity].
  unfold Worker.fetch. rewrite run_bind, run_call. fold requestId.
  rewrite run_bind, run_call. rewrite Hm. reflexivity.
Qed.

(** X6.  When the limiter denies a request that passed the size gate,
    [fetch] answers 429 'Rate limit exceeded. Please try again later.'
    after asking the limiter once: the content type is not examined, the
    route is not matched and the store is not called. *)
Theorem rate_limited_request_stops
  (W : Type) (h : Handler W) (w : W) (request : Request) (env : Env) :
  let requestId := reply h RandomUUID w in
  let w1 := after h (started request requestId) (after h RandomUUID w) in
  let asking := Limit (clientIp request) in
  let denied := newError RateLimitError "Rate limit exceeded. Please try again later." in
  let trace := [RandomUUID; started request requestId; asking;
                failed request requestId denied; completed requestId] in
  method request <> "OPTIONS" ->
  bodyTooLarge request = false ->
  MY_RATE_LIMITER env = true ->
  reply h asking w1 = inr false ->
  run h (fetch request env) w
  = (trace,
     Returned (createResponse
                 (errorBody "Rate limit exceeded. Please try again later.") 429 []),
     after h (completed requestId)
       (after h (failed request requestId denied) (after h asking w1)))
  /\ filter isStoreCall trace = [].
Proof.
  intros requestId w1 asking denied trace Hm Hsize Hbound Hdeny.
  split; [|reflexivity].
  rewrite (run_fetch currentYear captureStack W h w request env Hm Hsize).
  fold requestId. fold w1.
  unfold Worker.dispatch, Worker.checkRateLimit. rewrite Hbound.
  cbn [negb]. rewrite run_bind, run_tryCatch, run_bind, run_call.
  fold asking. rewrite Hdeny. reflexivity.
Qed.

Lemma validateContentType_cases (request : Request) :
  validateContentType request
  = if Str.mem (method request) ["POST"; "PUT"]
       && negb (match getParam "content-type" (requestHeaders request) with
                | JStr contentType => Str.includes contentType "application/json"
                | _ => false
                end)
    then throw ValidationError "Content-Type must be application/json"
    else Ret tt.
Proof.
  unfold Worker.validateContentType.
  destruct (Str.mem (method request) ["POST"; "PUT"]); [|reflexivity].
  destruct (getParam "content-type" (requestHeaders request)) as [| | | | |ct| |];
    try reflexivity.
  destruct (String.eqb_spec ct "") as [->|N]; [reflexivity|].
  simpl. destruct (Str.includes ct "application/json"); reflexivity.
Qed.

(** X7.  The content type gate lets every request through that is not a
    POST or a PUT, and a POST or PUT exactly when its content-type
    header holds 'application/json' somewhere.  A POST or PUT without it
    that passed the size and rate limit gates is answered 400
    'Content-Type must be application/json'; its body is not read and
    the store is not called. *)
Theorem content_type_gate
  (W : Type) (h : Handler W) (w : W) (request : Request) (env : Env)
  (tg : list Action) (w2 : W) :
  let requestId := reply h RandomUUID w in
  let w1 := after h (started request requestId) (after h RandomUUID w) in
  let declared :=
    match getParam "content-type" (requestHeaders request) with
    | JStr contentType => Str.includes contentType "application/json"
    | _ => false
    end in
  let refused := newError ValidationError "Content-Type must be application/json" in
  let trace :=
    ([RandomUUID; started request requestId] ++ tg
       ++ [failed request requestId refused; completed requestId])%list in
  method request <> "OPTIONS" ->
  bodyTooLarge request = false ->
  run h (checkRateLimit env request) w1 = (tg, Returned tt, w2) ->
  (Str.mem (method request) ["POST"; "PUT"] = false -> validateContentType request = Ret tt)
  /\ (Str.mem (method request) ["POST"; "PUT"] = true ->
      (validateContentType request = Ret tt <-> declared = true))
  /\ (Str.mem (method request) ["POST"; "PUT"] = true -> declared = false ->
      run h (fetch request env) w
      = (trace,
         Returned (createResponse (errorBody "Content-Type must be application/json") 400 []),
         after h (completed requestId) (after h (failed request requestId refused) w2))
      /\ filter isStoreCall trace = []).
Proof.
  intros requestId w1 declared refused trace Hm Hsize Hgate.
  pose proof (validateContentType_cases request) as Hct. fold declared in Hct.
  split; [|split].
  - intros Hv. rewrite Hct, Hv. reflexivity.
  - intros Hv. rewrite Hct, Hv. simpl. destruct declared; simpl.
    + split; reflexivity.
    + split; [discriminate|discriminate].
  - intros Hv Hd. split.
    + rewrite (run_fetch currentYear captureStack W h w request env Hm Hsize).
      fold requestId. fold w1.
      unfold Worker.dispatch. rewrite run_bind, Hgate.
      rewrite Hct, Hv, Hd. simpl. rewrite app_nil_r. reflexivity.
    + unfold trace. rewrite !filter_app.
      rewrite (gate_trace_no_store captureStack W h w1 env request tg _ w2 Hgate).
      reflexivity.
Qed.

(** X8.  The limiter changes the answer only by denying.  When it lets
    the request through, or when the call to it fails, the [try] block
    runs on as it does with no limiter bound: the same calls follow and
    the same response or error comes out.  A failure of the limiter adds
    one 'Rate limiter error:' record and nothing else. *)
Theorem limiter_fails_open
  (W : Type) (h : Handler W) (w : W) (request : Request) (env : Env)
  (requestId : string) :
  MY_RATE_LIMITER env = true ->
  let asking := Limit (clientIp request) in
  let unbound := mkEnv false in
  (reply h asking w = inr true ->
   run h (dispatch env request requestId) w
   = let '(t, o, w') := run h (dispatch unbound request requestId) (after h asking w) in
     (asking :: t, o, w'))
  /\ (forall fault, reply h asking w = inl fault ->
      let logged :=
        Console ErrorLevel "Rate limiter error:" [("message", JStr (faultMessage fault))] in
      run h (dispatch env request requestId) w
      = let '(t, o, w') :=
          run h (dispatch unbound request requestId) (after h logged (after h asking w)) in
        (asking :: logged :: t, o, w')).
Proof.
  intros Hbound asking unbound.
  assert (Hfree : forall w0,
            run h (dispatch unbound request requestId) w0
            = run h (validateContentType request ;;
                     if String.eqb (pathname request) "/api/books/search"
                     then searchBooks request
                     else if String.eqb (pathname request) "/api/books"
                     then booksCollection request requestId
                     else match matchSingleBook (pathname request) with
                          | Some segment => singleBook request requestId segment
                          | None =>
                              if String.eqb (pathname request) "/api/stats" then stats
                              else if String.eqb (pathname request) "/api/health"
                              then health
                              else Ret (createResponse (errorBody "Not Found") 404 [])
                          end)%prog w0) by reflexivity.
  split.
  - intros Hallowed. rewrite Hfree. unfold Worker.dispatch.
    rewrite run_bind. unfold Worker.checkRateLimit. rewrite Hbound. cbn [negb].
    rewrite run_tryCatch, run_bind, run_call. fold asking. rewrite Hallowed.
    unfold Worker.await. cbn [bind negb run app].
    destruct (run h _ (after h asking w)) as [[t o] w']. reflexivity.
  - intros fault Hfault logged. rewrite Hfree. unfold Worker.dispatch.
    rewrite run_bind. unfold Worker.checkRateLimit. rewrite Hbound. cbn [negb].
    rewrite run_tryCatch, run_bind, run_call. fold asking. rewrite Hfault.
    unfold Worker.await. cbn [bind run ofFault eclass message].
    rewrite run_log. fold logged. cbn [app].
    destruct (run h _ (after h logged (after h asking w))) as [[t o] w']. reflexivity.
Qed.

(** *** Validation and parsing *)

Lemma bind_cases (p q : Prog unit) :
  passesOrRejects captureStack p -> passesOrRejects captureStack q ->
  passesOrRejects captureStack (p ;; q)%prog.
Proof.
  intros [-> | [msg ->]] Hq; [exact Hq|].
  right. exists msg. reflexivity.
Qed.

Lemma validateBook_cases (props : list (string * JsValue)) (isUpdate : bool) :
  passesOrRejects captureStack (validateBook (JObj props) isUpdate).
Proof.
  unfold Worker.validateBook.
  repeat apply bind_cases.
  - apply checkRequired_cases.
  - apply checkText_cases.
  - apply checkText_cases.
  - apply checkYear_cases.
  - apply checkIsbn_cases.
  - apply checkOptionalText_cases.
  - apply checkOptionalText_cases.
Qed.

(** A value that is neither [null] nor [undefined] is validated as the
    record of its own properties. *)
Lemma validateBook_ownProps (book : JsValue) (isUpdate : bool) :
  book <> JNull -> book <> JUndefined ->
  validateBook book isUpdate = validateBook (JObj (Js.ownProps book)) isUpdate.
Proof.
  intros Hnull Hundef. destruct book; try contradiction; reflexivity.
Qed.

Lemma parseIntStr_ofZ_all (n : Z) : Js.parseIntStr (Str.ofZ n) = Some n.
Proof.
  destruct n as [|p|p]; [reflexivity|apply parseIntStr_ofZ; lia|].
  unfold Str.ofZ. simpl Z.to_int. unfold NilZero.string_of_int, NilZero.string_of_uint.
  pose proof (DecimalPos.Unsigned.to_uint_nonnil p) as Hnil.
  assert (Hsign : forall d, d <> Decimal.Nil ->
            Js.parseIntStr (String "-" (NilEmpty.string_of_uint d))
            = match Js.digits 10 None (NilEmpty.string_of_uint d) with
              | Some n => Some (-1 * n)
              | None => None
              end).
  { intros d Hd. destruct d; [contradiction|..]; destruct d; reflexivity. }
  assert (Hread : Js.parseIntStr (String "-" (NilEmpty.string_of_uint (Pos.to_uint p)))
                  = Some (Zneg p)).
  { rewrite (Hsign _ Hnil), (digits_of_uint _ Hnil), DecimalPos.Unsigned.of_to.
    reflexivity. }
  destruct (Pos.to_uint p) eqn:Hd; [contradiction|..]; exact Hread.
Qed.

Lemma ofZ_not_empty (n : Z) : Str.ofZ n <> "".
Proof.
  intros E. pose proof (parseIntStr_ofZ_all n) as H. rewrite E in H. discriminate H.
Qed.

Lemma trimStart_id (s : string) : startsWhite s = false -> Str.trimStart s = s.
Proof.
  destruct s as [|c r]; simpl; [reflexivity|]. intros ->. reflexivity.
Qed.

Lemma allWhite_ends (s : string) :
  Str.allWhite s = true -> s <> "" -> endsWhite s = true.
Proof.
  induction s as [|c r IH]; [intros _ H; contradiction|].
  intros Hall _. simpl in Hall. apply andb_true_iff in Hall. destruct Hall as [Hc Hr].
  destruct r as [|c' r']; [exact Hc|].
  change (endsWhite (String c' r') = true). apply IH; [exact Hr|discriminate].
Qed.

Lemma trimEnd_id (s : string) : endsWhite s = false -> Str.trimEnd s = s.
Proof.
  induction s as [|c r IH]; [reflexivity|].
  intros Hend. cbn [Str.trimEnd].
  destruct (Str.allWhite (String c r)) eqn:Hall.
  - rewrite (allWhite_ends _ Hall) in Hend; [discriminate Hend|discriminate].
  - f_equal. destruct r as [|c' r']; [reflexivity|]. apply IH. exact Hend.
Qed.

Lemma trim_idem (s : string) : Str.trim (Str.trim s) = Str.trim s.
Proof.
  destruct (trim_spec s) as (l & r & _ & _ & _ & Hstart & Hend).
  unfold Str.trim at 1. rewrite (trimStart_id _ Hstart). apply trimEnd_id. exact Hend.
Qed.

(** X9.  The year check reads a year given as a safe integer, or as the
    decimal text of one, as that number, and passes exactly when it lies
    between 0 and the current year plus ten, both ends included; it
    rejects with a message that names that upper end.  A year that is
    absent, [null] or the empty text passes.  (A number that is no safe
    integer is outside the statement: from 1e21 on it is read through
    its exponent form, as its leading digit.) *)
Theorem year_check_range (props : list (string * JsValue)) :
  isSafeInteger (currentYear + 10) = true ->
  let year := Js.prop (JObj props) "year" in
  let outOfRange : Prog unit :=
    throw ValidationError
      ("Year must be a valid number between 0 and " ++ Str.ofZ (currentYear + 10)) in
  (year = JUndefined \/ year = JNull \/ year = JStr "" -> checkYear (JObj props) = Ret tt)
  /\ (forall n, isSafeInteger n = true ->
      year = JNum n \/ year = JStr (Str.ofZ n) ->
      checkYear (JObj props)
      = if (0 <=? n) && (n <=? currentYear + 10) then Ret tt else outOfRange).
Proof.
  intros _ year outOfRange.
  assert (Hcheck : checkYear (JObj props)
                   = if Worker.notAbsent year then
                       match Js.parseInt year with
                       | Some yearNum =>
                           if (yearNum <? 0) || (currentYear + 10 <? yearNum)
                           then outOfRange else Ret tt
                       | None => outOfRange
                       end
                     else Ret tt) by reflexivity.
  rewrite Hcheck. split.
  - intros [-> | [-> | ->]]; reflexivity.
  - intros n _ Hn.
    assert (Hread : Worker.notAbsent year = true /\ Js.parseInt year = Some n).
    { destruct Hn as [-> | ->].
      - split; [reflexivity|]. apply parseIntStr_ofZ_all.
      - split; [|apply parseIntStr_ofZ_all].
        simpl. destruct (String.eqb_spec (Str.ofZ n) "") as [E|_]; [|reflexivity].
        exfalso. exact (ofZ_not_empty n E). }
    destruct Hread as [-> ->].
    destruct (Z.ltb_spec n 0), (Z.leb_spec 0 n); try lia;
      destruct (Z.ltb_spec (currentYear + 10) n), (Z.leb_spec n (currentYear + 10));
      try lia; reflexivity.
Qed.

(** X10.  A [page] or [limit] parameter that is the decimal text of a
    safe integer [n] is read back as [n]: the page is [n] when [n] is
    positive and 1 otherwise, the limit is the smaller of [n] and 100
    when [n] is positive and 10 otherwise.  (Longer numerals are outside
    the statement: [parseInt] rounds them to the nearest double.) *)
Theorem page_and_limit_of_decimal (params : list (string * string)) (n : Z) :
  isSafeInteger n = true ->
  (getParam "page" params = JStr (Str.ofZ n) ->
   pageOf params = if 0 <? n then n else 1)
  /\ (getParam "limit" params = JStr (Str.ofZ n) ->
      limitOf params = if 0 <? n then Z.min n 100 else 10).
Proof.
  intros _. unfold pageOf, limitOf, safeParseInt.
  split; intros ->;
    change (Js.parseInt (JStr (Str.ofZ n))) with (Js.parseIntStr (Str.ofZ n));
    rewrite parseIntStr_ofZ_all; destruct (0 <? n); reflexivity.
Qed.

(** X11.  The value bound for an updated column is settled: binding the
    bound value again gives the same value, and the value bound is never
    the empty text (an empty text is bound as [null], any other text is
    bound with at least one character). *)
Theorem updateValue_settled (value : JsValue) :
  updateValue (updateValue value) = updateValue value
  /\ updateValue value <> JStr "".
Proof.
  destruct value as [| | | | |s| |]; try (split; [reflexivity|discriminate]).
  assert (Hcase : updateValue (JStr s)
                  = if Nat.ltb 0 (String.length (Str.trim s)) then JStr (Str.trim s)
                    else if String.eqb s "" then JNull else JStr s) by reflexivity.
  destruct (Nat.ltb_spec 0 (String.length (Str.trim s))) as [Hsome|Hnone].
  - rewrite Hcase. split.
    + unfold updateValue. rewrite trim_idem.
      destruct (Nat.ltb_spec 0 (String.length (Str.trim s))); [reflexivity|lia].
    + intros E. injection E as E. rewrite E in Hsome. simpl in Hsome. lia.
  - destruct (String.eqb_spec s "") as [E|N]; rewrite Hcase.
    + split; [reflexivity|discriminate].
    + split.
      * unfold updateValue.
        destruct (Nat.ltb_spec 0 (String.length (Str.trim s))); [lia|].
        destruct (String.eqb_spec s ""); [contradiction|reflexivity].
      * intros E. injection E as E. contradiction.
Qed.

(** X12.  On creation, the fields among [title] and [author] whose value
    is falsy (absent, [null], [false], 0 or the empty text) are reported
    together, in that order, in one ValidationError 'Missing required
    fields: ...', before any other check; on update no field is
    required. *)
Theorem required_fields_reported (props : list (string * JsValue)) :
  let falsy field := negb (Js.truthy (Js.prop (JObj props) field)) in
  let missing := filter falsy ["title"; "author"] in
  (missing <> [] ->
   validateBook (JObj props) false
   = throw ValidationError ("Missing required fields: " ++ String.concat ", " missing))
  /\ Worker.checkRequired captureStack (JObj props) true = Ret tt.
Proof.
  intros falsy missing. split; [|reflexivity].
  unfold missing, falsy, Worker.validateBook, Worker.checkRequired, Worker.missingFields,
    Worker.getProp.
  cbn [negb bind filter].
  destruct (Js.truthy (Js.prop (JObj props) "title")),
           (Js.truthy (Js.prop (JObj props) "author"));
    cbn [negb]; intros Hm; try reflexivity.
  contradiction.
Qed.

(** *** The branches, past the gates *)

Lemma run_dispatch_routes
  (W : Type) (h : Handler W) (w : W) (env : Env) (request : Request)
  (requestId : string) (tg : list Action) (w2 : W) :
  run h (checkRateLimit env request) w = (tg, Returned tt, w2) ->
  validateContentType request = Ret tt ->
  run h (dispatch env request requestId) w =
  let '(t, o, w3) :=
    run h
      (if String.eqb (pathname request) "/api/books/search" then searchBooks request
       else if String.eqb (pathname request) "/api/books"
       then booksCollection request requestId
       else match matchSingleBook (pathname request) with
            | Some segment => singleBook request requestId segment
            | None =>
                if String.eqb (pathname request) "/api/stats" then stats
                else if String.eqb (pathname request) "/api/health" then health
                else Ret (createResponse (errorBody "Not Found") 404 [])
            end) w2 in
  ((tg ++ t)%list, o, w3).
Proof.
  intros Hgate Hct. unfold Worker.dispatch.
  rewrite run_bind, Hgate. rewrite Hct. reflexivity.
Qed.

Lemma validateContentType_other (request : Request) :
  Str.mem (method request) ["POST"; "PUT"] = false ->
  validateContentType request = Ret tt.
Proof.
  intros Hv. rewrite validateContentType_cases, Hv. reflexivity.
Qed.

Lemma run_singleBook_found
  (W : Type) (h : Handler W) (w : W) (request : Request) (requestId segment : string)
  (id : Z) (rows : list JsValue) :
  Js.parseIntStr segment = Some id ->
  0 < id ->
  reply h (RaceAll selectByIdSql [JNum id]) w = Rows rows ->
  Js.truthy (hd JUndefined rows) = true ->
  run h (singleBook request requestId segment) w =
  let '(t, o, w3) :=
    run h
      (if String.eqb (method request) "GET"
       then Ret (createResponse (hd JUndefined rows) 200 longCache)
       else if String.eqb (method request) "PUT"
       then updateBook request requestId (hd JUndefined rows) id
       else if String.eqb (method request) "DELETE" then deleteBook requestId id
       else Ret methodNotAllowed)
      (after h (RaceAll selectByIdSql [JNum id]) w) in
  (RaceAll selectByIdSql [JNum id] :: t, o, w3).
Proof.
  intros Hseg Hpos Hrows Hfound. unfold Worker.singleBook.
  rewrite (safeParseInt_positive (fun n => n) (JStr segment) 0 id Hseg Hpos).
  destruct (Z.eqb_spec id 0) as [E|_]; [lia|].
  rewrite run_bind, run_executeQuery. rewrite Hrows. cbv zeta.
  rewrite Hfound. cbn [negb].
  destruct (run h _ _) as [[t o] w3]. reflexivity.
Qed.

Lemma lookup_In (k : string) (v : JsValue) (props : list (string * JsValue)) :
  Js.lookup k props = Some v -> In k (map fst props).
Proof.
  induction props as [|[k0 v0] r IH]; simpl; [discriminate|].
  destruct (String.eqb_spec k k0) as [E|N]; [left; congruence|].
  intros H. right. exact (IH H).
Qed.

Lemma updateFieldsOf_some (k : string) (keys : list string) :
  Str.mem k ALLOWED_UPDATE_FIELDS = true -> In k keys -> updateFieldsOf keys <> [].
Proof.
  intros Hk Hin Hnil.
  assert (Hf : In k (updateFieldsOf keys)).
  { unfold updateFieldsOf. apply filter_In. split; assumption. }
  rewrite Hnil in Hf. exact Hf.
Qed.

Section PastGates.

Variables (W : Type) (h : Handler W) (w : W) (request : Request) (env : Env).
Variables (tg : list Action) (w2 : W).

Local Notation requestId := (reply h RandomUUID w).
Local Notation w1 := (after h (started request requestId) (after h RandomUUID w)).
Local Notation opening := [RandomUUID; started request requestId].
Local Notation routed :=
  (if String.eqb (pathname request) "/api/books/search" then searchBooks request
   else if String.eqb (pathname request) "/api/books"
   then booksCollection request requestId
   else match matchSingleBook (pathname request) with
        | Some segment => singleBook request requestId segment
        | None =>
            if String.eqb (pathname request) "/api/stats" then stats
            else if String.eqb (pathname request) "/api/health" then health
            else Ret (createResponse (errorBody "Not Found") 404 [])
        end).
Local Notation answer := (fst (run h (fetch request env) w)).
#[warnings="-inconsistent-scopes"]
Local Notation refusal msg :=
  ((opening ++ tg ++ [failed request requestId (newError ValidationError msg);
                      completed requestId])%list,
   Returned (createResponse (errorBody msg) 400 [])).

Hypothesis Hmethod : method request <> "OPTIONS".
Hypothesis Hsize : bodyTooLarge request = false.
Hypothesis Hgate : run h (checkRateLimit env request) w1 = (tg, Returned tt, w2).

Lemma fetch_of_route (route : Prog Response) (t : list Action) (w3 : W) :
  validateContentType request = Ret tt ->
  routed = route ->
  (forall response, run h route w2 = (t, Returned response, w3) ->
     answer = ((opening ++ tg ++ t ++ [completed requestId])%list, Returned response))
  /\ (forall error, run h route w2 = (t, Threw error, w3) ->
      answer
      = ((opening ++ tg ++ t ++ [failed request requestId error; completed requestId])%list,
         Returned (errorResponse error))).
Proof.
  intros Hct Hroute.
  pose proof (run_fetch currentYear captureStack W h w request env Hmethod Hsize) as Hf.
  cbv zeta in Hf.
  rewrite (run_dispatch_routes W h w1 env request requestId tg w2 Hgate Hct) in Hf.
  rewrite Hroute in Hf.
  split; intros x Hr; rewrite Hr in Hf; rewrite Hf; cbn [fst];
    rewrite <- !app_assoc; reflexivity.
Qed.

Lemma single_route (segment : string) :
  matchSingleBook (pathname request) = Some segment ->
  routed = singleBook request requestId segment.
Proof.
  intros Hm. destruct (matchSingleBook_not_collection _ _ Hm) as [-> ->].
  rewrite Hm. reflexivity.
Qed.

(** X13.  The search endpoint, past the gates.  A request without [q], or
    with an empty one, is answered 400 'Search query `?q=` is required'
    and one of more than 200 characters 400 'Search query too long (max
    200 characters)', both without a call to the store; 200 characters
    pass.  Otherwise the one statement is run with the pattern
    [%q%] bound six times, and the answer is 200 with the query, the
    rows found and their number. *)
Theorem search_endpoint :
  pathname request = "/api/books/search" ->
  validateContentType request = Ret tt ->
  let q := getParam "q" (searchParams request) in
  (q = JNull \/ q = JStr "" -> answer = refusal "Search query `?q=` is required")
  /\ (forall query, q = JStr query -> (200 < String.length query)%nat ->
      answer = refusal "Search query too long (max 200 characters)")
  /\ (forall query results,
      q = JStr query -> query <> "" -> (String.length query <= 200)%nat ->
      let term := JStr ("%" ++ query ++ "%") in
      let asked := RaceAll searchSql [term; term; term; term; term; term] in
      reply h asked w2 = Rows results ->
      answer
      = ((opening ++ tg ++ [asked; completed requestId])%list,
         Returned (createResponse
                     (JObj [("query", JStr query);
                            ("results", JArr results);
                            ("count", JNum (Z.of_nat (List.length results)))])
                     200 shortCache))).
Proof.
  intros Hpath Hct q.
  assert (Hroute : routed = searchBooks request) by (rewrite Hpath; reflexivity).
  split; [|split].
  - intros Hq.
    apply (proj2 (fetch_of_route (searchBooks request) [] w2 Hct Hroute)).
    unfold Worker.searchBooks. fold q. destruct Hq as [-> | ->]; reflexivity.
  - intros query Hq Hlong.
    apply (proj2 (fetch_of_route (searchBooks request) [] w2 Hct Hroute)).
    unfold Worker.searchBooks. fold q. rewrite Hq.
    destruct (String.eqb_spec query "") as [E|_].
    + subst query. simpl in Hlong. lia.
    + destruct (Nat.ltb_spec 200 (String.length query)); [reflexivity|lia].
  - intros query results Hq Hne Hshort term asked Hrows.
    apply (proj1 (fetch_of_route (searchBooks request) [asked] (after h asked w2)
                    Hct Hroute)).
    unfold Worker.searchBooks. fold q. rewrite Hq.
    destruct (String.eqb_spec query "") as [E|_]; [contradiction|].
    destruct (Nat.ltb_spec 200 (String.length query)); [lia|].
    rewrite run_bind, run_executeQuery. fold term. fold asked. rewrite Hrows.
    reflexivity.
Qed.

(** X14.  A path that is none of the five routes is answered 404 'Not
    Found' past the gates.  The answer is returned, not thrown: no error
    record is logged and the store is not called. *)
Theorem unknown_route_not_found :
  validateContentType request = Ret tt ->
  matchSingleBook (pathname request) = None ->
  ~ In (pathname request)
       ["/api/books/search"; "/api/books"; "/api/stats"; "/api/health"] ->
  let trace := (opening ++ tg ++ [completed requestId])%list in
  answer = (trace, Returned (createResponse (errorBody "Not Found") 404 []))
  /\ filter isStoreCall trace = [].
Proof.
  intros Hct Hnone Hother trace. split.
  - assert (Hroute : routed = Ret (createResponse (errorBody "Not Found") 404 [])).
    { rewrite Hnone.
      repeat match goal with
             | |- context [String.eqb ?a ?b] =>
                 destruct (String.eqb_spec a b) as [E|_];
                 [exfalso; apply Hother; rewrite E; simpl; tauto|]
             end.
      reflexivity. }
    exact (proj1 (fetch_of_route _ [] w2 Hct Hroute) _ eq_refl).
  - unfold trace. rewrite !filter_app.
    rewrite (gate_trace_no_store captureStack W h w1 env request tg _ w2 Hgate).
    reflexivity.
Qed.

(** X15.  A method the route does not support is answered 405 'Method
    not allowed', returned and not thrown.  On the collection this
    happens with no call to the store; on the single-record route only
    after the lookup has found the book. *)
Theorem unsupported_method_refused :
  validateContentType request = Ret tt ->
  (pathname request = "/api/books" ->
   ~ In (method request) ["GET"; "POST"] ->
   answer = ((opening ++ tg ++ [completed requestId])%list, Returned methodNotAllowed))
  /\ (forall segment id rows,
      matchSingleBook (pathname request) = Some segment ->
      Js.parseIntStr segment = Some id ->
      0 < id ->
      let lookup := RaceAll selectByIdSql [JNum id] in
      reply h lookup w2 = Rows rows ->
      Js.truthy (hd JUndefined rows) = true ->
      ~ In (method request) ["GET"; "PUT"; "DELETE"] ->
      answer
      = ((opening ++ tg ++ [lookup; completed requestId])%list, Returned methodNotAllowed)).
Proof.
  intros Hct. split.
  - intros Hpath Hverb.
    assert (Hroute : routed = Ret methodNotAllowed).
    { rewrite Hpath. cbn [String.eqb Ascii.eqb Bool.eqb]. unfold Worker.booksCollection.
      repeat match goal with
             | |- context [String.eqb (method request) ?b] =>
                 destruct (String.eqb_spec (method request) b) as [E|_];
                 [exfalso; apply Hverb; rewrite E; simpl; tauto|]
             end.
      reflexivity. }
    exact (proj1 (fetch_of_route _ [] w2 Hct Hroute) _ eq_refl).
  - intros segment id rows Hseg Hid Hpos lookup Hrows Hfound Hverb.
    apply (proj1 (fetch_of_route _ [lookup] (after h lookup w2) Hct
                    (single_route segment Hseg))).
    rewrite (run_singleBook_found W h w2 request requestId segment id rows
               Hid Hpos Hrows Hfound).
    repeat match goal with
           | |- context [String.eqb (method request) ?b] =>
               destruct (String.eqb_spec (method request) b) as [E|_];
               [exfalso; apply Hverb; rewrite E; simpl; tauto|]
           end.
    reflexivity.
Qed.

(** X16.  A body that cannot be read as JSON is answered from the
    message of the failure alone: 504 'Request timeout' when the message
    holds 'timeout', else 400 'Invalid JSON in request body' when it
    holds 'JSON', else 500 'An unexpected error occurred'.  On POST to
    the collection nothing is asked of the store; on PUT to a book that
    exists only the lookup is. *)
Theorem unreadable_body_answered (fault : Fault) :
  validateContentType request = Ret tt ->
  json request = inl fault ->
  let error := ofFault fault in
  let verdict :=
    if Str.includes (faultMessage fault) "timeout" then (504, "Request timeout")
    else if Str.includes (faultMessage fault) "JSON"
    then (400, "Invalid JSON in request body")
    else (500, "An unexpected error occurred") in
  let response := createResponse (errorBody (snd verdict)) (fst verdict) [] in
  (pathname request = "/api/books" -> method request = "POST" ->
   answer
   = ((opening ++ tg ++ [failed request requestId error; completed requestId])%list,
      Returned response))
  /\ (forall segment id rows,
      matchSingleBook (pathname request) = Some segment ->
      Js.parseIntStr segment = Some id ->
      0 < id ->
      let lookup := RaceAll selectByIdSql [JNum id] in
      reply h lookup w2 = Rows rows ->
      Js.truthy (hd JUndefined rows) = true ->
      method request = "PUT" ->
      answer
      = ((opening ++ tg ++ [lookup; failed request requestId error; completed requestId])%list,
         Returned response)).
Proof.
  intros Hct Hjson error verdict response.
  assert (Hresp : errorResponse error = response).
  { unfold response, verdict, Worker.errorResponse, Worker.errorStatusMessage. simpl.
    destruct (Str.includes (faultMessage fault) "timeout"); [reflexivity|].
    destruct (Str.includes (faultMessage fault) "JSON"); reflexivity. }
  rewrite <- Hresp. split.
  - intros Hpath Hpost.
    assert (Hroute : routed = createBook request requestId).
    { rewrite Hpath. cbn [String.eqb Ascii.eqb Bool.eqb]. unfold Worker.booksCollection.
      rewrite Hpost. reflexivity. }
    apply (proj2 (fetch_of_route _ [] w2 Hct Hroute)).
    unfold Worker.createBook. rewrite Hjson. reflexivity.
  - intros segment id rows Hseg Hid Hpos lookup Hrows Hfound Hput.
    apply (proj2 (fetch_of_route _ [lookup] (after h lookup w2) Hct
                    (single_route segment Hseg))).
    rewrite (run_singleBook_found W h w2 request requestId segment id rows
               Hid Hpos Hrows Hfound).
    rewrite Hput. cbn [String.eqb Ascii.eqb Bool.eqb].
    unfold Worker.updateBook. rewrite Hjson. reflexivity.
Qed.

(** X17.  DELETE of a book that exists runs the lookup and then the one
    DELETE statement bound to the id.  When the store reports success
    the deletion is logged and the answer is 204 with no body; when it
    reports failure the answer is 500 'An unexpected error occurred'.
    The body of the request is not read and its content type is not
    examined. *)
Theorem delete_book
  (segment : string) (id : Z) (rows : list JsValue) (result : RunResult) :
  method request = "DELETE" ->
  matchSingleBook (pathname request) = Some segment ->
  Js.parseIntStr segment = Some id ->
  0 < id ->
  let lookup := RaceAll selectByIdSql [JNum id] in
  let removal := StmtRun "DELETE FROM books WHERE id = ?" [JNum id] in
  let logged :=
    Console LogLevel "Book deleted:" [("requestId", JStr requestId); ("bookId", JNum id)] in
  let failure := newError PlainError "Failed to delete book" in
  reply h lookup w2 = Rows rows ->
  Js.truthy (hd JUndefined rows) = true ->
  reply h removal (after h lookup w2) = inr result ->
  answer
  = if success result
    then ((opening ++ tg ++ [lookup; removal; logged; completed requestId])%list,
          Returned (createResponse JNull 204 []))
    else ((opening ++ tg
             ++ [lookup; removal; failed request requestId failure; completed requestId])%list,
          Returned (createResponse (errorBody "An unexpected error occurred") 500 [])).
Proof.
  intros Hdelete Hseg Hid Hpos lookup removal logged failure Hrows Hfound Hresult.
  assert (Hct : validateContentType request = Ret tt).
  { apply validateContentType_other. rewrite Hdelete. reflexivity. }
  assert (Hrun : run h (singleBook request requestId segment) w2
                 = if success result
                   then ([lookup; removal; logged], Returned (createResponse JNull 204 []),
                         after h logged (after h removal (after h lookup w2)))
                   else ([lookup; removal], Threw failure,
                         after h removal (after h lookup w2))).
  { rewrite (run_singleBook_found W h w2 request requestId segment id rows
               Hid Hpos Hrows Hfound).
    rewrite Hdelete. cbn [String.eqb Ascii.eqb Bool.eqb].
    unfold Worker.deleteBook. rewrite run_bind, run_call.
    fold lookup. fold removal. rewrite Hresult. unfold Worker.await. cbn [bind].
    destruct (success result); cbn [negb].
    - rewrite run_bind, run_log. reflexivity.
    - reflexivity. }
  destruct (success result).
  - exact (proj1 (fetch_of_route _ _ _ Hct (single_route segment Hseg)) _ Hrun).
  - exact (proj2 (fetch_of_route _ _ _ Hct (single_route segment Hseg)) _ Hrun).
Qed.

(** X18.  POST of a record that passes validation runs the INSERT with
    the six values in column order, title and author trimmed.  When the
    store reports success the row is read back by the [last_row_id] the
    store returned, the creation is logged and the answer is 201 with the
    row read back; when it reports failure the answer is 500 'An
    unexpected error occurred' and nothing is read back. *)
Theorem create_book (props : list (string * JsValue)) (result : RunResult) :
  pathname request = "/api/books" ->
  method request = "POST" ->
  validateContentType request = Ret tt ->
  json request = inr (JObj props) ->
  validateBook (JObj props) false = Ret tt ->
  exists title author,
    Js.prop (JObj props) "title" = JStr title
    /\ Js.prop (JObj props) "author" = JStr author
    /\ let insertion :=
         StmtRun insertSql
           [JStr (Str.trim title); JStr (Str.trim author);
            Js.orNull (Js.prop (JObj props) "year");
            Js.orNull (Js.prop (JObj props) "isbn");
            textOrNull (Js.prop (JObj props) "genre");
            textOrNull (Js.prop (JObj props) "description")] in
       let readBack := RaceAll selectByIdSql [last_row_id result] in
       let logged :=
         Console LogLevel "Book created:"
           [("requestId", JStr requestId); ("bookId", last_row_id result)] in
       let failure := newError PlainError "Failed to insert book" in
       reply h insertion w2 = inr result ->
       (success result = false ->
        answer
        = ((opening ++ tg
              ++ [insertion; failed request requestId failure; completed requestId])%list,
           Returned (createResponse (errorBody "An unexpected error occurred") 500 [])))
       /\ (success result = true ->
           forall rows, reply h readBack (after h insertion w2) = Rows rows ->
           answer
           = ((opening ++ tg ++ [insertion; readBack; logged; completed requestId])%list,
              Returned (createResponse (hd JUndefined rows) 201 []))).
Proof.
  intros Hpath Hpost Hct Hjson Hvalid.
  destruct (insertBindings_of_valid currentYear captureStack props Hvalid)
    as (title & author & Htitle & Hauthor & Hbinds).
  exists title, author. split; [exact Htitle|]. split; [exact Hauthor|].
  intros insertion readBack logged failure Hresult.
  assert (Hroute : routed = createBook request requestId).
  { rewrite Hpath. cbn [String.eqb Ascii.eqb Bool.eqb]. unfold Worker.booksCollection.
    rewrite Hpost. reflexivity. }
  assert (Hcreate : createBook request requestId
                    = (r <- call insertion ;;
                       result <- Worker.await r ;;
                       if negb (success result)
                       then throw PlainError "Failed to insert book"
                       else
                         rows <- executeQuery selectByIdSql [last_row_id result] ;;
                         Worker.log LogLevel "Book created:"
                           [("requestId", JStr requestId);
                            ("bookId", last_row_id result)] ;;
                         Ret (createResponse (hd JUndefined rows) 201 []))%prog).
  { unfold Worker.createBook. rewrite Hjson. unfold Worker.await at 1. cbn [bind].
    rewrite Hvalid. cbn [bind]. rewrite Hbinds. reflexivity. }
  split.
  - intros Hfail.
    apply (proj2 (fetch_of_route _ [insertion] (after h insertion w2) Hct Hroute)).
    rewrite Hcreate, run_bind, run_call, Hresult. unfold Worker.await. cbn [bind].
    rewrite Hfail. reflexivity.
  - intros Hok rows Hrows.
    apply (proj1 (fetch_of_route _ [insertion; readBack; logged]
                    (after h logged (after h readBack (after h insertion w2)))
                    Hct Hroute)).
    rewrite Hcreate, run_bind, run_call, Hresult. unfold Worker.await. cbn [bind].
    rewrite Hok. cbn [negb].
    rewrite run_bind, run_executeQuery. fold readBack. rewrite Hrows.
    rewrite run_bind, run_log. reflexivity.
Qed.

(** X19.  An update cannot blank the title.  When the payload of a PUT
    to a book that exists has a [title] that is not a text, or a text
    that is empty once trimmed, the merged record fails validation: the
    answer is 400 'Title must be a non-empty string' and no UPDATE is
    run, whatever the other keys of the payload and the stored book
    are. *)
Theorem update_cannot_blank_title
  (segment : string) (id : Z) (rows : list JsValue)
  (props : list (string * JsValue)) (value : JsValue) :
  method request = "PUT" ->
  validateContentType request = Ret tt ->
  matchSingleBook (pathname request) = Some segment ->
  Js.parseIntStr segment = Some id ->
  0 < id ->
  let lookup := RaceAll selectByIdSql [JNum id] in
  let blank := newError ValidationError "Title must be a non-empty string" in
  let trace :=
    (opening ++ tg ++ [lookup; failed request requestId blank; completed requestId])%list in
  reply h lookup w2 = Rows rows ->
  Js.truthy (hd JUndefined rows) = true ->
  json request = inr (JObj props) ->
  Js.lookup "title" props = Some value ->
  value <> JUndefined ->
  (forall s, value = JStr s -> Str.trim s = "") ->
  answer
  = (trace, Returned (createResponse (errorBody "Title must be a non-empty string") 400 []))
  /\ filter isStoreCall trace = [lookup].
Proof.
  intros Hput Hct Hseg Hid Hpos lookup blank trace Hrows Hfound Hjson Hvalue
         Hdefined Hblank.
  set (book := hd JUndefined rows) in *.
  assert (Hmerged : Js.prop (Js.spread book (JObj props)) "title" = value).
  { pose proof (lookup_spread "title" book (JObj props)) as Hl.
    simpl Js.ownProps in Hl. rewrite Hvalue in Hl.
    unfold Js.prop, Js.spread. unfold Js.spread in Hl. rewrite Hl. reflexivity. }
  assert (Hreject : validateBook (Js.spread book (JObj props)) true = Throw blank).
  { unfold Worker.validateBook, Worker.checkRequired. cbn [negb bind].
    unfold Worker.checkText at 1.
    change (getProp (Js.spread book (JObj props)) "title")
      with (Ret (A := JsValue) (Js.prop (Js.spread book (JObj props)) "title")).
    rewrite Hmerged. cbn [bind].
    destruct value; try reflexivity.
    - contradiction.
    - rewrite (Hblank s eq_refl). reflexivity. }
  split.
  - apply (proj2 (fetch_of_route _ [lookup] (after h lookup w2) Hct
                    (single_route segment Hseg))).
    rewrite (run_singleBook_found W h w2 request requestId segment id rows
               Hid Hpos Hrows Hfound).
    rewrite Hput. cbn [String.eqb Ascii.eqb Bool.eqb]. fold book.
    rewrite (updateBook_object currentYear captureStack request requestId book id props
               Hjson).
    destruct (updateFieldsOf (map fst props)) eqn:Hfields.
    + exfalso.
      apply (updateFieldsOf_some "title" (map fst props) eq_refl
               (lookup_In _ _ _ Hvalue) Hfields).
    + cbn [List.length Nat.eqb]. rewrite Hreject. reflexivity.
  - unfold trace. rewrite !filter_app.
    rewrite (gate_trace_no_store captureStack W h w1 env request tg _ w2 Hgate).
    reflexivity.
Qed.


(** X21.  PUT of a payload with at least one allowed key, to a book
    that exists and whose merge with the payload passes validation, runs
    the one UPDATE statement.  When the store reports success the book is
    read back by its id, the update is logged with the names of the
    updated fields and the answer is 200 with the row read back; when it
    reports failure the answer is 500 'An unexpected error occurred' and
    nothing is read back. *)
Theorem update_book
  (segment : string) (id : Z) (rows : list JsValue)
  (props : list (string * JsValue)) (result : RunResult) :
  method request = "PUT" ->
  validateContentType request = Ret tt ->
  matchSingleBook (pathname request) = Some segment ->
  Js.parseIntStr segment = Some id ->
  0 < id ->
  let lookup := RaceAll selectByIdSql [JNum id] in
  let book := hd JUndefined rows in
  let updateFields := updateFieldsOf (map fst props) in
  let update :=
    StmtRun ("UPDATE books SET " ++ setClauseOf updateFields ++ " WHERE id = ?")
            (updateValues (JObj props) updateFields id) in
  let logged :=
    Console LogLevel "Book updated:"
      [("requestId", JStr requestId); ("bookId", JNum id);
       ("updatedFields", JArr (map JStr updateFields))] in
  let failure := newError PlainError "Failed to update book" in
  reply h lookup w2 = Rows rows ->
  Js.truthy book = true ->
  json request = inr (JObj props) ->
  updateFields <> [] ->
  validateBook (Js.spread book (JObj props)) true = Ret tt ->
  reply h update (after h lookup w2) = inr result ->
  (success result = false ->
   answer
   = ((opening ++ tg
         ++ [lookup; update; failed request requestId failure; completed requestId])%list,
      Returned (createResponse (errorBody "An unexpected error occurred") 500 [])))
  /\ (success result = true ->
      forall fresh, reply h lookup (after h update (after h lookup w2)) = Rows fresh ->
      answer
      = ((opening ++ tg ++ [lookup; update; lookup; logged; completed requestId])%list,
         Returned (createResponse (hd JUndefined fresh) 200 []))).
Proof.
  intros Hput Hct Hseg Hid Hpos lookup book updateFields update logged failure
         Hrows Hfound Hjson Hsome Hvalid Hresult.
  assert (Hbranch : run h (singleBook request requestId segment) w2
                    = let '(t, o, w3) :=
                        run h (updateBook request requestId book id) (after h lookup w2) in
                      (lookup :: t, o, w3)).
  { rewrite (run_singleBook_found W h w2 request requestId segment id rows
               Hid Hpos Hrows Hfound).
    rewrite Hput. reflexivity. }
  assert (Hupdate : updateBook request requestId book id
                    = (r <- call update ;;
                       result <- Worker.await r ;;
                       if negb (success result)
                       then throw PlainError "Failed to update book"
                       else
                         rows <- executeQuery selectByIdSql [JNum id] ;;
                         Worker.log LogLevel "Book updated:"
                           [("requestId", JStr requestId); ("bookId", JNum id);
                            ("updatedFields", JArr (map JStr updateFields))] ;;
                         Ret (createResponse (hd JUndefined rows) 200 []))%prog).
  { rewrite (updateBook_object currentYear captureStack request requestId book id props
               Hjson).
    fold updateFields. destruct updateFields as [|field more]; [contradiction|].
    cbn [List.length Nat.eqb]. rewrite Hvalid. reflexivity. }
  rewrite Hupdate in Hbranch. rewrite run_bind, run_call, Hresult in Hbranch.
  unfold Worker.await in Hbranch. cbn [bind] in Hbranch.
  split.
  - intros Hfail. rewrite Hfail in Hbranch. cbn [negb] in Hbranch.
    exact (proj2 (fetch_of_route _ _ _ Hct (single_route segment Hseg)) _ Hbranch).
  - intros Hok fresh Hfresh. rewrite Hok in Hbranch. cbn [negb] in Hbranch.
    rewrite run_bind, run_executeQuery in Hbranch. fold lookup in Hbranch.
    rewrite Hfresh in Hbranch. rewrite run_bind, run_log in Hbranch.
    exact (proj1 (fetch_of_route _ _ _ Hct (single_route segment Hseg)) _ Hbranch).
Qed.

End PastGates.

End Coverage.

(** ** The properties above at concrete requests *)

(** A preflight that declares 2000000 bytes, with the limiter bound: 204
    after the two opening calls. *)
Lemma options_preflight_witness :
  run scripted (fetch theYear stackOf preflight withLimiter) [LimiterSays (inr false)]
  = ([RandomUUID; started preflight "4b3c1f0e-6f0a-4c58-9d0b-2a7c1d9e8f11"],
     Returned (createResponse JNull 204 []),
     [LimiterSays (inr false)]).
Proof.
  exact (proj1 (options_preflight theYear stackOf (list Canned) scripted
                  [LimiterSays (inr false)] preflight withLimiter eq_refl)).
Defined.

(** The health check: one completion record, the last of the trace. *)
Lemma completion_logged_once_witness :
  let request := getRequest "/api/health" [] in
  filter isCompletion
    (fst (fst (run scripted (fetch theYear stackOf request noLimiter) [])))
  = [completed "4b3c1f0e-6f0a-4c58-9d0b-2a7c1d9e8f11"].
Proof.
  intros request.
  assert (Hm : method request <> "OPTIONS") by discriminate.
  exact (proj2 (proj1 (completion_logged_once theYear stackOf (list Canned) scripted []
                         request noLimiter) Hm eq_refl)).
Defined.

(** A request the limiter denies: 429 and no call to the store. *)
Lemma rate_limited_request_stops_witness :
  let request := getRequest "/api/books" [] in
  exists trace w',
    run scripted (fetch theYear stackOf request withLimiter) [LimiterSays (inr false)]
    = (trace,
       Returned (createResponse
                   (errorBody "Rate limit exceeded. Please try again later.") 429 []),
       w')
    /\ filter isStoreCall trace = [].
Proof.
  intros request.
  assert (Hm : method request <> "OPTIONS") by discriminate.
  destruct (rate_limited_request_stops theYear stackOf (list Canned) scripted
              [LimiterSays (inr false)] request withLimiter Hm eq_refl eq_refl eq_refl)
    as [Hrun Hstore].
  eexists. eexists. split; [exact Hrun|exact Hstore].
Defined.

(** A POST of plain text: 400, the body not read. *)
Lemma content_type_gate_witness :
  let request :=
    mkRequest "POST" "https://books.example/api/books" "/api/books" []
              [("content-type", "text/plain")] (inr orwell) in
  exists trace w',
    run scripted (fetch theYear stackOf request noLimiter) []
    = (trace,
       Returned (createResponse (errorBody "Content-Type must be application/json") 400 []),
       w')
    /\ filter isStoreCall trace = [].
Proof.
  intros request.
  assert (Hm : method request <> "OPTIONS") by discriminate.
  destruct (content_type_gate theYear stackOf (list Canned) scripted [] request noLimiter
              [] [] Hm eq_refl eq_refl)
    as (_ & _ & Hrefused).
  destruct (Hrefused eq_refl eq_refl) as [Hrun Hstore].
  eexists. eexists. split; [exact Hrun|exact Hstore].
Defined.

(** A search for 'orwell' that finds one book. *)
Lemma search_endpoint_witness :
  let request := getRequest "/api/books/search" [("q", "orwell")] in
  exists trace,
    fst (run scripted (fetch theYear stackOf request noLimiter) [RaceSays (Rows [orwell])])
    = (trace,
       Returned (createResponse
                   (JObj [("query", JStr "orwell");
                          ("results", JArr [orwell]);
                          ("count", JNum 1)])
                   200 shortCache)).
Proof.
  intros request.
  assert (Hm : method request <> "OPTIONS") by discriminate.
  assert (Hne : "orwell" <> "") by discriminate.
  assert (Hlen : (String.length "orwell" <= 200)%nat) by (simpl; lia).
  destruct (search_endpoint theYear stackOf (list Canned) scripted
              [RaceSays (Rows [orwell])] request noLimiter [] [RaceSays (Rows [orwell])]
              Hm eq_refl eq_refl eq_refl eq_refl)
    as (_ & _ & Hfound).
  eexists. exact (Hfound "orwell" [orwell] eq_refl Hne Hlen eq_refl).
Defined.

(** A path that is no route of the worker. *)
Lemma unknown_route_not_found_witness :
  let request := getRequest "/api/authors" [] in
  exists trace,
    fst (run scripted (fetch theYear stackOf request noLimiter) [])
    = (trace, Returned (createResponse (errorBody "Not Found") 404 []))
    /\ filter isStoreCall trace = [].
Proof.
  intros request.
  assert (Hm : method request <> "OPTIONS") by discriminate.
  assert (Hother : ~ In (pathname request)
                       ["/api/books/search"; "/api/books"; "/api/stats"; "/api/health"]).
  { simpl. intros [E | [E | [E | [E | []]]]]; discriminate E. }
  eexists.
  exact (unknown_route_not_found theYear stackOf (list Canned) scripted [] request noLimiter
           [] [] Hm eq_refl eq_refl eq_refl eq_refl Hother).
Defined.

(** DELETE of the collection. *)
Lemma unsupported_method_refused_witness :
  let request := bodyRequest "DELETE" "/api/books" JNull in
  exists trace,
    fst (run scripted (fetch theYear stackOf request noLimiter) [])
    = (trace, Returned methodNotAllowed)
    /\ filter isStoreCall trace = [].
Proof.
  intros request.
  assert (Hm : method request <> "OPTIONS") by discriminate.
  assert (Hverb : ~ In (method request) ["GET"; "POST"]).
  { simpl. intros [E | [E | []]]; discriminate E. }
  eexists. split.
  - exact (proj1 (unsupported_method_refused theYear stackOf (list Canned) scripted []
                    request noLimiter [] [] Hm eq_refl eq_refl eq_refl) eq_refl Hverb).
  - reflexivity.
Defined.

(** A POST whose body is cut short. *)
Lemma unreadable_body_answered_witness :
  let request :=
    mkRequest "POST" "https://books.example/api/books" "/api/books" [] jsonHeaders
              (inl (mkFault "Unexpected end of JSON input" "SyntaxError")) in
  exists trace,
    fst (run scripted (fetch theYear stackOf request noLimiter) [])
    = (trace, Returned (createResponse (errorBody "Invalid JSON in request body") 400 [])).
Proof.
  intros request.
  assert (Hm : method request <> "OPTIONS") by discriminate.
  eexists.
  exact (proj1 (unreadable_body_answered theYear stackOf (list Canned) scripted []
                  request noLimiter [] [] Hm eq_refl eq_refl
                  (mkFault "Unexpected end of JSON input" "SyntaxError") eq_refl eq_refl)
           eq_refl eq_refl).
Defined.

(** DELETE of the book 1, which is there. *)
Lemma delete_book_witness :
  let request := bodyRequest "DELETE" "/api/books/1" JNull in
  let world := [RaceSays (Rows [orwell]); RunSays (inr (mkRunResult true JNull))] in
  exists trace,
    fst (run scripted (fetch theYear stackOf request noLimiter) world)
    = (trace, Returned (createResponse JNull 204 []))
    /\ filter isStoreCall trace
       = [RaceAll selectByIdSql [JNum 1];
          StmtRun "DELETE FROM books WHERE id = ?" [JNum 1]].
Proof.
  intros request world.
  assert (Hm : method request <> "OPTIONS") by discriminate.
  assert (Hpos : 0 < 1) by lia.
  eexists. split.
  - exact (delete_book theYear stackOf (list Canned) scripted world request noLimiter
             [] world Hm eq_refl eq_refl "1" 1 [orwell] (mkRunResult true JNull)
             eq_refl eq_refl eq_refl Hpos eq_refl eq_refl eq_refl).
  - reflexivity.
Defined.

(** POST of a valid record: 201 with the row read back. *)
Lemma create_book_witness :
  let request := bodyRequest "POST" "/api/books" dune in
  let world := [RunSays (inr (mkRunResult true (JNum 8))); RaceSays (Rows [duneStored])] in
  exists trace,
    fst (run scripted (fetch theYear stackOf request noLimiter) world)
    = (trace, Returned (createResponse duneStored 201 [])).
Proof.
  intros request world.
  assert (Hm : method request <> "OPTIONS") by discriminate.
  destruct (create_book theYear stackOf (list Canned) scripted world request noLimiter
              [] world Hm eq_refl eq_refl
              [("title", JStr "  Dune "); ("author", JStr "Frank Herbert");
               ("year", JNum 1965)]
              (mkRunResult true (JNum 8)) eq_refl eq_refl eq_refl eq_refl eq_refl)
    as (title & author & _ & _ & Hrun).
  eexists. exact (proj2 (Hrun eq_refl) eq_refl [duneStored] eq_refl).
Defined.

(** PUT of a blank title to the book 1. *)
Lemma update_cannot_blank_title_witness :
  let request := bodyRequest "PUT" "/api/books/1" (JObj [("title", JStr "   ")]) in
  exists trace,
    fst (run scripted (fetch theYear stackOf request noLimiter) [RaceSays (Rows [orwell])])
    = (trace,
       Returned (createResponse (errorBody "Title must be a non-empty string") 400 []))
    /\ filter isStoreCall trace = [RaceAll selectByIdSql [JNum 1]].
Proof.
  intros request.
  assert (Hm : method request <> "OPTIONS") by discriminate.
  assert (Hpos : 0 < 1) by lia.
  assert (Hdefined : JStr "   " <> JUndefined) by discriminate.
  assert (Hblank : forall s, JStr "   " = JStr s -> Str.trim s = "").
  { intros s E. injection E as <-. reflexivity. }
  eexists.
  exact (update_cannot_blank_title theYear stackOf (list Canned) scripted
           [RaceSays (Rows [orwell])] request noLimiter [] [RaceSays (Rows [orwell])]
           Hm eq_refl eq_refl "1" 1 [orwell] [("title", JStr "   ")] (JStr "   ")
           eq_refl eq_refl eq_refl eq_refl Hpos eq_refl eq_refl eq_refl eq_refl
           Hdefined Hblank).
Defined.

(** In 2026 the year 2037 is out of range and 2036 is not. *)
Lemma year_check_range_witness :
  Worker.checkYear theYear stackOf (JObj [("year", JNum 2037)])
  = Worker.throw stackOf ValidationError "Year must be a valid number between 0 and 2036"
  /\ Worker.checkYear theYear stackOf (JObj [("year", JStr "2036")]) = Ret tt.
Proof.
  split.
  - exact (proj2 (year_check_range theYear stackOf [("year", JNum 2037)] eq_refl) 2037
             eq_refl (or_introl eq_refl)).
  - exact (proj2 (year_check_range theYear stackOf [("year", JStr "2036")] eq_refl) 2036
             eq_refl (or_intror eq_refl)).
Defined.

(** Page 3 with a limit of 250. *)
Lemma page_and_limit_of_decimal_witness :
  let params := [("page", "3"); ("limit", "250")] in
  pageOf params = 3 /\ limitOf params = 100.
Proof.
  intros params. split.
  - exact (proj1 (page_and_limit_of_decimal params 3 eq_refl) eq_refl).
  - exact (proj2 (page_and_limit_of_decimal params 250 eq_refl) eq_refl).
Defined.

(** An empty title and no author. *)
Lemma required_fields_reported_witness :
  Worker.validateBook theYear stackOf
    (JObj [("title", JStr ""); ("year", JNum 1999)]) false
  = Worker.throw stackOf ValidationError "Missing required fields: title, author".
Proof.
  assert (Hmissing : filter (fun field =>
                               negb (Js.truthy
                                       (Js.prop (JObj [("title", JStr ""); ("year", JNum 1999)])
                                                field)))
                            ["title"; "author"] <> []) by discriminate.
  exact (proj1 (required_fields_reported theYear stackOf
                  [("title", JStr ""); ("year", JNum 1999)]) Hmissing).
Defined.


(** PUT of a new genre to the book 1: the genre is bound trimmed, the row
    is read back. *)
Lemma update_book_witness :
  let request := bodyRequest "PUT" "/api/books/1" (JObj [("genre", JStr " Satire ")]) in
  let world := [RaceSays (Rows [orwell]); RunSays (inr (mkRunResult true JNull));
                RaceSays (Rows [orwellSatire])] in
  exists trace,
    fst (run scripted (fetch theYear stackOf request noLimiter) world)
    = (trace, Returned (createResponse orwellSatire 200 []))
    /\ filter isStoreCall trace
       = [RaceAll selectByIdSql [JNum 1];
          StmtRun "UPDATE books SET genre = ? WHERE id = ?" [JStr "Satire"; JNum 1];
          RaceAll selectByIdSql [JNum 1]].
Proof.
  intros request world.
  assert (Hm : method request <> "OPTIONS") by discriminate.
  assert (Hpos : 0 < 1) by lia.
  assert (Hsome : updateFieldsOf (map fst [("genre", JStr " Satire ")]) <> [])
    by discriminate.
  eexists. split.
  - exact (proj2 (update_book theYear stackOf (list Canned) scripted world request noLimiter
                    [] world Hm eq_refl eq_refl "1" 1 [orwell]
                    [("genre", JStr " Satire ")] (mkRunResult true JNull)
                    eq_refl eq_refl eq_refl eq_refl Hpos eq_refl eq_refl eq_refl
                    Hsome eq_refl eq_refl)
             eq_refl [orwellSatire] eq_refl).
  - reflexivity.
Defined.

(** The limiter is down: the request is answered as with no limiter,
    after the record of the failure. *)
Lemma limiter_fails_open_witness :
  let request := getRequest "/api/books/search" [("q", "orwell")] in
  let outage := mkFault "limiter unavailable" "Error" in
  let term := JStr "%orwell%" in
  run scripted (Worker.dispatch theYear stackOf withLimiter request "rid")
      [LimiterSays (inl outage); RaceSays (Rows [orwell])]
  = ([Limit "";
      Console ErrorLevel "Rate limiter error:" [("message", JStr "limiter unavailable")];
      RaceAll searchSql [term; term; term; term; term; term]],
     Returned (createResponse
                 (JObj [("query", JStr "orwell");
                        ("results", JArr [orwell]);
                        ("count", JNum 1)])
                 200 shortCache),
     []).
Proof.
  intros request outage term.
  exact (proj2 (limiter_fails_open theYear stackOf (list Canned) scripted
                  [LimiterSays (inl outage); RaceSays (Rows [orwell])]
                  request withLimiter "rid" eq_refl)
           outage eq_refl).
Defined.
